(** * SoftYPM MCP server: the tool dispatcher and the backend gateway

    A shallow embedding of the server module (class [SoftYPMServer]: the
    argument schemas, the session context and the handlers of
    set_project_context, get_project_info, create_story, update_story_status
    and list_my_stories) and of [src/softypm-client.ts] (class
    [SoftYPMClient]: the health probe over the HTTP client, and the interface
    the dispatcher calls), followed by the properties of the workflow guard,
    of project-id resolution and of the soft warning responses.  Two further
    modules embed the rest of the two classes: [Gateway], the methods of
    [SoftYPMClient] over the HTTP client with its response interceptor, on
    response bodies as [JSON.parse] gives them, and [Dispatcher], the tool
    list, the handler of get_story and the switch over the tools with its
    error wrapping.

    [SoftYPMServer] and [Dispatcher] read the handlers under the types
    their source declares for the answers of the gateway ([Project],
    [Story]).  These types are erased at run time, so a last module,
    [Runtime], reads the six handlers and the switch again on what the
    gateway returns, any JSON value, with the TypeErrors that the [catch]
    of each handler turns into an [McpError].  On answers of the declared
    types the two readings agree ([callTool_typed]); the properties that
    depend on what the backend answers are stated on [Runtime], and close
    the file.

    Conventions.
    - A JavaScript number is a rational [Q] when it is finite, [NaN] or an
      infinity otherwise; [===] on finite numbers is [Qeq_bool].  A number
      of a JSON value is the double the parser made of it, and [parseInt]
      rounds to the nearest double.  The sign of zero is not modelled, and
      the only arithmetic of the program is on array lengths.
    - A JavaScript string is a [string] of UTF-8 bytes.
    - [Number::toString] is a parameter ([show]) of every definition that
      interpolates a number into a template literal.
    - Exceptions are values: a computation returns [Return a] or [Throw e],
      and the state it reached is kept in both cases. *)

From Stdlib Require Import String Ascii List ZArith QArith Bool Lia DecimalString.
Import ListNotations.
Set Warnings "-register-all".
Local Open Scope list_scope.
Local Open Scope string_scope.

(* ================================================================== *)
(** ** JavaScript values and built-ins used by the program *)

Module JS.

(** The number type: finite values, NaN, and the two infinities. *)
Inductive number : Type :=
| Finite (q : Q)
| NaN
| Infinity (negative : bool).

(** [a === b] on numbers. *)
Definition strict_eq (a b : number) : bool :=
  match a, b with
  | Finite x, Finite y => Qeq_bool x y
  | Infinity x, Infinity y => Bool.eqb x y
  | _, _ => false
  end.

(** SameValueZero, the comparison of [Array.prototype.includes]. *)
Definition same_value_zero (a b : number) : bool :=
  match a, b with
  | Finite x, Finite y => Qeq_bool x y
  | NaN, NaN => true
  | Infinity x, Infinity y => Bool.eqb x y
  | _, _ => false
  end.

(** [a > b] on finite numbers. *)
Definition gt (a b : Q) : bool := negb (Qle_bool a b).

(** ToBoolean on a finite number: only zero is falsy. *)
Definition truthy_Q (q : Q) : bool := negb (Qeq_bool q 0).

(** ToBoolean on a number: zero and NaN are falsy. *)
Definition truthy (n : number) : bool :=
  match n with
  | Finite q => truthy_Q q
  | NaN => false
  | Infinity _ => true
  end.

(** ToBoolean on a string: only the empty string is falsy. *)
Definition truthy_string (s : string) : bool :=
  match s with
  | EmptyString => false
  | String _ _ => true
  end.

(** [Array.prototype.includes] on an array of numbers. *)
Definition includes (xs : list number) (x : number) : bool :=
  existsb (fun y => same_value_zero y x) xs.

(** [Array.prototype.slice(0, n)]. *)
Definition slice0 {A : Type} (n : nat) (xs : list A) : list A := firstn n xs.

(** [Array.prototype.join]. *)
Definition join (sep : string) (xs : list string) : string :=
  String.concat sep xs.

(** The values [JSON.parse] produces, and [undefined] for an absent
    property or an absent argument object.  An object is the list of its
    own properties; a key occurs once in a parsed object, and [get] reads
    the first occurrence. *)
Inductive value : Type :=
| VUndefined
| VNull
| VBool (b : bool)
| VNumber (q : Q)
| VString (s : string)
| VArray (xs : list value)
| VObject (fields : list (string * value)).

Fixpoint get (key : string) (fields : list (string * value)) : value :=
  match fields with
  | [] => VUndefined
  | (k, v) :: rest => if String.eqb k key then v else get key rest
  end.

(** *** parseInt *)

Definition byte_is (n : nat) (c : ascii) : bool := Nat.eqb (nat_of_ascii c) n.

(** Strips one leading white-space or line-terminator code point, given
    as its UTF-8 bytes: TAB, LF, VT, FF, CR, SP, U+00A0, U+1680,
    U+2000..U+200A, U+2028, U+2029, U+202F, U+205F, U+3000, U+FEFF. *)
Definition strip_one (s : string) : option string :=
  match s with
  | String c rest =>
      let n := nat_of_ascii c in
      if ((9 <=? n) && (n <=? 13) || (n =? 32))%nat then Some rest
      else match rest with
           | String d rest1 =>
               let m := nat_of_ascii d in
               if ((n =? 194) && (m =? 160))%nat then Some rest1
               else match rest1 with
                    | String e rest2 =>
                        let k := nat_of_ascii e in
                        if ((n =? 225) && (m =? 154) && (k =? 128))%nat then Some rest2
                        else if ((n =? 226) && (m =? 128) &&
                                 ((128 <=? k) && (k <=? 138) || (k =? 168) ||
                                  (k =? 169) || (k =? 175)))%nat then Some rest2
                        else if ((n =? 226) && (m =? 129) && (k =? 159))%nat then Some rest2
                        else if ((n =? 227) && (m =? 128) && (k =? 128))%nat then Some rest2
                        else if ((n =? 239) && (m =? 187) && (k =? 191))%nat then Some rest2
                        else None
                    | EmptyString => None
                    end
           | EmptyString => None
           end
  | EmptyString => None
  end.

Fixpoint trim_start_fuel (fuel : nat) (s : string) : string :=
  match fuel with
  | O => s
  | S fuel' =>
      match strip_one s with
      | Some rest => trim_start_fuel fuel' rest
      | None => s
      end
  end.

(** Every stripped code point removes at least one byte, so the length of
    the string is enough fuel. *)
Definition trim_start (s : string) : string :=
  trim_start_fuel (String.length s) s.

(** The value of a character as a digit of the given radix (10 or 16). *)
Definition digit_value (radix : Z) (c : ascii) : option Z :=
  let n := Z.of_nat (nat_of_ascii c) in
  let d :=
    (if (48 <=? n) && (n <=? 57) then Some (n - 48)
     else if (97 <=? n) && (n <=? 122) then Some (n - 87)
     else if (65 <=? n) && (n <=? 90) then Some (n - 55)
     else None)%Z in
  match d with
  | Some v => if (v <? radix)%Z then Some v else None
  | None => None
  end.

(** Reads the longest prefix of digits; [None] when there is no digit. *)
Fixpoint digits (radix : Z) (acc : option Z) (s : string) : option Z :=
  match s with
  | EmptyString => acc
  | String c rest =>
      match digit_value radix c with
      | Some v =>
          digits radix
            (Some (match acc with Some a => (a * radix + v)%Z | None => v end))
            rest
      | None => acc
      end
  end.

(** The double nearest to the integer of magnitude [v], with ties going to
    the even significand: exact below 2^53, and an infinity from
    2^1024 - 2^970 on. *)
Definition to_double (negative : bool) (v : Z) : number :=
  let signed (m : Z) := Finite (inject_Z (if negative then (- m)%Z else m)) in
  let n := Z.log2 v in
  if (n <? 53)%Z then signed v
  else
    let e := (n - 52)%Z in
    let q := Z.shiftr v e in
    let r := (v - Z.shiftl q e)%Z in
    let half := Z.shiftl 1 (e - 1) in
    let q' := if (half <? r)%Z || ((r =? half)%Z && Z.odd q)
              then (q + 1)%Z else q in
    let m := Z.shiftl q' e in
    if (Z.shiftl 1 1024 <=? m)%Z then Infinity negative else signed m.

(** [parseInt(s)] with no radix argument.  The digits denote an integer,
    and the result is the double nearest to it. *)
Definition parseInt (s : string) : number :=
  let s1 := trim_start s in
  let '(sign, s2) :=
    match s1 with
    | String c rest =>
        if byte_is 45 c then ((-1)%Z, rest)
        else if byte_is 43 c then (1%Z, rest)
        else (1%Z, s1)
    | EmptyString => (1%Z, s1)
    end in
  let '(radix, s3) :=
    match s2 with
    | String c (String x rest) =>
        if byte_is 48 c && (byte_is 120 x || byte_is 88 x)
        then (16%Z, rest) else (10%Z, s2)
    | _ => (10%Z, s2)
    end in
  match digits radix None s3 with
  | Some v => to_double (sign <? 0)%Z v
  | None => NaN
  end.

End JS.

(* ================================================================== *)
(** ** The part of zod the schemas use *)

Module Zod.

Inductive ZodIssueCode : Type :=
| invalid_type
| too_small
| too_big
| invalid_enum_value
| invalid_union.

(** An issue: its code, the path of the offending property, and the
    message when the schema gives its own. *)
Record ZodIssue : Type := mkIssue {
  code : ZodIssueCode;
  path : list string;
  message : option string
}.

(** The result of running a schema on a value ([safeParse]). *)
Inductive result (A : Type) : Type :=
| Valid (a : A)
| Invalid (issues : list ZodIssue).
Arguments Valid {A} a.
Arguments Invalid {A} issues.

Definition schema (A : Type) : Type := JS.value -> result A.

Definition issue (c : ZodIssueCode) : ZodIssue := mkIssue c [] None.

(** [z.number()]: any JSON number (all of them are finite). *)
Definition number : schema Q := fun v =>
  match v with
  | JS.VNumber q => Valid q
  | _ => Invalid [issue invalid_type]
  end.

(** [z.string()]. *)
Definition string_ : schema string := fun v =>
  match v with
  | JS.VString s => Valid s
  | _ => Invalid [issue invalid_type]
  end.

(** A check added to a schema; it runs only on a value of the right type. *)
Definition refine {A : Type} (ok : A -> bool) (i : ZodIssue) (s : schema A)
  : schema A := fun v =>
  match s v with
  | Valid a => if ok a then Valid a else Invalid [i]
  | Invalid errs => Invalid errs
  end.

(** Two checks of one schema both run, and their issues add up. *)
Definition refine2 {A : Type} (ok1 : A -> bool) (i1 : ZodIssue)
    (ok2 : A -> bool) (i2 : ZodIssue) (s : schema A) : schema A := fun v =>
  match s v with
  | Valid a =>
      match ((if ok1 a then [] else [i1]) ++ (if ok2 a then [] else [i2]))%list with
      | [] => Valid a
      | errs => Invalid errs
      end
  | Invalid errs => Invalid errs
  end.

(** [.positive()], [.min(n)], [.max(n)] on numbers. *)
Definition is_positive (q : Q) : bool := JS.gt q 0.
Definition at_least (n q : Q) : bool := Qle_bool n q.
Definition at_most (n q : Q) : bool := Qle_bool q n.

(** [z.string().min(n, msg)]. *)
Definition min_length (n : nat) (msg : string) : schema string :=
  refine (fun s => Nat.leb n (String.length s))
         (mkIssue too_small [] (Some msg)) string_.

(** [.optional()]: [undefined] is accepted, and only [undefined]. *)
Definition optional {A : Type} (s : schema A) : schema (option A) := fun v =>
  match v with
  | JS.VUndefined => Valid None
  | _ => match s v with
         | Valid a => Valid (Some a)
         | Invalid errs => Invalid errs
         end
  end.

(** [z.enum([...])]: a string among the listed ones. *)
Definition enum (options : list string) : schema string := fun v =>
  match v with
  | JS.VString s =>
      if existsb (String.eqb s) options then Valid s
      else Invalid [issue invalid_enum_value]
  | _ => Invalid [issue invalid_type]
  end.

(** zod tells a value of the wrong type, which aborts the parse, from a
    value of the right type that fails a check, which leaves the parse
    dirty.  With the schemas above the issues that abort are
    [invalid_type], [invalid_enum_value] and [invalid_union]; [too_small]
    and [too_big] come from checks. *)
Definition aborts (i : ZodIssue) : bool :=
  match code i with
  | invalid_type | invalid_enum_value | invalid_union => true
  | too_small | too_big => false
  end.

Definition dirty (issues : list ZodIssue) : bool := negb (existsb aborts issues).

(** [a.or(b)]: the first alternative that accepts the value.  When none
    does, the issues are those of the first alternative that was left
    dirty, and [invalid_union] when both aborted. *)
Definition or {A B : Type} (a : schema A) (b : schema B) : schema (A + B) :=
  fun v =>
  match a v with
  | Valid x => Valid (inl x)
  | Invalid ea =>
      match b v with
      | Valid y => Valid (inr y)
      | Invalid eb =>
          if dirty ea then Invalid ea
          else if dirty eb then Invalid eb
          else Invalid [issue invalid_union]
      end
  end.

(** The properties of [z.object({...})] are parsed one by one, each on the
    value of its key ([undefined] when the key is absent); keys outside the
    shape are dropped, and the issues of all properties are collected. *)
Definition field {A : Type} (fields : list (string * JS.value))
    (key : string) (s : schema A) : result A :=
  match s (JS.get key fields) with
  | Valid a => Valid a
  | Invalid errs =>
      Invalid (map (fun i => mkIssue (code i) (key :: path i) (message i)) errs)
  end.

Definition pure {A : Type} (a : A) : result A := Valid a.

Definition ap {A B : Type} (f : result (A -> B)) (x : result A) : result B :=
  match f, x with
  | Valid g, Valid a => Valid (g a)
  | Valid _, Invalid errs => Invalid errs
  | Invalid errs, Valid _ => Invalid errs
  | Invalid e1, Invalid e2 => Invalid (e1 ++ e2)%list
  end.

(** [z.object(shape)] on a value: only an object is accepted. *)
Definition object {A : Type} (shape : list (string * JS.value) -> result A)
  : schema A := fun v =>
  match v with
  | JS.VObject fields => shape fields
  | _ => Invalid [issue invalid_type]
  end.

End Zod.

Notation "f <*> x" := (Zod.ap f x) (at level 61, left associativity).

(* ================================================================== *)
(** ** Computations with state and exceptions *)

(** The result of running a piece of code: a value, or a thrown exception. *)
Inductive outcome (E A : Type) : Type :=
| Return (a : A)
| Throw (e : E).
Arguments Return {E A} a.
Arguments Throw {E A} e.

(** A computation over a state [S] that may throw an [E].  The state reached
    at the point of a [throw] is the state the caller sees. *)
Definition M (S E A : Type) : Type := S -> outcome E A * S.

Definition ret {S E A : Type} (a : A) : M S E A := fun s => (Return a, s).

Definition throw {S E A : Type} (e : E) : M S E A := fun s => (Throw e, s).

Definition bind {S E A B : Type} (m : M S E A) (k : A -> M S E B) : M S E B :=
  fun s =>
    match m s with
    | (Return a, s') => k a s'
    | (Throw e, s') => (Throw e, s')
    end.

(** [try { body } catch (e) { handler e }]. *)
Definition try_catch {S E E' A : Type} (body : M S E A) (handler : E -> M S E' A)
  : M S E' A :=
  fun s =>
    match body s with
    | (Return a, s') => (Return a, s')
    | (Throw e, s') => handler e s'
    end.

Definition get_state {S E : Type} : M S E S := fun s => (Return s, s).

Definition put_state {S E : Type} (s : S) : M S E unit := fun _ => (Return tt, s).

Notation "x <- m ;; k" := (bind m (fun x => k))
  (at level 100, m at next level, right associativity).
Notation "m ;;; k" := (bind m (fun _ => k))
  (at level 100, right associativity).
Notation "'try' body 'catch' handler" := (try_catch body handler)
  (at level 100, body at next level).

(* ================================================================== *)
(** ** Backend gateway: [SoftYPMClient] *)

Module Project.
Record t : Type := mk {
  id : Q;
  name : string;
  description : option string;
  client : option string;          (* client?: { name: string } *)
  progress_percentage : option Q
}.
End Project.

(** [Story.status] is declared a number; the dispatcher also accepts a
    string there ([typeof s.status === 'string']), so both are modelled.
    What the handlers make of a status of any other type is read in
    [Runtime]. *)
Inductive StatusField : Type :=
| StatusNumber (q : Q)
| StatusString (s : string).

Module Story.
Record t : Type := mk {
  id : Q;
  name : string;
  description : option string;
  status : StatusField;
  estimate : option Q;
  epic_id : option Q;
  project_id : Q;
  created_at : option string;
  updated_at : option string
}.
End Story.

Module CreateStoryData.
Record t : Type := mk {
  name : string;
  description : option string;
  estimate : option Q;
  epic_id : option Q;
  project_id : JS.number;
  status : option Q
}.
End CreateStoryData.

Module SoftYPMClient.

(** What a method of the gateway throws: [new Error(message)]. *)
Inductive Error : Type :=
| mkError (message : string).

Definition message (e : Error) : string :=
  match e with mkError m => m end.

(** *** The health probe, over the HTTP client *)

Record AxiosResponse : Type := mkResponse {
  status : Z;
  data : JS.value
}.

(** Inside [healthCheck]'s [try] block, either the request is rejected
    (the interceptor rethrows an [Error]) or reading a property of a
    [null] or [undefined] body throws a [TypeError]. *)
Inductive Thrown : Type :=
| ThrownError (e : Error)
| TypeError.

(** A request sent by the probe. *)
Inductive Request : Type :=
| GET (url : string).

(** [value.key] on a response body. *)
Definition property (v : JS.value) (key : string) : outcome Thrown JS.value :=
  match v with
  | JS.VUndefined | JS.VNull => Throw TypeError
  | JS.VObject fields => Return (JS.get key fields)
  | _ => Return JS.VUndefined
  end.

(** [v === true]. *)
Definition is_true (v : JS.value) : bool :=
  match v with
  | JS.VBool true => true
  | _ => false
  end.

Section Http.

(** What the backend answers to a GET: a response, or a rejection. *)
Variable answer : string -> outcome Error AxiosResponse.

(** [await this.client.get(url)]. *)
Definition get (url : string) : M (list Request) Thrown AxiosResponse :=
  fun sent =>
    match answer url with
    | Return r => (Return r, (sent ++ [GET url])%list)
    | Throw e => (Throw (ThrownError e), (sent ++ [GET url])%list)
    end.

Definition lift {S E A : Type} (o : outcome E A) : M S E A :=
  fun s => (o, s).

(** [async healthCheck(): Promise<boolean>]. *)
Definition healthCheck : M (list Request) Thrown bool :=
  try (
    response <- get "/claude-code/health" ;;
    success <- lift (property (data response) "success") ;;
    ret (is_true success)
  ) catch (fun _ => ret false).

End Http.

(** *** The interface the dispatcher calls

    Each of these methods issues one HTTP request and either returns the
    decoded body or throws an [Error]; the dispatcher sees nothing else of
    them, so the backend is given by what each call answers. *)
Record t : Type := mk {
  getProject : JS.number -> outcome Error Project.t;
  getProjectStories : JS.number -> outcome Error (list Story.t);
  createStory : CreateStoryData.t -> outcome Error Story.t;
  getStory : Q -> outcome Error Story.t;
  updateStoryStatus : Q -> JS.number -> outcome Error unit
}.

(** A call of the dispatcher to the gateway, with its arguments. *)
Inductive Call : Type :=
| GetProject (projectId : JS.number)
| GetProjectStories (projectId : JS.number)
| CreateStory (data : CreateStoryData.t)
| GetStory (storyId : Q)
| UpdateStoryStatus (storyId : Q) (status : JS.number).

(** The calls that write to the backend. *)
Definition is_write (c : Call) : bool :=
  match c with
  | CreateStory _ | UpdateStoryStatus _ _ => true
  | _ => false
  end.

End SoftYPMClient.

(* ================================================================== *)
(** ** Tool dispatcher: [SoftYPMServer] *)

Module SoftYPMServer.

Import SoftYPMClient.

(** *** Validation schemas for tool inputs *)

Record CreateStoryArgs : Type := mkCreateStoryArgs {
  cs_name : string;
  cs_description : option string;
  cs_estimate : option Q;
  cs_epic_id : option Q;
  cs_project_id : option Q
}.

Definition CreateStorySchema : Zod.schema CreateStoryArgs :=
  Zod.object (fun o =>
    Zod.pure mkCreateStoryArgs
      <*> Zod.field o "name" (Zod.min_length 1 "Story name is required")
      <*> Zod.field o "description" (Zod.optional Zod.string_)
      <*> Zod.field o "estimate"
            (Zod.optional
               (Zod.refine2 Zod.is_positive (Zod.issue Zod.too_small)
                            (Zod.at_most 8) (Zod.issue Zod.too_big)
                            Zod.number))
      <*> Zod.field o "epic_id" (Zod.optional Zod.number)
      <*> Zod.field o "project_id" (Zod.optional Zod.number)).

Record UpdateStoryStatusArgs : Type := mkUpdateStoryStatusArgs {
  us_story_id : Q;
  us_status : string + Q;
  us_notes : option string
}.

Definition UpdateStoryStatusSchema : Zod.schema UpdateStoryStatusArgs :=
  Zod.object (fun o =>
    Zod.pure mkUpdateStoryStatusArgs
      <*> Zod.field o "story_id"
            (Zod.refine Zod.is_positive (Zod.issue Zod.too_small) Zod.number)
      <*> Zod.field o "status"
            (Zod.or (Zod.enum ["1"; "3"; "5"])
                    (Zod.refine2 (Zod.at_least 1) (Zod.issue Zod.too_small)
                                 (Zod.at_most 5) (Zod.issue Zod.too_big)
                                 Zod.number))
      <*> Zod.field o "notes" (Zod.optional Zod.string_)).

(** [{ project_id }] of [GetProjectSchema]. *)
Definition GetProjectSchema : Zod.schema (option Q) :=
  Zod.object (fun o =>
    Zod.field o "project_id"
      (Zod.optional
         (Zod.refine Zod.is_positive (Zod.issue Zod.too_small) Zod.number))).

(** [{ project_id }] of [SetProjectContextSchema]. *)
Definition SetProjectContextSchema : Zod.schema Q :=
  Zod.object (fun o =>
    Zod.field o "project_id"
      (Zod.refine Zod.is_positive (Zod.issue Zod.too_small) Zod.number)).

Record ListStoriesArgs : Type := mkListStoriesArgs {
  ls_status : option string;
  ls_project_id : option Q
}.

(** The schema written in place in [listStories]. *)
Definition ListStoriesSchema : Zod.schema ListStoriesArgs :=
  Zod.object (fun o =>
    Zod.pure mkListStoriesArgs
      <*> Zod.field o "status" (Zod.optional (Zod.enum ["1"; "3"; "5"; "all"]))
      <*> Zod.field o "project_id" (Zod.optional Zod.number)).

(** *** State, exceptions, responses *)

(** The dispatcher's field [currentProjectId: number | null], and the
    calls made to the gateway so far, oldest first. *)
Record State : Type := mkState {
  currentProjectId : option JS.number;
  calls : list Call
}.

Inductive ErrorCode : Type :=
| InvalidRequest
| MethodNotFound
| InternalError.

(** What a handler throws: an [McpError], or the [ZodError] of [parse]. *)
Inductive Exn : Type :=
| McpError (code : ErrorCode) (message : string)
| ZodError (issues : list Zod.ZodIssue).

Record ContentItem : Type := mkContent {
  type : string;
  text : string
}.

Record ToolResponse : Type := mkToolResponse {
  content : list ContentItem
}.

(** [{ content: [{ type: 'text', text }] }]. *)
Definition text_response (t : string) : ToolResponse :=
  mkToolResponse [mkContent "text" t].

(** [schema.parse(args)]. *)
Definition parse {A : Type} (s : Zod.schema A) (args : JS.value) : M State Exn A :=
  match s args with
  | Zod.Valid a => ret a
  | Zod.Invalid issues => throw (ZodError issues)
  end.

(** [await this.softYPMClient.method(...)]: the call is recorded, then its
    answer is returned or thrown. *)
Definition await {A : Type} (c : Call) (answer : outcome Error A)
  : M State Error A :=
  fun s =>
    (answer, mkState (currentProjectId s) (calls s ++ [c])%list).

(** [this.currentProjectId = project_id]. *)
Definition set_currentProjectId (p : option JS.number) : M State Error unit :=
  fun s => (Return tt, mkState p (calls s)).

(** The constructor's default: [parseInt(process.env.DEFAULT_PROJECT_ID)]
    when the variable is set and not empty, [null] otherwise. *)
Definition initial (DEFAULT_PROJECT_ID : option string) : State :=
  mkState
    (match DEFAULT_PROJECT_ID with
     | Some s => if JS.truthy_string s then Some (JS.parseInt s) else None
     | None => None
     end)
    [].

(** *** Small expressions of the handlers *)

(** [project_id || this.currentProjectId]. *)
Definition or_current (project_id : option Q) (current : option JS.number)
  : option JS.number :=
  match project_id with
  | Some q => if JS.truthy_Q q then Some (JS.Finite q) else current
  | None => current
  end.

(** [if (!id) throw ...]: the id, when it is truthy. *)
Definition truthy_id (id : option JS.number) : option JS.number :=
  match id with
  | Some n => if JS.truthy n then Some n else None
  | None => None
  end.

Definition no_project_context : Exn :=
  McpError InvalidRequest
    "No project context set. Use set_project_context first or provide project_id.".

(** [typeof s.status === 'string' ? parseInt(s.status) : s.status]. *)
Definition status_number (s : StatusField) : JS.number :=
  match s with
  | StatusString str => JS.parseInt str
  | StatusNumber q => JS.Finite q
  end.

(** A lookup in a [Record<number, T>] with keys 1, 3 and 5: the key of a
    number is its decimal string, so only these three numbers hit. *)
Definition lookup135 {T : Type} (v1 v3 v5 : T) (key : JS.number) : option T :=
  match key with
  | JS.Finite q =>
      if Qeq_bool q 1 then Some v1
      else if Qeq_bool q 3 then Some v3
      else if Qeq_bool q 5 then Some v5
      else None
  | JS.NaN | JS.Infinity _ => None
  end.

(** [{ 1: 'Backlog', 3: 'In Progress', 5: 'Done' }]. *)
Definition statusNames : JS.number -> option string :=
  lookup135 "Backlog" "In Progress" "Done".

(** [{ 1: [3], 3: [5, 1], 5: [1, 3] }]. *)
Definition validTransitions : JS.number -> option (list JS.number) :=
  lookup135 [JS.Finite 3] [JS.Finite 5; JS.Finite 1] [JS.Finite 1; JS.Finite 3].

(** [validTransitions[currentStatus]?.includes(targetStatus)], as the
    condition of [if (!...)] reads it: [undefined] is falsy. *)
Definition transition_allowed (currentStatus targetStatus : JS.number) : bool :=
  match validTransitions currentStatus with
  | Some targets => JS.includes targets targetStatus
  | None => false
  end.

(** [typeof status === 'string' ? parseInt(status) : status]. *)
Definition target_number (status : string + Q) : JS.number :=
  match status with
  | inl str => JS.parseInt str
  | inr q => JS.Finite q
  end.

(** [status && status !== 'all']. *)
Definition filter_given (status : option string) : bool :=
  match status with
  | Some s => JS.truthy_string s && negb (String.eqb s "all")
  | None => false
  end.

(** *** Template literals *)

Definition dq : string := String (ascii_of_nat 34) EmptyString.
Definition nl : string := String (ascii_of_nat 10) EmptyString.

(** [`${v}`] for an optional string: [undefined] prints as such. *)
Definition or_undefined (v : option string) : string :=
  match v with
  | Some s => s
  | None => "undefined"
  end.

(** [a || b] on an optional string. *)
Definition string_or (a : option string) (b : string) : string :=
  match a with
  | Some s => if JS.truthy_string s then s else b
  | None => b
  end.

Section Handlers.

(** [Number::toString] on a finite number. *)
Variable show : Q -> string.

(** The backend, as the gateway presents it. *)
Variable api : SoftYPMClient.t.

Definition show_number (n : JS.number) : string :=
  match n with
  | JS.Finite q => show q
  | JS.NaN => "NaN"
  | JS.Infinity negative => if negative then "-Infinity" else "Infinity"
  end.

(** [`${xs.length}`]. *)
Definition show_nat (n : nat) : string := show (inject_Z (Z.of_nat n)).

(** [`${n || 0}`] on an optional number. *)
Definition show_or_zero (n : option Q) : string :=
  match n with
  | Some q => if JS.truthy_Q q then show q else show 0
  | None => show 0
  end.

(** [`${n || alt}`] on an optional number. *)
Definition show_or (n : option Q) (alt : string) : string :=
  match n with
  | Some q => if JS.truthy_Q q then show q else alt
  | None => alt
  end.

(** **** set_project_context *)

Definition context_set_text (project : Project.t) (project_id : Q) : string :=
  "✅ Project context set to: " ++ Project.name project ++ " (ID: "
  ++ show project_id ++ ")

You are now acting as both DEVELOPER and PROJECT MANAGER for this project. Remember to:

🔄 **Workflow**: Always move stories Backlog(1) → In Progress(3) → Done(5)
📏 **Story Size**: Keep stories 1-4 hours, create new ones for additional work
📊 **Track Progress**: Update story status as you work

Project Progress: " ++ show_or_zero (Project.progress_percentage project)
  ++ "% complete".

Definition setProjectContext (args : JS.value) : M State Exn ToolResponse :=
  project_id <- parse SetProjectContextSchema args ;;
  try (
    (* Verify project exists and user has access *)
    project <- await (GetProject (JS.Finite project_id))
                     (getProject api (JS.Finite project_id)) ;;
    set_currentProjectId (Some (JS.Finite project_id)) ;;;
    ret (text_response (context_set_text project project_id))
  ) catch (fun error =>
    throw (McpError InvalidRequest
             ("Failed to set project context: " ++ message error))).

(** **** get_project_info *)

Definition has_status (n : Q) (s : Story.t) : bool :=
  JS.strict_eq (status_number (Story.status s)) (JS.Finite n).

Definition next_in_progress (s : Story.t) : string :=
  "• #" ++ show (Story.id s) ++ ": " ++ Story.name s ++ " ("
  ++ show_or (Story.estimate s) "?" ++ "h)".

Definition next_backlog (s : Story.t) : string :=
  "• #" ++ show (Story.id s) ++ ": " ++ Story.name s ++ " ("
  ++ show_or (Story.estimate s) "?" ++ "h) - Move to In Progress first".

Definition project_info_text (project : Project.t) (projectId : JS.number)
    (stories : list Story.t) : string :=
  let backlogStories := filter (has_status 1) stories in
  let inProgressStories := filter (has_status 3) stories in
  let doneStories := filter (has_status 5) stories in
  "📊 **" ++ Project.name project ++ "** (Project #" ++ show_number projectId
  ++ ")

**Progress**: " ++ show_or_zero (Project.progress_percentage project)
  ++ "% complete
**Stories**: " ++ show_nat (length doneStories) ++ " done, "
  ++ show_nat (length inProgressStories) ++ " in progress, "
  ++ show_nat (length backlogStories) ++ " in backlog

**🚀 Next Stories to Work On:**
" ++ (if Nat.ltb 0 (length inProgressStories)
  then JS.join nl (map next_in_progress (JS.slice0 3 inProgressStories))
  else JS.join nl (map next_backlog (JS.slice0 3 backlogStories)))
  ++ "

**Remember**: 
- Move stories to " ++ dq ++ "In Progress" ++ dq ++ " before starting work
- Create new stories for any additional work discovered  
- Keep stories 1-4 hours each for best tracking".

Definition getProjectInfo (args : JS.value) : M State Exn ToolResponse :=
  project_id <- parse GetProjectSchema args ;;
  this <- get_state ;;
  match truthy_id (or_current project_id (currentProjectId this)) with
  | None => throw no_project_context
  | Some projectId =>
      try (
        project <- await (GetProject projectId) (getProject api projectId) ;;
        stories <- await (GetProjectStories projectId)
                         (getProjectStories api projectId) ;;
        ret (text_response (project_info_text project projectId stories))
      ) catch (fun error =>
        throw (McpError InternalError
                 ("Failed to get project info: " ++ message error)))
  end.

(** **** create_story *)

Definition story_too_large_text (name : string) (estimate : Q) : string :=
  "⚠️ **Story Too Large**: " ++ dq ++ name ++ dq ++ " is estimated at "
  ++ show estimate ++ " hours.

Stories should be 1-4 hours for best tracking. Consider breaking this down into smaller stories:

**Example breakdown:**
• Create core functionality (3h)
• Add validation and error handling (2h)
• Write tests (2h)
• Update documentation (1h)

Would you like to create a smaller, more focused story instead?".

Definition story_created_text (story : Story.t) (description : option string)
    (estimate : option Q) : string :=
  "✅ **Story Created**: #" ++ show (Story.id story) ++ " - " ++ Story.name story
  ++ "

📝 **Description**: " ++ string_or description "No description provided" ++ "
⏱️ **Estimate**: " ++ show_or estimate "Not estimated" ++ " hours
📊 **Status**: Backlog (ready to start)

**Next step**: Use `update_story_status` to move it to " ++ dq ++ "In Progress"
  ++ dq ++ " when you start working on it.".

(** [estimate && estimate > 6]. *)
Definition too_large (estimate : option Q) : option Q :=
  match estimate with
  | Some e => if JS.truthy_Q e && JS.gt e 6 then Some e else None
  | None => None
  end.

Definition createStory (args : JS.value) : M State Exn ToolResponse :=
  a <- parse CreateStorySchema args ;;
  this <- get_state ;;
  match truthy_id (or_current (cs_project_id a) (currentProjectId this)) with
  | None => throw no_project_context
  | Some targetProjectId =>
      (* Validate story size *)
      match too_large (cs_estimate a) with
      | Some estimate =>
          ret (text_response (story_too_large_text (cs_name a) estimate))
      | None =>
          let data :=
            CreateStoryData.mk (cs_name a) (cs_description a) (cs_estimate a)
              (cs_epic_id a) targetProjectId
              (Some 1) (* Start in backlog *) in
          try (
            story <- await (CreateStory data) (SoftYPMClient.createStory api data) ;;
            ret (text_response
                   (story_created_text story (cs_description a) (cs_estimate a)))
          ) catch (fun error =>
            throw (McpError InternalError
                     ("Failed to create story: " ++ message error)))
      end
  end.

(** **** update_story_status *)

(** [validTransitions[currentStatus]?.map(s => statusNames[s]).join(', ')];
    [join] prints an [undefined] element as the empty string. *)
Definition valid_next_steps (currentStatus : JS.number) : string :=
  match validTransitions currentStatus with
  | Some targets =>
      JS.join ", "
        (map (fun s => match statusNames s with Some n => n | None => "" end)
             targets)
  | None => "undefined"
  end.

Definition invalid_transition_text (currentStatus targetStatus : JS.number)
  : string :=
  "⚠️ **Invalid Workflow Transition**

Cannot move story from " ++ dq ++ or_undefined (statusNames currentStatus) ++ dq
  ++ " to " ++ dq ++ or_undefined (statusNames targetStatus) ++ dq ++ "

**Valid workflow**: Backlog (1) → In Progress (3) → Done (5)

Current status: " ++ or_undefined (statusNames currentStatus) ++ "
Valid next steps: " ++ valid_next_steps currentStatus.

Definition story_updated_text (story_id : Q) (currentStory : Story.t)
    (currentStatus targetStatus : JS.number) (notes : option string) : string :=
  let message :=
    "✅ **Story Updated**: #" ++ show story_id ++ " - " ++ Story.name currentStory
    ++ "

📊 **Status**: " ++ or_undefined (statusNames currentStatus) ++ " → "
    ++ or_undefined (statusNames targetStatus) in
  let message :=
    match notes with
    | Some n => if JS.truthy_string n
                then message ++ "
📝 **Notes**: " ++ n
                else message
    | None => message
    end in
  if JS.strict_eq targetStatus (JS.Finite 3) then
    message ++ "

🔨 **Now In Progress** - You are actively working on this story. Remember to move it to "
    ++ dq ++ "Done" ++ dq ++ " when completed."
  else if JS.strict_eq targetStatus (JS.Finite 5) then
    message ++ "

🎉 **Story Completed!** - Great work! This story is now marked as done."
  else message.

Definition updateStoryStatus (args : JS.value) : M State Exn ToolResponse :=
  a <- parse UpdateStoryStatusSchema args ;;
  let story_id := us_story_id a in
  let targetStatus := target_number (us_status a) in
  try (
    (* Get current story status to validate workflow *)
    currentStory <- await (GetStory story_id) (getStory api story_id) ;;
    let currentStatus := status_number (Story.status currentStory) in
    (* Validate workflow progression *)
    if negb (transition_allowed currentStatus targetStatus) then
      ret (text_response (invalid_transition_text currentStatus targetStatus))
    else
      await (UpdateStoryStatus story_id targetStatus)
            (SoftYPMClient.updateStoryStatus api story_id targetStatus) ;;;
      ret (text_response
             (story_updated_text story_id currentStory currentStatus
                targetStatus (us_notes a)))
  ) catch (fun error =>
    throw (McpError InternalError
             ("Failed to update story status: " ++ message error))).

(** **** list_my_stories *)

(** The stories kept by the status filter. *)
Definition filteredStories (status : option string) (stories : list Story.t)
  : list Story.t :=
  match status with
  | Some st =>
      if filter_given status then
        let targetStatus := JS.parseInt st in
        filter (fun s =>
                  JS.strict_eq (status_number (Story.status s)) targetStatus)
               stories
      else stories
  | None => stories
  end.

Definition no_stories_text (status : option string) : string :=
  "📋 **No Stories Found** "
  ++ match status with
     | Some st =>
         if filter_given status
         then "with status " ++ dq ++ or_undefined (statusNames (JS.parseInt st))
              ++ dq
         else ""
     | None => ""
     end.

Definition story_line (story : Story.t) : string :=
  let storyStatus := status_number (Story.status story) in
  "• #" ++ show (Story.id story) ++ ": " ++ Story.name story ++ " ["
  ++ or_undefined (statusNames storyStatus) ++ "] "
  ++ match Story.estimate story with
     | Some e => if JS.truthy_Q e then "(" ++ show e ++ "h)" else ""
     | None => ""
     end.

(** [filteredStories.slice(0, 10).map(...)], before [join]. *)
Definition story_lines (filtered : list Story.t) : list string :=
  map story_line (JS.slice0 10 filtered).

(** The last interpolation of the listing. *)
Definition more_suffix (filtered : list Story.t) : string :=
  if Nat.ltb 10 (length filtered)
  then "... and " ++ show_nat (length filtered - 10) ++ " more"
  else "".

Definition stories_text (status : option string) (filtered : list Story.t)
  : string :=
  "📋 **Stories** "
  ++ match status with
     | Some st =>
         if filter_given status
         then "(" ++ or_undefined (statusNames (JS.parseInt st)) ++ ")"
         else ""
     | None => ""
     end
  ++ ":" ++ nl ++ nl ++ JS.join nl (story_lines filtered) ++ nl ++ nl
  ++ more_suffix filtered.

Definition listStories (args : JS.value) : M State Exn ToolResponse :=
  a <- parse ListStoriesSchema args ;;
  this <- get_state ;;
  match truthy_id (or_current (ls_project_id a) (currentProjectId this)) with
  | None => throw no_project_context
  | Some targetProjectId =>
      try (
        stories <- await (GetProjectStories targetProjectId)
                         (getProjectStories api targetProjectId) ;;
        let filtered := filteredStories (ls_status a) stories in
        if Nat.eqb (length filtered) 0 then
          ret (text_response (no_stories_text (ls_status a)))
        else
          ret (text_response (stories_text (ls_status a) filtered))
      ) catch (fun error =>
        throw (McpError InternalError
                 ("Failed to list stories: " ++ message error)))
  end.

End Handlers.

End SoftYPMServer.

(* ================================================================== *)
(** ** The gateway over HTTP: the methods of [SoftYPMClient] *)

Module Gateway.

Import SoftYPMClient.

(** *** Values as the methods use them *)

(** ToBoolean on a value. *)
Definition truthy (v : JS.value) : bool :=
  match v with
  | JS.VUndefined | JS.VNull => false
  | JS.VBool b => b
  | JS.VNumber q => JS.truthy_Q q
  | JS.VString s => JS.truthy_string s
  | JS.VArray _ | JS.VObject _ => true
  end.

(** [a || b]. *)
Definition or_value (a b : JS.value) : JS.value :=
  if truthy a then a else b.

(** The TypeErrors the engine can raise in the client: a property read on
    [undefined] or [null], a call of something that is no function, a
    spread of something that is not iterable, and the conversion to a
    string of an object that has none. *)
Inductive Fault : Type :=
| ReadOf (v : JS.value) (key : string)
| NotAFunction (v : JS.value) (method : string)
| NotIterable (v : JS.value)
| NotPrimitive (v : JS.value).

(** [v.key], for the keys the client reads ([success], [data], [project],
    [story], [message], [epics], [stories]), none of which a prototype
    defines: only an object can have them. *)
Definition read (v : JS.value) (key : string) : outcome Fault JS.value :=
  match v with
  | JS.VUndefined | JS.VNull => Throw (ReadOf v key)
  | JS.VObject fields => Return (JS.get key fields)
  | _ => Return JS.VUndefined
  end.

(** [v?.key], for the same keys. *)
Definition read_opt (v : JS.value) (key : string) : JS.value :=
  match v with
  | JS.VObject fields => JS.get key fields
  | _ => JS.VUndefined
  end.

(** The object has an own property [key]. *)
Definition has_key (key : string) (fields : list (string * JS.value)) : bool :=
  existsb (fun kv => String.eqb (fst kv) key) fields.

(** ToString, as a template literal and [new Error(...)] apply it; [None]
    when the engine raises a TypeError.  An object prints as
    [[object Object]] through the inherited [toString]; an own property of
    that name hides it, and no value of a parsed body can be called.  An
    array prints its elements separated by commas, [null] as nothing. *)
Fixpoint to_string (show : Q -> string) (v : JS.value) : option string :=
  match v with
  | JS.VUndefined => Some "undefined"
  | JS.VNull => Some "null"
  | JS.VBool true => Some "true"
  | JS.VBool false => Some "false"
  | JS.VNumber q => Some (show q)
  | JS.VString s => Some s
  | JS.VArray xs =>
      let fix elements (l : list JS.value) : option (list string) :=
        match l with
        | [] => Some []
        | x :: rest =>
            let head :=
              match x with
              | JS.VUndefined | JS.VNull => Some ""
              | _ => to_string show x
              end in
            match head, elements rest with
            | Some s, Some ss => Some (s :: ss)
            | _, _ => None
            end
        end in
      match elements xs with
      | Some ss => Some (JS.join "," ss)
      | None => None
      end
  | JS.VObject fields =>
      if has_key "toString" fields then None else Some "[object Object]"
  end.

(** The number of bytes of the UTF-8 sequence that a byte starts. *)
Definition sequence_length (c : ascii) : nat :=
  let n := nat_of_ascii c in
  if (n <? 192)%nat then 1
  else if (n <? 224)%nat then 2
  else if (n <? 240)%nat then 3
  else 4.

Fixpoint take_bytes (n : nat) (s : string) : string * string :=
  match n, s with
  | S n', String c rest =>
      let '(taken, remaining) := take_bytes n' rest in (String c taken, remaining)
  | _, _ => (EmptyString, s)
  end.

Fixpoint code_points_fuel (fuel : nat) (s : string) : list string :=
  match fuel, s with
  | S fuel', String c rest =>
      let '(tail, remaining) := take_bytes (sequence_length c - 1) rest in
      String c tail :: code_points_fuel fuel' remaining
  | _, _ => []
  end.

(** The code points of a string, which is what iterating it yields. *)
Definition code_points (s : string) : list string :=
  code_points_fuel (String.length s) s.

(** [...v] in an argument list. *)
Definition spread (v : JS.value) : outcome Fault (list JS.value) :=
  match v with
  | JS.VArray xs => Return xs
  | JS.VString s => Return (map JS.VString (code_points s))
  | _ => Throw (NotIterable v)
  end.

(** *** The HTTP client and its response interceptor *)

Record Response : Type := mkResponse {
  status : Z;
  statusText : string;
  data : JS.value
}.

(** What axios rejects a request with. *)
Record AxiosError : Type := mkAxiosError {
  response : option Response;
  request : bool;                    (* [error.request] is set *)
  message : string
}.

(** [response.data] and [response.status]. *)
Definition body_of (r : Response) : JS.value := data r.
Definition status_of (r : Response) : Z := status r.

Inductive AxiosResult : Type :=
| Resolved (r : Response)
| Rejected (e : AxiosError).

(** The body of a POST. *)
Inductive Body : Type :=
| StoryBody (data : CreateStoryData.t)
| StatusBody (status : JS.number).          (* { status: status } *)

Inductive HttpCall : Type :=
| HttpGet (url : string)
| HttpPost (url : string) (body : Body).

(** What reaches a [catch] of the client: an [Error], or a TypeError of the
    engine. *)
Inductive Raised : Type :=
| RaisedError (e : Error)
| RaisedFault (f : Fault).

Section Methods.

(** [Number::toString] on a finite number. *)
Variable show : Q -> string.

(** The message the engine gives to each TypeError. *)
Variable engine : Fault -> string.

(** The backend, as axios sees it. *)
Variable backend : HttpCall -> AxiosResult.

Definition show_number (n : JS.number) : string :=
  match n with
  | JS.Finite q => show q
  | JS.NaN => "NaN"
  | JS.Infinity negative => if negative then "-Infinity" else "Infinity"
  end.

(** [error instanceof Error ? error.message : String(error)]. *)
Definition message_of (error : Raised) : string :=
  match error with
  | RaisedError e => SoftYPMClient.message e
  | RaisedFault f => engine f
  end.

(** [new Error(v)], or the TypeError of converting [v]. *)
Definition new_Error (v : JS.value) : Raised :=
  match to_string show v with
  | Some m => RaisedError (mkError m)
  | None => RaisedFault (NotPrimitive v)
  end.

(** The rejection handler of the response interceptor: what it throws. *)
Definition interceptor (error : AxiosError) : Raised :=
  match response error with
  | Some r =>
      let message :=
        or_value (read_opt (data r) "message") (JS.VString (statusText r)) in
      if (status r =? 401)%Z then
        RaisedError (mkError "Authentication failed. Please check your API token.")
      else if (status r =? 403)%Z then
        RaisedError
          (mkError "Access denied. You may not have permission to access this resource.")
      else if (status r =? 404)%Z then
        RaisedError (mkError "Resource not found.")
      else if (500 <=? status r)%Z then
        RaisedError (mkError "SoftYPM server error. Please try again later.")
      else
        match to_string show message with
        | Some m => RaisedError (mkError ("API Error: " ++ m))
        | None => RaisedFault (NotPrimitive message)
        end
  | None =>
      if request error then
        RaisedError
          (mkError
             "Unable to connect to SoftYPM. Please check your internet connection.")
      else RaisedError (mkError ("Request failed: " ++ message error))
  end.

(** [await this.client.get(...)] and [await this.client.post(...)]: the
    request is recorded, and a rejection goes through the interceptor. *)
Definition send (c : HttpCall) : M (list HttpCall) Raised Response :=
  fun sent =>
    (match backend c with
     | Resolved r => Return r
     | Rejected e => Throw (interceptor e)
     end,
     (sent ++ [c])%list).

(** A step that touches no request. *)
Definition pure_step {A : Type} (o : outcome Fault A) : M (list HttpCall) Raised A :=
  fun sent =>
    (match o with
     | Return a => Return a
     | Throw f => Throw (RaisedFault f)
     end,
     sent).

(** [async getProject(projectId)]. *)
Definition getProject (projectId : JS.number) : M (list HttpCall) Error JS.value :=
  try (
    response <- send (HttpGet ("/projects/" ++ show_number projectId)) ;;
    project <- pure_step (read (body_of response) "project") ;;
    ret (or_value project (body_of response))
  ) catch (fun error =>
    throw (mkError ("Failed to get project " ++ show_number projectId ++ ": "
                    ++ message_of error))).

(** [if (owner.stories) stories.push(...owner.stories)]. *)
Definition push_stories (stories : list JS.value) (owner : JS.value)
  : outcome Fault (list JS.value) :=
  match read owner "stories" with
  | Throw f => Throw f
  | Return s =>
      if truthy s then
        match spread s with
        | Return more => Return (stories ++ more)%list
        | Throw f => Throw f
        end
      else Return stories
  end.

(** [epics.forEach(epic => ...)] on the elements of an array. *)
Fixpoint forEach_epic (epics : list JS.value) (stories : list JS.value)
  : outcome Fault (list JS.value) :=
  match epics with
  | [] => Return stories
  | epic :: rest =>
      match push_stories stories epic with
      | Return stories' => forEach_epic rest stories'
      | Throw f => Throw f
      end
  end.

(** The stories of the project of a structure response: those of its epics,
    then its own. *)
Definition collect_stories (project : JS.value) : outcome Fault (list JS.value) :=
  match read project "epics" with
  | Throw f => Throw f
  | Return epics =>
      match
        (if truthy epics then
           match epics with
           | JS.VArray xs => forEach_epic xs []
           | _ => Throw (NotAFunction epics "forEach")
           end
         else Return [])
      with
      | Throw f => Throw f
      | Return stories => push_stories stories project
      end
  end.

(** [async getProjectStories(projectId)]. *)
Definition getProjectStories (projectId : JS.number)
  : M (list HttpCall) Error (list JS.value) :=
  try (
    (* Try the project structure endpoint first *)
    response <- send (HttpGet ("/claude-code/projects/" ++ show_number projectId
                               ++ "/structure")) ;;
    success <- pure_step (read (body_of response) "success") ;;
    payload <- pure_step (if truthy success
                          then read (body_of response) "data"
                          else Return success) ;;
    if truthy payload then
      (* Extract stories from the project data *)
      project <- pure_step (read payload "project") ;;
      pure_step (collect_stories project)
    else
      (* Fallback to direct API call if needed *)
      throw (RaisedError
               (mkError "Unable to get project stories from structure endpoint"))
  ) catch (fun error =>
    throw (mkError ("Failed to get stories for project " ++ show_number projectId
                    ++ ": " ++ message_of error))).

(** The body of a response, out of its envelope:
    [if (data.success) return data.story || data.data; return data]. *)
Definition unwrap_story (body : JS.value) : outcome Fault JS.value :=
  match read body "success" with
  | Throw f => Throw f
  | Return success =>
      if truthy success
      then Return (or_value (read_opt body "story") (read_opt body "data"))
      else Return body
  end.

(** [async createStory(data)]. *)
Definition createStory (data : CreateStoryData.t) : M (list HttpCall) Error JS.value :=
  try (
    response <- send (HttpPost "/stories" (StoryBody data)) ;;
    pure_step (unwrap_story (body_of response))
  ) catch (fun error =>
    throw (mkError ("Failed to create story: " ++ message_of error))).

(** [async getStory(storyId)]. *)
Definition getStory (storyId : Q) : M (list HttpCall) Error JS.value :=
  try (
    response <- send (HttpGet ("/stories/" ++ show storyId)) ;;
    pure_step (unwrap_story (body_of response))
  ) catch (fun error =>
    throw (mkError ("Failed to get story " ++ show storyId ++ ": "
                    ++ message_of error))).

(** [async updateStoryStatus(storyId, status)]. *)
Definition updateStoryStatus (storyId : Q) (status : JS.number)
  : M (list HttpCall) Error unit :=
  try (
    response <- send (HttpPost ("/stories/" ++ show storyId ++ "/status")
                               (StatusBody status)) ;;
    success <- pure_step (read (body_of response) "success") ;;
    if negb (truthy success) && negb (status_of response =? 200)%Z then
      throw (new_Error (or_value (read_opt (body_of response) "message")
                                 (JS.VString "Failed to update story status")))
    else ret tt
  ) catch (fun error =>
    throw (mkError ("Failed to update story " ++ show storyId ++ " status: "
                    ++ message_of error))).

End Methods.

End Gateway.

(* ================================================================== *)
(** ** The request handlers of [SoftYPMServer] *)

Module Dispatcher.

Import SoftYPMClient SoftYPMServer.

(** *** The list of tools *)

(** A property of an input schema. *)
Record Property : Type := mkProperty {
  p_type : string;
  p_description : string;
  p_enum : option (list string);
  p_minimum : option Q;
  p_maximum : option Q
}.

(** A tool: its name, description and input schema, which is an object
    schema with the listed properties and required names. *)
Record Tool : Type := mkTool {
  name : string;
  description : string;
  properties : list (string * Property);
  required : option (list string)
}.

(** The tools the handler of [ListToolsRequestSchema] returns. *)
Definition tools : list Tool :=
  [
   mkTool "set_project_context"
     "Set the current project context for all subsequent operations"
     [
       ("project_id",
        mkProperty "number"
          "The project ID to set as current context"
          None None None)]
     (Some ["project_id"]);
   mkTool "get_project_info"
     "Get current project information, stories, and progress"
     [
       ("project_id",
        mkProperty "number"
          "Project ID (optional if project context is set)"
          None None None)]
     None;
   mkTool "create_story"
     "Create a new story in the current project. Stories should be 1-4 hours of work."
     [
       ("name",
        mkProperty "string"
          "Story title (be specific and actionable)"
          None None None);
       ("description",
        mkProperty "string"
          "Detailed description of the work to be done"
          None None None);
       ("estimate",
        mkProperty "number"
          "Estimated hours (1-8, prefer 1-4 for good stories)"
          None (Some 1) (Some 8));
       ("epic_id",
        mkProperty "number"
          "Epic ID to assign this story to (optional)"
          None None None);
       ("project_id",
        mkProperty "number"
          "Project ID (optional if project context is set)"
          None None None)]
     (Some ["name"]);
   mkTool "update_story_status"
     "Update story status following proper workflow: Backlog(1) → In Progress(3) → Done(5)"
     [
       ("story_id",
        mkProperty "number"
          "The story ID to update"
          None None None);
       ("status",
        mkProperty "string"
          "1=Backlog, 3=In Progress, 5=Done. Always follow workflow order."
          (Some ["1"; "3"; "5"]) None None);
       ("notes",
        mkProperty "string"
          "Optional progress notes"
          None None None)]
     (Some ["story_id"; "status"]);
   mkTool "get_story"
     "Get details for a specific story"
     [
       ("story_id",
        mkProperty "number"
          "The story ID to retrieve"
          None None None)]
     (Some ["story_id"]);
   mkTool "list_my_stories"
     "List stories in current project, optionally filtered by status"
     [
       ("status",
        mkProperty "string"
          "Filter by status: 1=Backlog, 3=In Progress, 5=Done, all=All stories"
          (Some ["1"; "3"; "5"; "all"]) None None);
       ("project_id",
        mkProperty "number"
          "Project ID (optional if project context is set)"
          None None None)]
     None
  ].

(** *** get_story and the switch over the tools *)

(** [z.object({ story_id: z.number() })]. *)
Definition GetStorySchema : Zod.schema Q :=
  Zod.object (fun o => Zod.field o "story_id" Zod.number).

Section Requests.

(** [Number::toString] on a finite number. *)
Variable show : Q -> string.

(** [new Date(s).toLocaleDateString()], in the locale of the host. *)
Variable toLocaleDateString : string -> string.

(** The [message] zod gives to a [ZodError] with these issues. *)
Variable zod_message : list Zod.ZodIssue -> string.

(** The backend, as the gateway presents it. *)
Variable api : SoftYPMClient.t.

Definition story_text (story : Story.t) : string :=
  let storyStatus := status_number (Story.status story) in
  "📋 **Story #" ++ show (Story.id story) ++ "**: " ++ Story.name story ++ "

📝 **Description**: " ++ string_or (Story.description story) "No description" ++ "
📊 **Status**: "
  ++ match statusNames storyStatus with
     | Some label => if JS.truthy_string label then label
                     else show_number show storyStatus
     | None => show_number show storyStatus
     end ++ "
⏱️ **Estimate**: " ++ show_or show (Story.estimate story) "Not estimated" ++ " hours
📅 **Created**: "
  ++ match Story.created_at story with
     | Some created => if JS.truthy_string created
                       then toLocaleDateString created else "Unknown"
     | None => "Unknown"
     end ++ "

" ++ (if JS.strict_eq storyStatus (JS.Finite 1)
      then "💡 **Next**: Move to " ++ dq ++ "In Progress" ++ dq
           ++ " when you start working"
      else if JS.strict_eq storyStatus (JS.Finite 3)
      then "🔨 **Active**: Currently in progress"
      else "✅ **Complete**: This story is done").

Definition getStory (args : JS.value) : M State Exn ToolResponse :=
  story_id <- parse GetStorySchema args ;;
  try (
    story <- await (GetStory story_id) (SoftYPMClient.getStory api story_id) ;;
    ret (text_response (story_text story))
  ) catch (fun error =>
    throw (McpError InternalError ("Failed to get story: " ++ message error))).

(** The handler of [CallToolRequestSchema], on
    [request.params = { name, arguments: args }]. *)
Definition callTool (name : string) (args : JS.value) : M State Exn ToolResponse :=
  try (
    if String.eqb name "set_project_context" then setProjectContext show api args
    else if String.eqb name "get_project_info" then getProjectInfo show api args
    else if String.eqb name "create_story" then createStory show api args
    else if String.eqb name "update_story_status" then updateStoryStatus show api args
    else if String.eqb name "get_story" then getStory args
    else if String.eqb name "list_my_stories" then listStories show api args
    else throw (McpError MethodNotFound ("Unknown tool: " ++ name))
  ) catch (fun error =>
    match error with
    | McpError _ _ => throw error
    | ZodError issues =>
        throw (McpError InternalError
                 ("Tool execution failed: " ++ zod_message issues))
    end).

End Requests.

End Dispatcher.

(* ================================================================== *)
(** ** The handlers at run time: [SoftYPMServer] on untyped answers *)

(** The declared types [Project] and [Story] are erased at run time: the
    methods of the gateway return whatever the body of the response held.
    This module embeds the six handlers and the switch on such answers,
    with the TypeErrors the engine raises on them; [SoftYPMServer] and
    [Dispatcher] above are the same handlers on answers that have the
    declared types. *)

Module Runtime.

Import SoftYPMClient SoftYPMServer.

(** *** The gateway as the dispatcher meets it *)

Module Client.

(** [getProject], [createStory] and [getStory] return a JSON value, or
    [undefined]; [getProjectStories] returns an array it built itself. *)
Record t : Type := mk {
  getProject : JS.number -> outcome Error JS.value;
  getProjectStories : JS.number -> outcome Error (list JS.value);
  createStory : CreateStoryData.t -> outcome Error JS.value;
  getStory : Q -> outcome Error JS.value;
  updateStoryStatus : Q -> JS.number -> outcome Error unit
}.

End Client.

(** *** What the engine raises and looks up *)

(** The TypeErrors of a handler: those of a value (a property read on
    [undefined] or [null], a conversion to a string or to a property key
    that fails), and the call of [includes] on a member that
    [validTransitions] only inherits. *)
Inductive TypeError : Type :=
| OfValue (f : Gateway.Fault)
| NoIncludes (key : string).

(** What reaches a [catch] of a handler. *)
Inductive Raised : Type :=
| RaisedError (e : Error)
| RaisedTypeError (f : TypeError).

(** [typeof status === 'string' ? parseInt(status) : status]: a number, or
    the value as it came when it is neither a string nor a number. *)
Inductive Status : Type :=
| Num (n : JS.number)
| Other (v : JS.value).

Definition status_of (v : JS.value) : Status :=
  match v with
  | JS.VString s => Num (JS.parseInt s)
  | JS.VNumber q => Num (JS.Finite q)
  | _ => Other v
  end.

(** The names [Object.prototype] defines; an object literal inherits
    them. *)
Definition Object_prototype : list string :=
  ["constructor"; "__defineGetter__"; "__defineSetter__"; "hasOwnProperty";
   "__lookupGetter__"; "__lookupSetter__"; "isPrototypeOf";
   "propertyIsEnumerable"; "toString"; "valueOf"; "__proto__";
   "toLocaleString"].

(** What [record[key]] finds in an object literal with the keys 1, 3, 5. *)
Inductive Member (T : Type) : Type :=
| Own (x : T)
| Inherited (key : string)
| Missing.
Arguments Own {T} x.
Arguments Inherited {T} key.
Arguments Missing {T}.

(** Sequencing of steps that may raise. *)
Definition and_then {E A B : Type} (o : outcome E A) (k : A -> outcome E B)
  : outcome E B :=
  match o with
  | Return a => k a
  | Throw e => Throw e
  end.

Notation "x <-- o ;; k" := (and_then o (fun x => k))
  (at level 100, o at next level, right associativity).

(** [xs.filter(keep)] and [xs.map(line)] with callbacks that may raise: the
    elements are visited in order, and the first TypeError ends the visit. *)
Fixpoint filter {E : Type} (keep : JS.value -> outcome E bool) (xs : list JS.value)
  : outcome E (list JS.value) :=
  match xs with
  | [] => Return []
  | x :: rest =>
      b <-- keep x ;;
      kept <-- filter keep rest ;;
      Return (if b then x :: kept else kept)
  end.

Fixpoint map_text {E : Type} (line : JS.value -> outcome E string)
    (xs : list JS.value) : outcome E (list string) :=
  match xs with
  | [] => Return []
  | x :: rest =>
      l <-- line x ;;
      ls <-- map_text line rest ;;
      Return (l :: ls)
  end.

Section Handlers.

(** [Number::toString] on a finite number. *)
Variable show : Q -> string.

(** The message the engine gives to each TypeError. *)
Variable engine : TypeError -> string.

(** How the engine prints the member of [Object.prototype] of a name. *)
Variable inherited_text : string -> string.

(** [new Date(v).toLocaleDateString()], in the locale of the host. *)
Variable toLocaleDateString : JS.value -> string.

(** The [message] zod gives to a [ZodError] with these issues. *)
Variable zod_message : list Zod.ZodIssue -> string.

(** The gateway. *)
Variable api : Client.t.

Definition show_number (n : JS.number) : string :=
  match n with
  | JS.Finite q => show q
  | JS.NaN => "NaN"
  | JS.Infinity negative => if negative then "-Infinity" else "Infinity"
  end.

Definition show_nat (n : nat) : string := show (inject_Z (Z.of_nat n)).

(** ToString, as a template literal applies it. *)
Definition text_of (v : JS.value) : outcome TypeError string :=
  match Gateway.to_string show v with
  | Some s => Return s
  | None => Throw (OfValue (Gateway.NotPrimitive v))
  end.

(** [v.key], for the keys the handlers read ([name], [id], [status],
    [estimate], [description], [created_at], [progress_percentage]). *)
Definition read (v : JS.value) (key : string) : outcome TypeError JS.value :=
  match Gateway.read v key with
  | Return x => Return x
  | Throw f => Throw (OfValue f)
  end.

(** [`${v.key}`]. *)
Definition interpolate (v : JS.value) (key : string) : outcome TypeError string :=
  x <-- read v key ;; text_of x.

(** [`${v.key || alt}`]. *)
Definition interpolate_or (v : JS.value) (key : string) (alt : JS.value)
  : outcome TypeError string :=
  x <-- read v key ;; text_of (Gateway.or_value x alt).

(** [{ 1: v1, 3: v3, 5: v5 }[status]].  The key of a number is its decimal
    string, so a number hits by its value; any other value is converted to
    a string first, which may raise, and hits when it prints as 1, 3 or 5
    does.  A name of [Object.prototype] finds the inherited member. *)
Definition member {T : Type} (v1 v3 v5 : T) (status : Status)
  : outcome TypeError (Member T) :=
  match status with
  | Num n =>
      Return (match lookup135 v1 v3 v5 n with
              | Some x => Own x
              | None => Missing
              end)
  | Other v =>
      key <-- text_of v ;;
      Return (if String.eqb key (show 1) then Own v1
              else if String.eqb key (show 3) then Own v3
              else if String.eqb key (show 5) then Own v5
              else if existsb (String.eqb key) Object_prototype then Inherited key
              else Missing)
  end.

(** [`${statusNames[status]}`], from what the lookup found. *)
Definition label_text (m : Member string) : string :=
  match m with
  | Own label => label
  | Inherited key => inherited_text key
  | Missing => "undefined"
  end.

(** [`${status}`]. *)
Definition status_text (status : Status) : outcome TypeError string :=
  match status with
  | Num n => Return (show_number n)
  | Other v => text_of v
  end.

(** [error instanceof Error ? error.message : String(error)]. *)
Definition message_of (error : Raised) : string :=
  match error with
  | RaisedError e => message e
  | RaisedTypeError f => engine f
  end.

(** [await this.softYPMClient.method(...)]: the call is recorded, then its
    answer is returned or thrown. *)
Definition await {A : Type} (c : Call) (answer : outcome Error A)
  : M State Raised A :=
  fun s =>
    (match answer with
     | Return a => Return a
     | Throw e => Throw (RaisedError e)
     end,
     mkState (currentProjectId s) (calls s ++ [c])%list).

(** A step that calls nothing. *)
Definition eval {A : Type} (o : outcome TypeError A) : M State Raised A :=
  fun s =>
    (match o with
     | Return a => Return a
     | Throw f => Throw (RaisedTypeError f)
     end,
     s).

(** [this.currentProjectId = project_id]. *)
Definition set_currentProjectId (p : option JS.number) : M State Raised unit :=
  fun s => (Return tt, mkState p (calls s)).

(** **** set_project_context *)

Definition context_set_text (name : string) (project_id : Q) (progress : string)
  : string :=
  "✅ Project context set to: " ++ name ++ " (ID: "
  ++ show project_id ++ ")

You are now acting as both DEVELOPER and PROJECT MANAGER for this project. Remember to:

🔄 **Workflow**: Always move stories Backlog(1) → In Progress(3) → Done(5)
📏 **Story Size**: Keep stories 1-4 hours, create new ones for additional work
📊 **Track Progress**: Update story status as you work

Project Progress: " ++ progress
  ++ "% complete".

Definition setProjectContext (args : JS.value) : M State Exn ToolResponse :=
  project_id <- parse SetProjectContextSchema args ;;
  try (
    (* Verify project exists and user has access *)
    project <- await (GetProject (JS.Finite project_id))
                     (Client.getProject api (JS.Finite project_id)) ;;
    set_currentProjectId (Some (JS.Finite project_id)) ;;;
    name <- eval (interpolate project "name") ;;
    progress <- eval (interpolate_or project "progress_percentage" (JS.VNumber 0)) ;;
    ret (text_response (context_set_text name project_id progress))
  ) catch (fun error =>
    throw (McpError InvalidRequest
             ("Failed to set project context: " ++ message_of error))).

(** **** get_project_info *)

(** The callback of the three filters:
    [typeof s.status === 'string' ? parseInt(s.status) : s.status] is [n]. *)
Definition has_status (n : Q) (s : JS.value) : outcome TypeError bool :=
  status <-- read s "status" ;;
  Return (match status_of status with
          | Num m => JS.strict_eq m (JS.Finite n)
          | Other _ => false
          end).

Definition next_in_progress (s : JS.value) : outcome TypeError string :=
  id <-- interpolate s "id" ;;
  name <-- interpolate s "name" ;;
  estimate <-- interpolate_or s "estimate" (JS.VString "?") ;;
  Return ("• #" ++ id ++ ": " ++ name ++ " ("
          ++ estimate ++ "h)").

Definition next_backlog (s : JS.value) : outcome TypeError string :=
  id <-- interpolate s "id" ;;
  name <-- interpolate s "name" ;;
  estimate <-- interpolate_or s "estimate" (JS.VString "?") ;;
  Return ("• #" ++ id ++ ": " ++ name ++ " ("
          ++ estimate ++ "h) - Move to In Progress first").

Definition project_info_text (name : string) (projectId : JS.number)
    (progress : string) (done inProgress backlog : nat) (next : list string)
  : string :=
  "📊 **" ++ name ++ "** (Project #" ++ show_number projectId
  ++ ")

**Progress**: " ++ progress
  ++ "% complete
**Stories**: " ++ show_nat done ++ " done, "
  ++ show_nat inProgress ++ " in progress, "
  ++ show_nat backlog ++ " in backlog

**🚀 Next Stories to Work On:**
" ++ JS.join nl next
  ++ "

**Remember**: 
- Move stories to " ++ dq ++ "In Progress" ++ dq ++ " before starting work
- Create new stories for any additional work discovered  
- Keep stories 1-4 hours each for best tracking".

Definition getProjectInfo (args : JS.value) : M State Exn ToolResponse :=
  project_id <- parse GetProjectSchema args ;;
  this <- get_state ;;
  match truthy_id (or_current project_id (currentProjectId this)) with
  | None => throw no_project_context
  | Some projectId =>
      try (
        project <- await (GetProject projectId) (Client.getProject api projectId) ;;
        stories <- await (GetProjectStories projectId)
                         (Client.getProjectStories api projectId) ;;
        backlogStories <- eval (filter (has_status 1) stories) ;;
        inProgressStories <- eval (filter (has_status 3) stories) ;;
        doneStories <- eval (filter (has_status 5) stories) ;;
        name <- eval (interpolate project "name") ;;
        progress <- eval (interpolate_or project "progress_percentage"
                            (JS.VNumber 0)) ;;
        next <- eval (if Nat.ltb 0 (length inProgressStories)
                      then map_text next_in_progress (JS.slice0 3 inProgressStories)
                      else map_text next_backlog (JS.slice0 3 backlogStories)) ;;
        ret (text_response
               (project_info_text name projectId progress (length doneStories)
                  (length inProgressStories) (length backlogStories) next))
      ) catch (fun error =>
        throw (McpError InternalError
                 ("Failed to get project info: " ++ message_of error)))
  end.

(** **** create_story *)

Definition story_created_text (id name : string) (description : option string)
    (estimate : option Q) : string :=
  "✅ **Story Created**: #" ++ id ++ " - " ++ name
  ++ "

📝 **Description**: " ++ string_or description "No description provided" ++ "
⏱️ **Estimate**: " ++ SoftYPMServer.show_or show estimate "Not estimated" ++ " hours
📊 **Status**: Backlog (ready to start)

**Next step**: Use `update_story_status` to move it to " ++ dq ++ "In Progress"
  ++ dq ++ " when you start working on it.".

Definition createStory (args : JS.value) : M State Exn ToolResponse :=
  a <- parse CreateStorySchema args ;;
  this <- get_state ;;
  match truthy_id (or_current (cs_project_id a) (currentProjectId this)) with
  | None => throw no_project_context
  | Some targetProjectId =>
      (* Validate story size *)
      match too_large (cs_estimate a) with
      | Some estimate =>
          ret (text_response (story_too_large_text show (cs_name a) estimate))
      | None =>
          let data :=
            CreateStoryData.mk (cs_name a) (cs_description a) (cs_estimate a)
              (cs_epic_id a) targetProjectId
              (Some 1) (* Start in backlog *) in
          try (
            story <- await (CreateStory data) (Client.createStory api data) ;;
            id <- eval (interpolate story "id") ;;
            name <- eval (interpolate story "name") ;;
            ret (text_response
                   (story_created_text id name (cs_description a) (cs_estimate a)))
          ) catch (fun error =>
            throw (McpError InternalError
                     ("Failed to create story: " ++ message_of error)))
      end
  end.

(** **** update_story_status *)

(** [validTransitions[currentStatus]]. *)
Definition validTransitions (currentStatus : Status)
  : outcome TypeError (Member (list JS.number)) :=
  member [JS.Finite 3] [JS.Finite 5; JS.Finite 1] [JS.Finite 1; JS.Finite 3]
    currentStatus.

(** [statusNames[status]]. *)
Definition statusNames (status : Status) : outcome TypeError (Member string) :=
  member "Backlog" "In Progress" "Done" status.

(** [row?.includes(targetStatus)], as the condition of [if (!...)] reads
    it; a member that is only inherited is no array. *)
Definition includes (row : Member (list JS.number)) (targetStatus : JS.number)
  : outcome TypeError bool :=
  match row with
  | Own targets => Return (JS.includes targets targetStatus)
  | Inherited key => Throw (NoIncludes key)
  | Missing => Return false
  end.

(** [`${row?.map(s => statusNames[s]).join(', ')}`]. *)
Definition valid_next_steps (row : Member (list JS.number)) : string :=
  match row with
  | Own targets =>
      JS.join ", "
        (map (fun s => match SoftYPMServer.statusNames s with
                       | Some n => n
                       | None => ""
                       end)
             targets)
  | _ => "undefined"
  end.

Definition invalid_transition_text (current target next : string) : string :=
  "⚠️ **Invalid Workflow Transition**

Cannot move story from " ++ dq ++ current ++ dq
  ++ " to " ++ dq ++ target ++ dq ++ "

**Valid workflow**: Backlog (1) → In Progress (3) → Done (5)

Current status: " ++ current ++ "
Valid next steps: " ++ next.

Definition story_updated_text (story_id : Q) (name current : string)
    (targetStatus : JS.number) (notes : option string) : string :=
  let message :=
    "✅ **Story Updated**: #" ++ show story_id ++ " - " ++ name
    ++ "

📊 **Status**: " ++ current ++ " → "
    ++ or_undefined (SoftYPMServer.statusNames targetStatus) in
  let message :=
    match notes with
    | Some n => if JS.truthy_string n
                then message ++ "
📝 **Notes**: " ++ n
                else message
    | None => message
    end in
  if JS.strict_eq targetStatus (JS.Finite 3) then
    message ++ "

🔨 **Now In Progress** - You are actively working on this story. Remember to move it to "
    ++ dq ++ "Done" ++ dq ++ " when completed."
  else if JS.strict_eq targetStatus (JS.Finite 5) then
    message ++ "

🎉 **Story Completed!** - Great work! This story is now marked as done."
  else message.

Definition updateStoryStatus (args : JS.value) : M State Exn ToolResponse :=
  a <- parse UpdateStoryStatusSchema args ;;
  let story_id := us_story_id a in
  let targetStatus := target_number (us_status a) in
  try (
    (* Get current story status to validate workflow *)
    currentStory <- await (GetStory story_id) (Client.getStory api story_id) ;;
    status <- eval (read currentStory "status") ;;
    let currentStatus := status_of status in
    (* Validate workflow progression *)
    row <- eval (validTransitions currentStatus) ;;
    allowed <- eval (includes row targetStatus) ;;
    if negb allowed then
      current <- eval (statusNames currentStatus) ;;
      ret (text_response
             (invalid_transition_text (label_text current)
                (or_undefined (SoftYPMServer.statusNames targetStatus))
                (valid_next_steps row)))
    else
      await (UpdateStoryStatus story_id targetStatus)
            (Client.updateStoryStatus api story_id targetStatus) ;;;
      name <- eval (interpolate currentStory "name") ;;
      current <- eval (statusNames currentStatus) ;;
      ret (text_response
             (story_updated_text story_id name (label_text current) targetStatus
                (us_notes a)))
  ) catch (fun error =>
    throw (McpError InternalError
             ("Failed to update story status: " ++ message_of error))).

(** **** get_story *)

(** [`${statusNames[storyStatus] || storyStatus}`]. *)
Definition status_label (storyStatus : Status) : outcome TypeError string :=
  found <-- statusNames storyStatus ;;
  match found with
  | Own label => if JS.truthy_string label then Return label
                 else status_text storyStatus
  | Inherited key => Return (inherited_text key)
  | Missing => status_text storyStatus
  end.

(** [`${v ? new Date(v).toLocaleDateString() : 'Unknown'}`]: the
    constructor converts an object to a primitive first, which raises when
    its conversion to a string does. *)
Definition created_text (v : JS.value) : outcome TypeError string :=
  if Gateway.truthy v then
    and_then (text_of v) (fun _ => Return (toLocaleDateString v))
  else Return "Unknown".

Definition story_text (id name description status estimate created : string)
    (storyStatus : Status) : string :=
  "📋 **Story #" ++ id ++ "**: " ++ name ++ "

📝 **Description**: " ++ description ++ "
📊 **Status**: "
  ++ status ++ "
⏱️ **Estimate**: " ++ estimate ++ " hours
📅 **Created**: "
  ++ created ++ "

" ++ (if match storyStatus with
             | Num n => JS.strict_eq n (JS.Finite 1)
             | Other _ => false
             end
      then "💡 **Next**: Move to " ++ dq ++ "In Progress" ++ dq
           ++ " when you start working"
      else if match storyStatus with
              | Num n => JS.strict_eq n (JS.Finite 3)
              | Other _ => false
              end
      then "🔨 **Active**: Currently in progress"
      else "✅ **Complete**: This story is done").

Definition getStory (args : JS.value) : M State Exn ToolResponse :=
  story_id <- parse Dispatcher.GetStorySchema args ;;
  try (
    story <- await (GetStory story_id) (Client.getStory api story_id) ;;
    status <- eval (read story "status") ;;
    let storyStatus := status_of status in
    id <- eval (interpolate story "id") ;;
    name <- eval (interpolate story "name") ;;
    description <- eval (interpolate_or story "description"
                           (JS.VString "No description")) ;;
    label <- eval (status_label storyStatus) ;;
    estimate <- eval (interpolate_or story "estimate"
                        (JS.VString "Not estimated")) ;;
    created <- eval (c <-- read story "created_at" ;; created_text c) ;;
    ret (text_response
           (story_text id name description label estimate created storyStatus))
  ) catch (fun error =>
    throw (McpError InternalError ("Failed to get story: " ++ message_of error))).

(** **** list_my_stories *)

(** The callback of the status filter. *)
Definition status_is (targetStatus : JS.number) (s : JS.value)
  : outcome TypeError bool :=
  status <-- read s "status" ;;
  Return (match status_of status with
          | Num m => JS.strict_eq m targetStatus
          | Other _ => false
          end).

(** The stories kept by the status filter. *)
Definition filteredStories (status : option string) (stories : list JS.value)
  : outcome TypeError (list JS.value) :=
  match status with
  | Some st =>
      if filter_given status
      then filter (status_is (JS.parseInt st)) stories
      else Return stories
  | None => Return stories
  end.

Definition story_line (story : JS.value) : outcome TypeError string :=
  status <-- read story "status" ;;
  let storyStatus := status_of status in
  id <-- interpolate story "id" ;;
  name <-- interpolate story "name" ;;
  label <-- statusNames storyStatus ;;
  estimate <-- read story "estimate" ;;
  hours <-- (if Gateway.truthy estimate
             then e <-- text_of estimate ;; Return ("(" ++ e ++ "h)")
             else Return "") ;;
  Return ("• #" ++ id ++ ": " ++ name ++ " [" ++ label_text label ++ "] "
          ++ hours).

Definition more_suffix (kept : nat) : string :=
  if Nat.ltb 10 kept
  then "... and " ++ show_nat (kept - 10) ++ " more"
  else "".

Definition stories_text (status : option string) (lines : list string)
    (kept : nat) : string :=
  "📋 **Stories** "
  ++ match status with
     | Some st =>
         if filter_given status
         then "(" ++ or_undefined (SoftYPMServer.statusNames (JS.parseInt st))
              ++ ")"
         else ""
     | None => ""
     end
  ++ ":" ++ nl ++ nl ++ JS.join nl lines ++ nl ++ nl ++ more_suffix kept.

Definition listStories (args : JS.value) : M State Exn ToolResponse :=
  a <- parse ListStoriesSchema args ;;
  this <- get_state ;;
  match truthy_id (or_current (ls_project_id a) (currentProjectId this)) with
  | None => throw no_project_context
  | Some targetProjectId =>
      try (
        stories <- await (GetProjectStories targetProjectId)
                         (Client.getProjectStories api targetProjectId) ;;
        filtered <- eval (filteredStories (ls_status a) stories) ;;
        if Nat.eqb (length filtered) 0 then
          ret (text_response (no_stories_text (ls_status a)))
        else
          lines <- eval (map_text story_line (JS.slice0 10 filtered)) ;;
          ret (text_response (stories_text (ls_status a) lines (length filtered)))
      ) catch (fun error =>
        throw (McpError InternalError
                 ("Failed to list stories: " ++ message_of error)))
  end.

(** **** The switch over the tools *)

(** The handler of [CallToolRequestSchema], on
    [request.params = { name, arguments: args }]. *)
Definition callTool (name : string) (args : JS.value) : M State Exn ToolResponse :=
  try (
    if String.eqb name "set_project_context" then setProjectContext args
    else if String.eqb name "get_project_info" then getProjectInfo args
    else if String.eqb name "create_story" then createStory args
    else if String.eqb name "update_story_status" then updateStoryStatus args
    else if String.eqb name "get_story" then getStory args
    else if String.eqb name "list_my_stories" then listStories args
    else throw (McpError MethodNotFound ("Unknown tool: " ++ name))
  ) catch (fun error =>
    match error with
    | McpError _ _ => throw error
    | ZodError issues =>
        throw (McpError InternalError
                 ("Tool execution failed: " ++ zod_message issues))
    end).

End Handlers.

(** *** The gateway over HTTP, and the gateway of the declared types *)

(** [new SoftYPMClient(...)] over a backend: each method is the one of
    [Gateway]. *)
Definition over_http (show : Q -> string) (engine : TypeError -> string)
    (backend : Gateway.HttpCall -> Gateway.AxiosResult) : Client.t :=
  let fault (f : Gateway.Fault) := engine (OfValue f) in
  Client.mk
    (fun projectId => fst (Gateway.getProject show fault backend projectId []))
    (fun projectId =>
       fst (Gateway.getProjectStories show fault backend projectId []))
    (fun data => fst (Gateway.createStory show fault backend data []))
    (fun storyId => fst (Gateway.getStory show fault backend storyId []))
    (fun storyId status =>
       fst (Gateway.updateStoryStatus show fault backend storyId status [])).

(** A property that is present when the optional field is. *)
Definition optional_property {A : Type} (key : string) (json : A -> JS.value)
    (field : option A) : list (string * JS.value) :=
  match field with
  | Some a => [(key, json a)]
  | None => []
  end.

(** A project and a story of the declared types, as JSON. *)
Definition project_json (p : Project.t) : JS.value :=
  JS.VObject
    ([("id", JS.VNumber (Project.id p)); ("name", JS.VString (Project.name p))]
     ++ optional_property "description" JS.VString (Project.description p)
     ++ optional_property "client"
          (fun c => JS.VObject [("name", JS.VString c)]) (Project.client p)
     ++ optional_property "progress_percentage" JS.VNumber
          (Project.progress_percentage p))%list.

Definition status_json (s : StatusField) : JS.value :=
  match s with
  | StatusNumber q => JS.VNumber q
  | StatusString str => JS.VString str
  end.

Definition story_json (s : Story.t) : JS.value :=
  JS.VObject
    ([("id", JS.VNumber (Story.id s)); ("name", JS.VString (Story.name s))]
     ++ optional_property "description" JS.VString (Story.description s)
     ++ [("status", status_json (Story.status s))]
     ++ optional_property "estimate" JS.VNumber (Story.estimate s)
     ++ optional_property "epic_id" JS.VNumber (Story.epic_id s)
     ++ [("project_id", JS.VNumber (Story.project_id s))]
     ++ optional_property "created_at" JS.VString (Story.created_at s)
     ++ optional_property "updated_at" JS.VString (Story.updated_at s))%list.

Definition json_answer {A B : Type} (json : A -> B) (o : outcome Error A)
  : outcome Error B :=
  match o with
  | Return a => Return (json a)
  | Throw e => Throw e
  end.

(** A gateway whose answers have the declared types. *)
Definition typed (api : SoftYPMClient.t) : Client.t :=
  Client.mk
    (fun projectId => json_answer project_json (SoftYPMClient.getProject api projectId))
    (fun projectId =>
       json_answer (map story_json) (SoftYPMClient.getProjectStories api projectId))
    (fun data => json_answer story_json (SoftYPMClient.createStory api data))
    (fun storyId => json_answer story_json (SoftYPMClient.getStory api storyId))
    (SoftYPMClient.updateStoryStatus api).

End Runtime.

(* ================================================================== *)
(** ** Vocabulary of the properties *)

Import SoftYPMClient SoftYPMServer.

(** The number [n] is the finite value [z]. *)
Definition num_is (n : JS.number) (z : Q) : Prop :=
  match n with
  | JS.Finite q => q == z
  | JS.NaN | JS.Infinity _ => False
  end.

(** A status of the workflow: 1, 3 or 5. *)
Definition workflow_status (n : JS.number) : Prop :=
  num_is n 1 \/ num_is n 3 \/ num_is n 5.

(** The pairs (current, target) of the transition table:
    1 -> 3; 3 -> 5; 3 -> 1; 5 -> 1; 5 -> 3. *)
Definition listed_transition (s t : JS.number) : Prop :=
  (num_is s 1 /\ num_is t 3) \/
  (num_is s 3 /\ num_is t 5) \/
  (num_is s 3 /\ num_is t 1) \/
  (num_is s 5 /\ num_is t 1) \/
  (num_is s 5 /\ num_is t 3).

(** The writes among the calls of a journal. *)
Definition writes (cs : list Call) : list Call := filter is_write cs.

(** [s] ends with [suffix]. *)
Definition ends_with (s suffix : string) : Prop :=
  exists pre : string, s = pre ++ suffix.

(** A session whose journal of gateway calls is empty. *)
Definition session (ctx : option JS.number) : State := mkState ctx [].

(** The run [r] of a handler from an empty journal, replayed after the
    calls [old]. *)
Definition rebase (old : list Call) (r : outcome Exn ToolResponse * State)
  : outcome Exn ToolResponse * State :=
  (fst r, mkState (currentProjectId (snd r)) (old ++ calls (snd r))%list).

(** The project a gateway call is about, for the calls that name one. *)
Definition call_project (c : Call) : option JS.number :=
  match c with
  | GetProject p => Some p
  | GetProjectStories p => Some p
  | CreateStory d => Some (CreateStoryData.project_id d)
  | GetStory _ => None
  | UpdateStoryStatus _ _ => None
  end.

(** [sub] occurs in [s]. *)
Definition contains (s sub : string) : Prop :=
  exists pre post : string, s = pre ++ sub ++ post.

(** The decidable form of [ends_with]. *)
Fixpoint ends_withb (s suffix : string) : bool :=
  String.eqb s suffix ||
  match s with
  | String _ rest => ends_withb rest suffix
  | EmptyString => false
  end.

(** [s] starts with [pre]. *)
Fixpoint starts_withb (s pre : string) : bool :=
  match pre, s with
  | EmptyString, _ => true
  | String a p, String b r => Ascii.eqb a b && starts_withb r p
  | String _ _, EmptyString => false
  end.

(** The decidable form of [contains]. *)
Fixpoint containsb (s sub : string) : bool :=
  starts_withb s sub ||
  match s with
  | String _ rest => containsb rest sub
  | EmptyString => false
  end.

(** The target statuses the validation of [update_story_status] lets
    through: the strings '1', '3', '5' and the numbers from 1 to 5. *)
Definition acceptable_status (v : JS.value) : Prop :=
  match v with
  | JS.VString s => s = "1" \/ s = "3" \/ s = "5"
  | JS.VNumber q => 1 <= q /\ q <= 5
  | _ => False
  end.

(** The schema of the [status] property of [update_story_status]. *)
Definition status_schema : Zod.schema (string + Q) :=
  Zod.or (Zod.enum ["1"; "3"; "5"])
         (Zod.refine2 (Zod.at_least 1) (Zod.issue Zod.too_small)
                      (Zod.at_most 5) (Zod.issue Zod.too_big) Zod.number).

(** The operations that accept an optional project id. *)
Inductive ProjectOp : Type :=
| InfoLookup
| StoryCreation
| StoryListing.

(** The handler of each of them. *)
Definition handler (show : Q -> string) (api : SoftYPMClient.t) (op : ProjectOp)
  : JS.value -> M State Exn ToolResponse :=
  match op with
  | InfoLookup => getProjectInfo show api
  | StoryCreation => createStory show api
  | StoryListing => listStories show api
  end.

(** The explicit project id of the arguments, when they pass validation:
    [Some None] when they are valid and carry no project id. *)
Definition explicit_project_id (op : ProjectOp) (args : JS.value)
  : option (option Q) :=
  match op with
  | InfoLookup =>
      match GetProjectSchema args with
      | Zod.Valid p => Some p
      | Zod.Invalid _ => None
      end
  | StoryCreation =>
      match CreateStorySchema args with
      | Zod.Valid a => Some (cs_project_id a)
      | Zod.Invalid _ => None
      end
  | StoryListing =>
      match ListStoriesSchema args with
      | Zod.Valid a => Some (ls_project_id a)
      | Zod.Invalid _ => None
      end
  end.

(** The run of a handler worked on project [pid]: every gateway call it
    made is about [pid], the no-project-context error was not raised, and
    when it made no call at all it returned a response. *)
Definition uses_project (run : outcome Exn ToolResponse * State) (pid : JS.number)
  : Prop :=
  Forall (fun c => call_project c = Some pid) (calls (snd run)) /\
  fst run <> Throw no_project_context /\
  (calls (snd run) = [] -> exists r : ToolResponse, fst run = Return r).

(** The request [createStory] sends for validated arguments [a] on project
    [pid]. *)
Definition creation_request (a : CreateStoryArgs) (pid : JS.number)
  : CreateStoryData.t :=
  CreateStoryData.mk (cs_name a) (cs_description a) (cs_estimate a)
    (cs_epic_id a) pid (Some 1).

(** *** Concrete inputs for the examples *)

(** A rendering of numbers: plain decimal digits on the integers, as
    [Number::toString] prints them below 10^21. *)
Definition decimal (q : Q) : string :=
  let r := Qred q in
  let n := DecimalString.NilZero.string_of_int (Z.to_int (Qnum r)) in
  if Pos.eqb (Qden r) 1 then n
  else n ++ "/" ++ DecimalString.NilEmpty.string_of_uint (Pos.to_uint (Qden r)).

Definition sample_project : Project.t :=
  Project.mk 42 "Apollo" None None (Some 40).

Definition sample_story (id : Q) (status : StatusField) : Story.t :=
  Story.mk id "Parse the header" None status (Some 2) None 42 None None.

(** A backend that answers every call, and reports every story with the
    given status. *)
Definition sample_backend (status : StatusField) : SoftYPMClient.t :=
  SoftYPMClient.mk
    (fun _ => Return sample_project)
    (fun _ => Return [sample_story 1 status; sample_story 2 status])
    (fun d =>
       Return (Story.mk 101 (CreateStoryData.name d) (CreateStoryData.description d)
                 (StatusNumber 1) (CreateStoryData.estimate d)
                 (CreateStoryData.epic_id d) 42 None None))
    (fun id => Return (sample_story id status))
    (fun _ _ => Return tt).

(** A backend that rejects every call. *)
Definition failing_backend : SoftYPMClient.t :=
  let e := mkError "Resource not found." in
  SoftYPMClient.mk (fun _ => Throw e) (fun _ => Throw e) (fun _ => Throw e)
    (fun _ => Throw e) (fun _ _ => Throw e).

(** [{ story_id: 7, status }]. *)
Definition update_args (status : JS.value) : JS.value :=
  JS.VObject [("story_id", JS.VNumber 7); ("status", status)].

(** [{ name: "Parse the header", ...more }]. *)
Definition create_args (more : list (string * JS.value)) : JS.value :=
  JS.VObject (("name", JS.VString "Parse the header") :: more).

(** A backend whose project holds twelve stories in progress. *)
Definition twelve_stories : list Story.t :=
  map (fun i => sample_story (inject_Z (Z.of_nat i)) (StatusNumber 3)) (seq 1 12).

Definition busy_backend : SoftYPMClient.t :=
  SoftYPMClient.mk
    (fun _ => Return sample_project)
    (fun _ => Return twelve_stories)
    (fun _ => Throw (mkError "Resource not found."))
    (fun id => Return (sample_story id (StatusNumber 3)))
    (fun _ _ => Return tt).

(** [{ status: "3" }]. *)
Definition in_progress_filter : JS.value :=
  JS.VObject [("status", JS.VString "3")].

(** A backend that answers the probe, and one that cannot be reached. *)
Definition healthy (url : string) : outcome Error AxiosResponse :=
  Return (mkResponse 200 (JS.VObject [("success", JS.VBool true)])).

Definition unreachable (url : string) : outcome Error AxiosResponse :=
  Throw (mkError "Unable to connect to SoftYPM. Please check your internet connection.").

(** *** Vocabulary of the properties of the switch and of the gateway *)

(** What the switch over the tools makes of the run of a handler: a
    [ZodError] leaves as an [McpError], everything else as it is. *)
Definition rethrown (zod_message : list Zod.ZodIssue -> string)
    (run : outcome Exn ToolResponse * State) : outcome Exn ToolResponse * State :=
  match run with
  | (Throw (ZodError issues), st) =>
      (Throw (McpError InternalError
                ("Tool execution failed: " ++ zod_message issues)), st)
  | _ => run
  end.

(** The names of the listed tools. *)
Definition tool_names : list string := map Dispatcher.name Dispatcher.tools.

(** The server handling requests one after the other: the state each
    request leaves is the state the next one finds. *)
Definition serve (show : Q -> string) (date : string -> string)
    (zod_message : list Zod.ZodIssue -> string) (api : SoftYPMClient.t)
    (requests : list (string * JS.value)) (st : State) : State :=
  fold_left
    (fun s request =>
       snd (Dispatcher.callTool show date zod_message api
              (fst request) (snd request) s))
    requests st.

(** A context that was set by [set_project_context]: a positive id. *)
Definition positive_context (c : option JS.number) : Prop :=
  exists q : Q, c = Some (JS.Finite q) /\ 0 < q.

(** What a handler can throw: the error of [parse], or an [McpError] with
    code [InvalidRequest] or [InternalError]. *)
Definition handler_exception (e : Exn) : Prop :=
  (exists issues : list Zod.ZodIssue, e = ZodError issues) \/
  (exists msg : string, e = McpError InvalidRequest msg) \/
  (exists msg : string, e = McpError InternalError msg).

(** The run of a handler that does not touch the session context and
    issues no write. *)
Definition read_only (st : State) (run : outcome Exn ToolResponse * State) : Prop :=
  currentProjectId (snd run) = currentProjectId st /\
  writes (calls (snd run)) = writes (calls st) /\
  (forall e : Exn, fst run = Throw e -> handler_exception e).


(** The tool of each operation that accepts an optional project id. *)
Definition tool_of (op : ProjectOp) : string :=
  match op with
  | InfoLookup => "get_project_info"
  | StoryCreation => "create_story"
  | StoryListing => "list_my_stories"
  end.

(** The value [v] of a [stories] or [epics] property stands for the list
    [l]: it is that array, or it is missing or otherwise falsy and the list
    is empty. *)
Definition stands_for (v : JS.value) (l : list JS.value) : Prop :=
  v = JS.VArray l \/ (Gateway.truthy v = false /\ l = []).

(** An epic of a structure response that holds the stories [stories]. *)
Definition epic_holds (epic : JS.value) (stories : list JS.value) : Prop :=
  exists fields : list (string * JS.value),
    epic = JS.VObject fields /\ stands_for (JS.get "stories" fields) stories.

(** The statuses for which the interceptor has a message of its own. *)
Definition coded_status (status : Z) : Prop :=
  status = 401%Z \/ status = 403%Z \/ status = 404%Z \/ (500 <= status)%Z.

(** A method of the gateway sent the one request [call] and, when it
    failed, threw an [Error] whose message starts with [prefix]. *)
Definition one_request_described {A : Type}
    (run : outcome Error A * list Gateway.HttpCall)
    (sent : list Gateway.HttpCall) (call : Gateway.HttpCall) (prefix : string)
  : Prop :=
  snd run = (sent ++ [call])%list /\
  forall e : Error,
    fst run = Throw e -> exists m : string, e = mkError (prefix ++ m).

(** What the [catch] of each handler makes of an [Error] of the gateway. *)
Definition failure_report (name : string) (e : Error) : Exn :=
  if String.eqb name "set_project_context" then
    McpError InvalidRequest ("Failed to set project context: " ++ message e)
  else
    McpError InternalError
      ((if String.eqb name "get_project_info" then "Failed to get project info: "
        else if String.eqb name "create_story" then "Failed to create story: "
        else if String.eqb name "update_story_status"
        then "Failed to update story status: "
        else if String.eqb name "get_story" then "Failed to get story: "
        else "Failed to list stories: ") ++ message e).

(** *** Concrete inputs for the further examples *)

(** A host that prints dates as they come, and a message for every
    [ZodError]. *)
Definition sample_date (s : string) : string := s.

Definition sample_zod_message (issues : list Zod.ZodIssue) : string :=
  "Invalid input".

(** The texts of the TypeErrors. *)
Definition sample_engine (f : Gateway.Fault) : string :=
  match f with
  | Gateway.ReadOf JS.VNull key =>
      "Cannot read properties of null (reading '" ++ key ++ "')"
  | Gateway.ReadOf _ key =>
      "Cannot read properties of undefined (reading '" ++ key ++ "')"
  | Gateway.NotAFunction _ method => "project.epics." ++ method ++ " is not a function"
  | Gateway.NotIterable _ => "Spread syntax requires ...iterable[Symbol.iterator] to be a function"
  | Gateway.NotPrimitive _ => "Cannot convert object to primitive value"
  end.

(** [{ id, name: "Parse the header", status: 1 }]. *)
Definition story_json (id : Q) : JS.value :=
  JS.VObject [("id", JS.VNumber id); ("name", JS.VString "Parse the header");
              ("status", JS.VNumber 1)].

(** A structure response: an epic with two stories, an epic with none, and
    one story on the project itself. *)
Definition structure_project : list (string * JS.value) :=
  [("epics", JS.VArray [JS.VObject [("stories",
                                     JS.VArray [story_json 1; story_json 2])];
                        JS.VObject [("name", JS.VString "Later")]]);
   ("stories", JS.VArray [story_json 3])].

Definition structure_body : list (string * JS.value) :=
  [("success", JS.VBool true);
   ("data", JS.VObject [("project", JS.VObject structure_project)])].

(** A backend that answers every request with the same response, and one
    that rejects every request with the same error. *)
Definition answering (r : Gateway.Response) (c : Gateway.HttpCall)
  : Gateway.AxiosResult := Gateway.Resolved r.

Definition rejecting (e : Gateway.AxiosError) (c : Gateway.HttpCall)
  : Gateway.AxiosResult := Gateway.Rejected e.

(** The rejection of a request the backend answered with the given status
    and body. *)
Definition answered_with (status : Z) (statusText : string) (body : JS.value)
  : Gateway.AxiosError :=
  Gateway.mkAxiosError (Some (Gateway.mkResponse status statusText body)) true
    "Request failed".


(** *** Vocabulary of the properties at run time *)

(** A property that is absent or holds a string. *)
Definition optional_string (v : JS.value) : Prop :=
  v = JS.VUndefined \/ exists s : string, v = JS.VString s.

(** The status [v] asked for in the arguments stands for the number [t]:
    one of the strings '1', '3', '5', or a number from 1 to 5. *)
Definition requested_status (v : JS.value) (t : JS.number) : Prop :=
  (v = JS.VString "1" /\ t = JS.Finite 1) \/
  (v = JS.VString "3" /\ t = JS.Finite 3) \/
  (v = JS.VString "5" /\ t = JS.Finite 5) \/
  (exists q : Q, v = JS.VNumber q /\ 1 <= q /\ q <= 5 /\ t = JS.Finite q).

(** The story the backend answered carries the status [s]: a number, or a
    string, which [parseInt] reads. *)
Definition fetched_status (story : JS.value) (s : JS.number) : Prop :=
  exists fields : list (string * JS.value),
    story = JS.VObject fields /\
    ((exists q : Q, JS.get "status" fields = JS.VNumber q /\ s = JS.Finite q) \/
     (exists str : string,
         JS.get "status" fields = JS.VString str /\ s = JS.parseInt str)).

(** The label the server prints for a status: that of 1, 3 or 5, and
    [undefined] for every other number. *)
Definition label_of_status (t : JS.number) (label : string) : Prop :=
  (num_is t 1 /\ label = "Backlog") \/
  (num_is t 3 /\ label = "In Progress") \/
  (num_is t 5 /\ label = "Done") \/
  (~ workflow_status t /\ label = "undefined").

(** The arguments of [update_story_status] for story [id], with status
    property [requested]: a positive story id, and notes that are absent or
    a string. *)
Definition update_request (fields : list (string * JS.value)) (id : Q)
    (requested : JS.value) : Prop :=
  JS.get "story_id" fields = JS.VNumber id /\ 0 < id /\
  JS.get "status" fields = requested /\
  optional_string (JS.get "notes" fields).

(** The string and the number a property holds. *)
Definition string_property (v : JS.value) : option string :=
  match v with
  | JS.VString s => Some s
  | _ => None
  end.

Definition number_property (v : JS.value) : option Q :=
  match v with
  | JS.VNumber q => Some q
  | _ => None
  end.

(** The project id the resolution rule gives for these arguments in this
    session: the explicit id when it is a number other than 0, and else the
    current project id of the session when that is neither 0 nor NaN. *)
Definition resolves (fields : list (string * JS.value)) (ctx : option JS.number)
    (pid : JS.number) : Prop :=
  (exists q : Q,
     JS.get "project_id" fields = JS.VNumber q /\ ~ q == 0 /\ pid = JS.Finite q) \/
  ((JS.get "project_id" fields = JS.VUndefined \/
    exists q : Q, JS.get "project_id" fields = JS.VNumber q /\ q == 0) /\
   ctx = Some pid /\ JS.truthy pid = true).

(** The creation request for these arguments on project [pid]: the name,
    the optional properties as they were given, and status 1. *)
Definition expected_request (fields : list (string * JS.value)) (name : string)
    (pid : JS.number) : CreateStoryData.t :=
  CreateStoryData.mk name
    (string_property (JS.get "description" fields))
    (number_property (JS.get "estimate" fields))
    (number_property (JS.get "epic_id" fields))
    pid (Some 1).

(** The handlers at run time of the operations that accept an optional
    project id. *)
Definition runtime_handler (show : Q -> string)
    (engine : Runtime.TypeError -> string) (inherited_text : string -> string)
    (api : Runtime.Client.t) (op : ProjectOp)
  : JS.value -> M State Exn ToolResponse :=
  match op with
  | InfoLookup => Runtime.getProjectInfo show engine api
  | StoryCreation => Runtime.createStory show engine api
  | StoryListing => Runtime.listStories show engine inherited_text api
  end.

(** The run of an operation worked on project [pid]: info lookup fetched
    the project [pid] and, when that succeeded, its stories; story listing
    fetched the stories of [pid]; story creation sent the creation request
    for [pid], or, for an estimate above 6, called nothing and returned the
    warning. *)
Definition works_on (show : Q -> string) (api : Runtime.Client.t) (op : ProjectOp)
    (fields : list (string * JS.value)) (pid : JS.number)
    (run : outcome Exn ToolResponse * State) : Prop :=
  match op with
  | InfoLookup =>
      calls (snd run)
      = GetProject pid
        :: match Runtime.Client.getProject api pid with
           | Return _ => [GetProjectStories pid]
           | Throw _ => []
           end
  | StoryListing => calls (snd run) = [GetProjectStories pid]
  | StoryCreation =>
      exists name : string,
        JS.get "name" fields = JS.VString name /\
        match number_property (JS.get "estimate" fields) with
        | Some e =>
            if Qle_bool e 6
            then calls (snd run) = [CreateStory (expected_request fields name pid)]
            else calls (snd run) = [] /\
                 fst run = Return (text_response (story_too_large_text show name e))
        | None => calls (snd run) = [CreateStory (expected_request fields name pid)]
        end
  end.

(** A story of the declared type is at status [n]: its status is the
    number [n], or a string in which [parseInt] reads [n]. *)
Definition at_status (n : Q) (s : Story.t) : bool :=
  match Story.status s with
  | StatusNumber q => Qeq_bool q n
  | StatusString str => JS.strict_eq (JS.parseInt str) (JS.Finite n)
  end.

(** The label a listing shows for the status of a story. *)
Definition listed_label (s : Story.t) : string :=
  if at_status 1 s then "Backlog"
  else if at_status 3 s then "In Progress"
  else if at_status 5 s then "Done"
  else "undefined".

(** The line of a listing for a story: its id, its name, the label of its
    status in brackets and, when it has an estimate other than 0, the hours
    in parentheses. *)
Definition listing_line (show : Q -> string) (s : Story.t) : string :=
  "• #" ++ show (Story.id s) ++ ": " ++ Story.name s ++ " [" ++ listed_label s
  ++ "] "
  ++ match Story.estimate s with
     | Some e => if Qeq_bool e 0 then "" else "(" ++ show e ++ "h)"
     | None => ""
     end.

(** The [Error] a call to the gateway raised, when it raised one. *)
Definition raised (api : Runtime.Client.t) (c : Call) : option Error :=
  match c with
  | GetProject p =>
      match Runtime.Client.getProject api p with
      | Throw e => Some e
      | Return _ => None
      end
  | GetProjectStories p =>
      match Runtime.Client.getProjectStories api p with
      | Throw e => Some e
      | Return _ => None
      end
  | CreateStory d =>
      match Runtime.Client.createStory api d with
      | Throw e => Some e
      | Return _ => None
      end
  | GetStory id =>
      match Runtime.Client.getStory api id with
      | Throw e => Some e
      | Return _ => None
      end
  | UpdateStoryStatus id t =>
      match Runtime.Client.updateStoryStatus api id t with
      | Throw e => Some e
      | Return _ => None
      end
  end.

(** What a tool call that reached the gateway leaves behind.  Its last
    call is [c]; the context is as it was, unless the call was a
    set_project_context with valid arguments whose fetch succeeded; and
    what it throws is the report of its tool, on the [Error] that [c]
    raised or, when [c] returned, on a TypeError. *)
Definition reached_gateway (engine : Runtime.TypeError -> string)
    (api : Runtime.Client.t) (name : string) (args : JS.value) (st : State)
    (run : outcome Exn ToolResponse * State) : Prop :=
  exists (earlier : list Call) (c : Call),
    calls (snd run) = (earlier ++ [c])%list /\
    (currentProjectId (snd run) = currentProjectId st \/
     (name = "set_project_context" /\
      exists (pid : Q) (project : JS.value),
        SetProjectContextSchema args = Zod.Valid pid /\
        Runtime.Client.getProject api (JS.Finite pid) = Return project /\
        c = GetProject (JS.Finite pid) /\
        currentProjectId (snd run) = Some (JS.Finite pid))) /\
    forall exn : Exn,
      fst run = Throw exn ->
      exists msg : string,
        exn = failure_report name (mkError msg) /\
        ((exists e : Error, raised api c = Some e /\ msg = message e) \/
         (raised api c = None /\ exists f : Runtime.TypeError, msg = engine f)).

(** *** Concrete inputs for the examples at run time *)

(** The texts of the TypeErrors of the handlers, what a member that
    [validTransitions] inherits prints as, and a host that prints a date as
    the string it was given. *)
Definition sample_type_error (f : Runtime.TypeError) : string :=
  match f with
  | Runtime.OfValue f => sample_engine f
  | Runtime.NoIncludes _ =>
      "validTransitions[currentStatus]?.includes is not a function"
  end.

Definition sample_inherited (key : string) : string :=
  "function " ++ key ++ "() { [native code] }".

Definition sample_locale_date (v : JS.value) : string :=
  match v with
  | JS.VString s => s
  | _ => "Invalid Date"
  end.

(** A backend that answers every GET with the given body, and every POST
    with 200 and [{ success: true }]. *)
Definition answering_get (body : JS.value) (c : Gateway.HttpCall)
  : Gateway.AxiosResult :=
  match c with
  | Gateway.HttpGet _ => Gateway.Resolved (Gateway.mkResponse 200 "OK" body)
  | Gateway.HttpPost _ _ =>
      Gateway.Resolved
        (Gateway.mkResponse 200 "OK" (JS.VObject [("success", JS.VBool true)]))
  end.

(** The gateway over such a backend. *)
Definition gateway_answering (body : JS.value) : Runtime.Client.t :=
  Runtime.over_http decimal sample_type_error (answering_get body).


(** [{ name: { toString: 1 } }]: a project whose name cannot be printed. *)
Definition unprintable_project : JS.value :=
  JS.VObject [("name", JS.VObject [("toString", JS.VNumber 1)])].

(** The fields of [update_args status]. *)
Definition update_fields (status : JS.value) : list (string * JS.value) :=
  [("story_id", JS.VNumber 7); ("status", status)].


(** A backend whose project has no stories. *)
Definition empty_backend : SoftYPMClient.t :=
  SoftYPMClient.mk
    (fun _ => Return sample_project)
    (fun _ => Return [])
    (fun _ => Throw (mkError "Resource not found."))
    (fun _ => Throw (mkError "Resource not found."))
    (fun _ _ => Return tt).

(* ================================================================== *)
(** ** Properties *)

(** *** The built-ins on concrete values *)

Example parseInt_digit : JS.parseInt "3" = JS.Finite 3.
Proof. reflexivity. Qed.

Example parseInt_space_sign_tail : JS.parseInt "  -42px" = JS.Finite (inject_Z (-42)).
Proof. reflexivity. Qed.

Example parseInt_hexadecimal : JS.parseInt "0x1f" = JS.Finite (inject_Z 31).
Proof. reflexivity. Qed.

Example parseInt_no_digit : JS.parseInt "abc" = JS.NaN.
Proof. reflexivity. Qed.

Example initial_context_from_environment :
  currentProjectId (initial (Some "42")) = Some (JS.Finite 42) /\
  currentProjectId (initial (Some "")) = None /\
  currentProjectId (initial None) = None /\
  currentProjectId (initial (Some "none")) = Some JS.NaN.
Proof. repeat split. Qed.

(** *** Arithmetic of status numbers *)

Lemma Qeq_bool_false_iff (x y : Q) : Qeq_bool x y = false <-> ~ x == y.
Proof.
  split.
  - apply Qeq_bool_neq.
  - intros H. destruct (Qeq_bool x y) eqn:E; [|reflexivity].
    apply Qeq_bool_iff in E. contradiction.
Qed.

Lemma Q_clash (q a b : Q) : q == a -> q == b -> Qeq_bool a b = false -> False.
Proof.
  intros Ha Hb Hab. apply Qeq_bool_false_iff in Hab. apply Hab.
  rewrite <- Ha. exact Hb.
Qed.

(** Turns boolean comparisons in the context into equations of [Q]. *)
Ltac q_facts :=
  repeat match goal with
  | H : Qeq_bool _ _ = true |- _ => apply Qeq_bool_iff in H
  | H : Qeq_bool _ _ = false |- _ => apply Qeq_bool_false_iff in H
  end.

(** One number cannot equal two distinct constants. *)
Ltac q_clash :=
  match goal with
  | H1 : ?q == ?a, H2 : ?q == ?b |- _ => exact (Q_clash q a b H1 H2 eq_refl)
  end.

(** Orients every comparison with [r] as [r == _]. *)
Ltac q_orient r :=
  repeat match goal with
  | K0 : ?a == r |- _ => apply Qeq_sym in K0
  | K0 : ~ ?a == r |- _ =>
      let K := fresh in
      assert (K : ~ r == a) by (intro; apply K0; symmetry; assumption); clear K0
  end.

(** The guard of [updateStoryStatus] accepts exactly the listed pairs. *)
Lemma transition_allowed_listed (s t : JS.number) :
  transition_allowed s t = true <-> listed_transition s t.
Proof.
  unfold transition_allowed, validTransitions, lookup135, listed_transition.
  destruct s as [q| |b]; [|simpl; split; [discriminate | tauto]..].
  destruct t as [r| |b].
  - simpl.
    destruct (Qeq_bool q 1) eqn:E1; [|destruct (Qeq_bool q 3) eqn:E3;
      [|destruct (Qeq_bool q 5) eqn:E5]]; simpl;
    repeat match goal with
      | |- context [Qeq_bool ?a r] => destruct (Qeq_bool a r) eqn:?; simpl
    end; q_facts; q_orient r; split; intros Hyp; try reflexivity; try discriminate;
    try tauto;
    exfalso; repeat match goal with
      | K : _ \/ _ |- _ => destruct K
      | K : _ /\ _ |- _ => destruct K
      end; try contradiction; try q_clash.
  - simpl.
    destruct (Qeq_bool q 1); [|destruct (Qeq_bool q 3); [|destruct (Qeq_bool q 5)]];
      simpl; (split; [discriminate | tauto]).
  - simpl.
    destruct (Qeq_bool q 1); [|destruct (Qeq_bool q 3); [|destruct (Qeq_bool q 5)]];
      simpl; (split; [discriminate | tauto]).
Qed.

Lemma transition_refused_unlisted (s t : JS.number) :
  transition_allowed s t = false <-> ~ listed_transition s t.
Proof.
  rewrite <- transition_allowed_listed.
  destruct (transition_allowed s t); split; congruence.
Qed.

(** The table has a row for a status exactly when it is 1, 3 or 5. *)
Lemma workflow_status_lookup (s : JS.number) :
  workflow_status s <-> validTransitions s <> None.
Proof.
  unfold workflow_status, validTransitions, lookup135.
  destruct s as [q| |neg]; simpl; [|tauto..].
  destruct (Qeq_bool q 1) eqn:E1; [|destruct (Qeq_bool q 3) eqn:E3;
    [|destruct (Qeq_bool q 5) eqn:E5]]; q_facts;
    (split; [intros _; discriminate | tauto]) || (split; [tauto | congruence]).
Qed.

Lemma lookup135_1 {T : Type} (a b c : T) (s : JS.number) :
  num_is s 1 -> lookup135 a b c s = Some a.
Proof.
  destruct s as [q| |neg]; simpl; [|tauto..]. intros H.
  apply Qeq_bool_iff in H. now rewrite H.
Qed.

Lemma lookup135_3 {T : Type} (a b c : T) (s : JS.number) :
  num_is s 3 -> lookup135 a b c s = Some b.
Proof.
  destruct s as [q| |neg]; simpl; [|tauto..]. intros H.
  destruct (Qeq_bool q 1) eqn:E; [q_facts; exfalso; q_clash|].
  apply Qeq_bool_iff in H. now rewrite H.
Qed.

Lemma lookup135_5 {T : Type} (a b c : T) (s : JS.number) :
  num_is s 5 -> lookup135 a b c s = Some c.
Proof.
  destruct s as [q| |neg]; simpl; [|tauto..]. intros H.
  destruct (Qeq_bool q 1) eqn:E1; [q_facts; exfalso; q_clash|].
  destruct (Qeq_bool q 3) eqn:E3; [q_facts; exfalso; q_clash|].
  apply Qeq_bool_iff in H. now rewrite H.
Qed.

(** *** Strings *)

Lemma ends_withb_sound (s suffix : string) :
  ends_withb s suffix = true -> ends_with s suffix.
Proof.
  induction s as [|c s IH]; cbn [ends_withb]; intros H.
  - rewrite orb_false_r in H. apply String.eqb_eq in H. subst.
    exists EmptyString. reflexivity.
  - apply orb_true_iff in H. destruct H as [H|H].
    + apply String.eqb_eq in H. rewrite H. exists EmptyString. reflexivity.
    + destruct (IH H) as [pre Hpre]. exists (String c pre). simpl. now rewrite Hpre.
Qed.

Lemma append_assoc (a b c : string) : (a ++ b) ++ c = a ++ (b ++ c).
Proof. induction a as [|x a IH]; simpl; [reflexivity | now rewrite IH]. Qed.

Lemma ends_with_append (a s suffix : string) :
  ends_with s suffix -> ends_with (a ++ s) suffix.
Proof.
  intros [pre H]. exists (a ++ pre). rewrite H. symmetry. apply append_assoc.
Qed.

(** *** The journal of gateway calls *)

Section Journal.

Variable show : Q -> string.
Variable api : SoftYPMClient.t.

(** A handler reads nothing of the journal and only appends to it, so its
    run from any state is its run from the empty journal, replayed after
    the calls already made.  The properties below are stated from the empty
    journal. *)
Lemma setProjectContext_journal (args : JS.value) (st : State) :
  setProjectContext show api args st
    = rebase (calls st)
        (setProjectContext show api args (session (currentProjectId st))).
Proof.
  destruct st as [c l]. unfold rebase, session.
  unfold setProjectContext, bind, try_catch, parse, await, set_currentProjectId,
    ret, throw. cbn.
  destruct (SetProjectContextSchema args); cbn; [|now rewrite app_nil_r].
  destruct (getProject api _); reflexivity.
Qed.

Lemma getProjectInfo_journal (args : JS.value) (st : State) :
  getProjectInfo show api args st
    = rebase (calls st)
        (getProjectInfo show api args (session (currentProjectId st))).
Proof.
  destruct st as [c l]. unfold rebase, session.
  unfold getProjectInfo, bind, try_catch, parse, await, get_state, ret, throw. cbn.
  destruct (GetProjectSchema args); cbn; [|now rewrite app_nil_r].
  destruct (truthy_id _); cbn; [|now rewrite app_nil_r].
  destruct (getProject api _); cbn; [|reflexivity].
  destruct (getProjectStories api _); cbn; now rewrite <- app_assoc.
Qed.

Lemma createStory_journal (args : JS.value) (st : State) :
  createStory show api args st
    = rebase (calls st) (createStory show api args (session (currentProjectId st))).
Proof.
  destruct st as [c l]. unfold rebase, session.
  unfold createStory, bind, try_catch, parse, await, get_state, ret, throw. cbn.
  destruct (CreateStorySchema args); cbn; [|now rewrite app_nil_r].
  destruct (truthy_id _); cbn; [|now rewrite app_nil_r].
  destruct (too_large _); cbn; [now rewrite app_nil_r|].
  destruct (SoftYPMClient.createStory api _); reflexivity.
Qed.

Lemma updateStoryStatus_journal (args : JS.value) (st : State) :
  updateStoryStatus show api args st
    = rebase (calls st)
        (updateStoryStatus show api args (session (currentProjectId st))).
Proof.
  destruct st as [c l]. unfold rebase, session.
  unfold updateStoryStatus, bind, try_catch, parse, await, ret, throw. cbn.
  destruct (UpdateStoryStatusSchema args); cbn; [|now rewrite app_nil_r].
  destruct (getStory api _); cbn; [|reflexivity].
  destruct (negb _); cbn; [reflexivity|].
  destruct (SoftYPMClient.updateStoryStatus api _ _); cbn; now rewrite <- app_assoc.
Qed.

Lemma listStories_journal (args : JS.value) (st : State) :
  listStories show api args st
    = rebase (calls st) (listStories show api args (session (currentProjectId st))).
Proof.
  destruct st as [c l]. unfold rebase, session.
  unfold listStories, bind, try_catch, parse, await, get_state, ret, throw. cbn.
  destruct (ListStoriesSchema args); cbn; [|now rewrite app_nil_r].
  destruct (truthy_id _); cbn; [|now rewrite app_nil_r].
  destruct (getProjectStories api _); cbn; [|reflexivity].
  destruct (Nat.eqb _ 0); reflexivity.
Qed.

End Journal.

(** *** The status workflow guard *)

Section Workflow.

Variable show : Q -> string.
Variable api : SoftYPMClient.t.

(** What [updateStoryStatus] does once the arguments are valid and the
    story has been fetched. *)
Lemma updateStoryStatus_fetched (args : JS.value) (a : UpdateStoryStatusArgs)
    (story : Story.t) (st : State) :
  UpdateStoryStatusSchema args = Zod.Valid a ->
  getStory api (us_story_id a) = Return story ->
  let id := us_story_id a in
  let s := status_number (Story.status story) in
  let t := target_number (us_status a) in
  updateStoryStatus show api args st =
    if transition_allowed s t
    then (match SoftYPMClient.updateStoryStatus api id t with
          | Return _ =>
              Return (text_response
                        (story_updated_text show id story s t (us_notes a)))
          | Throw e =>
              Throw (McpError InternalError
                       ("Failed to update story status: " ++ message e))
          end,
          mkState (currentProjectId st)
                  (calls st ++ [GetStory id; UpdateStoryStatus id t])%list)
    else (Return (text_response (invalid_transition_text s t)),
          mkState (currentProjectId st) (calls st ++ [GetStory id])%list).
Proof.
  intros Hargs Hstory. cbv zeta.
  unfold updateStoryStatus, bind, try_catch, parse, await, ret, throw.
  rewrite Hargs. cbn [calls currentProjectId]. rewrite Hstory.
  destruct (transition_allowed _ _); cbn.
  - destruct (SoftYPMClient.updateStoryStatus api _ _);
      cbn; rewrite <- app_assoc; reflexivity.
  - reflexivity.
Qed.

End Workflow.

(** *** The session context *)

Section Context.

Variable show : Q -> string.
Variable api : SoftYPMClient.t.

(** [setProjectContext] on valid arguments, by the answer of the fetch. *)
Lemma setProjectContext_valid (args : JS.value) (pid : Q) (st : State) :
  SetProjectContextSchema args = Zod.Valid pid ->
  setProjectContext show api args st =
    match getProject api (JS.Finite pid) with
    | Return project =>
        (Return (text_response (context_set_text show project pid)),
         mkState (Some (JS.Finite pid)) (calls st ++ [GetProject (JS.Finite pid)])%list)
    | Throw e =>
        (Throw (McpError InvalidRequest
                  ("Failed to set project context: " ++ message e)),
         mkState (currentProjectId st) (calls st ++ [GetProject (JS.Finite pid)])%list)
    end.
Proof.
  intros Hargs.
  unfold setProjectContext, bind, try_catch, parse, await, set_currentProjectId,
    ret, throw.
  rewrite Hargs. destruct (getProject api (JS.Finite pid)); reflexivity.
Qed.

(** [setProjectContext] on arguments that fail validation. *)
Lemma setProjectContext_invalid (args : JS.value) (issues : list Zod.ZodIssue)
    (st : State) :
  SetProjectContextSchema args = Zod.Invalid issues ->
  setProjectContext show api args st = (Throw (ZodError issues), st).
Proof.
  intros Hargs. unfold setProjectContext, bind, parse, throw.
  rewrite Hargs. reflexivity.
Qed.

(** C5.  [set_project_context] writes the session context only after the
    validating fetch of the project has succeeded.  When the fetch fails the
    handler raises and the context keeps its previous value, whatever it was
    (unset included); when the fetch succeeds the context becomes the given
    project id; and the context never changes in any other way. *)
Theorem set_context_only_after_fetch (args : JS.value) (st : State) :
  let run := setProjectContext show api args st in
  (forall (pid : Q) (e : Error),
      SetProjectContextSchema args = Zod.Valid pid ->
      getProject api (JS.Finite pid) = Throw e ->
      fst run = Throw (McpError InvalidRequest
                         ("Failed to set project context: " ++ message e)) /\
      currentProjectId (snd run) = currentProjectId st) /\
  (forall (pid : Q) (project : Project.t),
      SetProjectContextSchema args = Zod.Valid pid ->
      getProject api (JS.Finite pid) = Return project ->
      fst run = Return (text_response (context_set_text show project pid)) /\
      currentProjectId (snd run) = Some (JS.Finite pid)) /\
  (currentProjectId (snd run) <> currentProjectId st ->
   exists (pid : Q) (project : Project.t),
     SetProjectContextSchema args = Zod.Valid pid /\
     getProject api (JS.Finite pid) = Return project /\
     currentProjectId (snd run) = Some (JS.Finite pid)).
Proof.
  intros run. subst run. split; [|split].
  - intros pid e Hargs Hfetch.
    rewrite (setProjectContext_valid args pid st Hargs), Hfetch.
    split; reflexivity.
  - intros pid project Hargs Hfetch.
    rewrite (setProjectContext_valid args pid st Hargs), Hfetch.
    split; reflexivity.
  - intros Hchanged.
    destruct (SetProjectContextSchema args) as [pid|issues] eqn:Hargs.
    + rewrite (setProjectContext_valid args pid st Hargs) in Hchanged |- *.
      destruct (getProject api (JS.Finite pid)) as [project|e] eqn:Hfetch.
      * exists pid, project. repeat split; try reflexivity. exact Hfetch.
      * exfalso. apply Hchanged. reflexivity.
    + rewrite (setProjectContext_invalid args issues st Hargs) in Hchanged.
      exfalso. apply Hchanged. reflexivity.
Qed.

End Context.

(** With project 42 as the context, setting the context to a project the
    backend rejects raises and leaves 42 in place. *)
Lemma set_context_only_after_fetch_witness :
  SetProjectContextSchema (JS.VObject [("project_id", JS.VNumber 9)]) = Zod.Valid 9 /\
  getProject failing_backend (JS.Finite 9) = Throw (mkError "Resource not found.") /\
  fst (setProjectContext decimal failing_backend
         (JS.VObject [("project_id", JS.VNumber 9)]) (session (Some (JS.Finite 42))))
    = Throw (McpError InvalidRequest
               "Failed to set project context: Resource not found.") /\
  currentProjectId
    (snd (setProjectContext decimal failing_backend
            (JS.VObject [("project_id", JS.VNumber 9)]) (session (Some (JS.Finite 42)))))
    = Some (JS.Finite 42).
Proof.
  split; [reflexivity|].
  split; [reflexivity|].
  exact (proj1 (set_context_only_after_fetch decimal failing_backend
                  (JS.VObject [("project_id", JS.VNumber 9)])
                  (session (Some (JS.Finite 42))))
           9 (mkError "Resource not found.") eq_refl eq_refl).
Defined.

(** *** The health probe *)

(** C8.  [healthCheck] takes no argument and always returns a boolean: one
    GET of the health endpoint is sent, and whatever comes back the call
    returns and does not throw.  A rejected request gives [false], and so
    does a body whose [success] cannot be read; [true] is returned exactly
    when the request is answered with a body whose [success] is [true]. *)
Theorem health_check_never_raises
    (answer : string -> outcome Error AxiosResponse) (sent : list Request) :
  exists ok : bool,
    healthCheck answer sent
      = (Return ok, (sent ++ [GET "/claude-code/health"])%list) /\
    (forall e : Error, answer "/claude-code/health" = Throw e -> ok = false) /\
    (forall r : AxiosResponse,
        answer "/claude-code/health" = Return r ->
        property (data r) "success" = Throw TypeError -> ok = false) /\
    (ok = true <->
     exists (r : AxiosResponse) (fields : list (string * JS.value)),
       answer "/claude-code/health" = Return r /\
       data r = JS.VObject fields /\
       JS.get "success" fields = JS.VBool true).
Proof.
  unfold healthCheck, try_catch, bind, get, lift, ret.
  destruct (answer "/claude-code/health") as [r|e] eqn:Hanswer.
  - destruct (property (data r) "success") as [v|t] eqn:Hprop.
    + exists (is_true v). split; [reflexivity|].
      split; [discriminate|]. split; [intros r' Hr' Hthrow|].
      * inversion Hr'; subst r'. congruence.
      * unfold property in Hprop. split.
        -- intros Hv. destruct (data r) eqn:Hdata; inversion Hprop; subst v;
             try discriminate Hv.
           exists r, fields. repeat split; try reflexivity; try assumption.
           destruct (JS.get "success" fields) as [| |[|]| | | |];
             try discriminate Hv; reflexivity.
        -- intros (r' & fields & Hr' & Hdata & Hsuccess).
           inversion Hr'; subst r'. rewrite Hdata in Hprop.
           inversion Hprop; subst v. rewrite Hsuccess. reflexivity.
    + exists false. split; [reflexivity|].
      split; [discriminate|]. split; [reflexivity|].
      split; [discriminate|].
      intros (r' & fields & Hr' & Hdata & _).
      inversion Hr'; subst r'. unfold property in Hprop. rewrite Hdata in Hprop.
      discriminate.
  - exists false. split; [reflexivity|].
    split; [reflexivity|]. split; [discriminate|].
    split; [discriminate|].
    intros (r & fields & Hr & _). discriminate.
Qed.

(** An unreachable backend is reported unhealthy, and a healthy one healthy. *)
Lemma health_check_never_raises_witness :
  healthCheck unreachable [] = (Return false, [GET "/claude-code/health"]) /\
  healthCheck healthy [] = (Return true, [GET "/claude-code/health"]).
Proof.
  destruct (health_check_never_raises unreachable []) as (b & Hrun & Hfail & _).
  split; [|reflexivity].
  rewrite Hrun. rewrite (Hfail _ eq_refl). reflexivity.
Defined.

(** *** Story creation *)

Lemma starts_withb_sound (s pre : string) :
  starts_withb s pre = true -> exists post : string, s = pre ++ post.
Proof.
  revert s. induction pre as [|a pre IH]; intros s H.
  - exists s. reflexivity.
  - destruct s as [|b s]; [discriminate|]. simpl in H.
    apply andb_true_iff in H. destruct H as [Hab Hrest].
    apply Ascii.eqb_eq in Hab. subst b.
    destruct (IH s Hrest) as [post Hpost]. exists post. simpl. now rewrite Hpost.
Qed.

Lemma containsb_sound (s sub : string) :
  containsb s sub = true -> contains s sub.
Proof.
  induction s as [|c s IH]; cbn [containsb]; intros H.
  - rewrite orb_false_r in H. destruct (starts_withb_sound _ _ H) as [post Hpost].
    exists EmptyString, post. exact Hpost.
  - apply orb_true_iff in H. destruct H as [H|H].
    + destruct (starts_withb_sound _ _ H) as [post Hpost].
      exists EmptyString, post. exact Hpost.
    + destruct (IH H) as (pre & post & Hs).
      exists (String c pre), post. simpl. now rewrite Hs.
Qed.

Lemma contains_append (a s sub : string) :
  contains s sub -> contains (a ++ s) sub.
Proof.
  intros (pre & post & H). exists (a ++ pre), post. rewrite H.
  symmetry. apply append_assoc.
Qed.

Section Creation.

Variable show : Q -> string.
Variable api : SoftYPMClient.t.

(** [createStory] on valid arguments, step by step. *)
Lemma createStory_valid (args : JS.value) (a : CreateStoryArgs) (st : State) :
  CreateStorySchema args = Zod.Valid a ->
  createStory show api args st =
    match truthy_id (or_current (cs_project_id a) (currentProjectId st)) with
    | None => (Throw no_project_context, st)
    | Some pid =>
        match too_large (cs_estimate a) with
        | Some e => (Return (text_response (story_too_large_text show (cs_name a) e)), st)
        | None =>
            (match SoftYPMClient.createStory api (creation_request a pid) with
             | Return story =>
                 Return (text_response
                           (story_created_text show story (cs_description a)
                              (cs_estimate a)))
             | Throw e =>
                 Throw (McpError InternalError
                          ("Failed to create story: " ++ message e))
             end,
             mkState (currentProjectId st)
                     (calls st ++ [CreateStory (creation_request a pid)])%list)
        end
    end.
Proof.
  intros Hargs.
  unfold createStory, bind, try_catch, parse, await, get_state, ret, throw.
  rewrite Hargs.
  destruct (truthy_id _) as [pid|]; [|reflexivity].
  destruct (too_large _) as [e|]; [reflexivity|].
  unfold creation_request.
  destruct (SoftYPMClient.createStory api _); reflexivity.
Qed.

(** [createStory] on arguments that fail validation. *)
Lemma createStory_invalid (args : JS.value) (issues : list Zod.ZodIssue)
    (st : State) :
  CreateStorySchema args = Zod.Invalid issues ->
  createStory show api args st = (Throw (ZodError issues), st).
Proof.
  intros Hargs. unfold createStory, bind, parse, throw.
  rewrite Hargs. reflexivity.
Qed.


Lemma too_large_up_to_6 (e : Q) : e <= 6 -> too_large (Some e) = None.
Proof.
  intros H. unfold too_large, JS.gt.
  apply Qle_bool_iff in H. rewrite H. simpl. now rewrite andb_false_r.
Qed.

(** C4.  Every creation request that [create_story] sends to the backend
    carries status 1 (Backlog).  The request is sent, with that status, for
    all valid arguments whose project id resolves and whose estimate is
    absent or at most 6; a [status] property in the arguments changes
    nothing. *)
Theorem created_story_starts_in_backlog
    (args : JS.value) (ctx : option JS.number) :
  let run := createStory show api args (session ctx) in
  (forall data : CreateStoryData.t,
      In (CreateStory data) (calls (snd run)) ->
      CreateStoryData.status data = Some 1) /\
  (forall (a : CreateStoryArgs) (pid : JS.number),
      CreateStorySchema args = Zod.Valid a ->
      truthy_id (or_current (cs_project_id a) ctx) = Some pid ->
      cs_estimate a = None \/ (exists e : Q, cs_estimate a = Some e /\ e <= 6) ->
      calls (snd run) = [CreateStory (creation_request a pid)] /\
      CreateStoryData.status (creation_request a pid) = Some 1) /\
  (forall (fields : list (string * JS.value)) (v : JS.value),
      args = JS.VObject (("status", v) :: fields) ->
      run = createStory show api (JS.VObject fields) (session ctx)).
Proof.
  intros run. subst run. split; [|split].
  - intros data Hin.
    destruct (CreateStorySchema args) as [a|issues] eqn:Hargs.
    + rewrite (createStory_valid args a (session ctx) Hargs) in Hin.
      destruct (truthy_id _) as [pid|]; [|destruct Hin].
      destruct (too_large _); [destruct Hin|].
      cbn in Hin. destruct Hin as [Hin|[]]. inversion Hin. reflexivity.
    + rewrite (createStory_invalid args issues (session ctx) Hargs) in Hin.
      destruct Hin.
  - intros a pid Hargs Hpid Hest.
    rewrite (createStory_valid args a (session ctx) Hargs).
    cbn [session currentProjectId calls]. rewrite Hpid.
    assert (Hsmall : too_large (cs_estimate a) = None).
    { destruct Hest as [Hnone|(e & He & Hle)].
      - rewrite Hnone. reflexivity.
      - rewrite He. now apply too_large_up_to_6. }
    rewrite Hsmall. split; reflexivity.
  - intros fields v Hshape. subst args. reflexivity.
Qed.

End Creation.

(** The project id is resolved before the estimate is looked at: an 8-hour
    story asked for with no project id and no context raises the
    no-project-context error, still with no call.  A 6-hour story on a
    backend that rejects the write: the request is sent and the handler
    raises. *)
Lemma oversized_estimate_without_project :
  CreateStorySchema (create_args [("estimate", JS.VNumber 8)])
    = Zod.Valid (mkCreateStoryArgs "Parse the header" None (Some 8) None None) /\
  createStory decimal (sample_backend (StatusNumber 1))
      (create_args [("estimate", JS.VNumber 8)]) (session None)
    = (Throw no_project_context, session None) /\
  createStory decimal failing_backend
      (create_args [("estimate", JS.VNumber 6)]) (session (Some (JS.Finite 42)))
    = (Throw (McpError InternalError "Failed to create story: Resource not found."),
       mkState (Some (JS.Finite 42))
         [CreateStory (CreateStoryData.mk "Parse the header" None (Some 6) None
                         (JS.Finite 42) (Some 1))]).
Proof. repeat split. Qed.

(** A story created with no estimate and a stray [status: 5] argument. *)
Lemma created_story_starts_in_backlog_witness :
  In (CreateStory (CreateStoryData.mk "Parse the header" None None None
                     (JS.Finite 42) (Some 1)))
     (calls (snd (createStory decimal (sample_backend (StatusNumber 1))
                    (create_args [("status", JS.VNumber 5)])
                    (session (Some (JS.Finite 42)))))) /\
  CreateStoryData.status
    (CreateStoryData.mk "Parse the header" None None None (JS.Finite 42) (Some 1))
    = Some 1.
Proof.
  assert (Hin : In (CreateStory (CreateStoryData.mk "Parse the header" None None None
                                   (JS.Finite 42) (Some 1)))
                   (calls (snd (createStory decimal (sample_backend (StatusNumber 1))
                                  (create_args [("status", JS.VNumber 5)])
                                  (session (Some (JS.Finite 42))))))).
  { left. reflexivity. }
  split; [exact Hin|].
  exact (proj1 (created_story_starts_in_backlog decimal
                  (sample_backend (StatusNumber 1))
                  (create_args [("status", JS.VNumber 5)])
                  (Some (JS.Finite 42))) _ Hin).
Defined.

(** *** Project-id resolution *)

Section Resolution.

Variable show : Q -> string.
Variable api : SoftYPMClient.t.

(** [getProjectInfo] on valid arguments, step by step. *)
Lemma getProjectInfo_valid (args : JS.value) (p : option Q) (st : State) :
  GetProjectSchema args = Zod.Valid p ->
  getProjectInfo show api args st =
    match truthy_id (or_current p (currentProjectId st)) with
    | None => (Throw no_project_context, st)
    | Some pid =>
        match getProject api pid with
        | Throw e =>
            (Throw (McpError InternalError
                      ("Failed to get project info: " ++ message e)),
             mkState (currentProjectId st) (calls st ++ [GetProject pid])%list)
        | Return project =>
            (match getProjectStories api pid with
             | Throw e =>
                 Throw (McpError InternalError
                          ("Failed to get project info: " ++ message e))
             | Return stories =>
                 Return (text_response (project_info_text show project pid stories))
             end,
             mkState (currentProjectId st)
                     (calls st ++ [GetProject pid; GetProjectStories pid])%list)
        end
    end.
Proof.
  intros Hargs.
  unfold getProjectInfo, bind, try_catch, parse, await, get_state, ret, throw.
  rewrite Hargs.
  destruct (truthy_id _) as [pid|]; [|reflexivity].
  destruct (getProject api pid); [|reflexivity].
  cbn [calls currentProjectId]. rewrite <- app_assoc.
  destruct (getProjectStories api pid); reflexivity.
Qed.

(** [listStories] on valid arguments, step by step. *)
Lemma listStories_valid (args : JS.value) (a : ListStoriesArgs) (st : State) :
  ListStoriesSchema args = Zod.Valid a ->
  listStories show api args st =
    match truthy_id (or_current (ls_project_id a) (currentProjectId st)) with
    | None => (Throw no_project_context, st)
    | Some pid =>
        (match getProjectStories api pid with
         | Throw e =>
             Throw (McpError InternalError ("Failed to list stories: " ++ message e))
         | Return stories =>
             let filtered := filteredStories (ls_status a) stories in
             match filtered with
             | [] => Return (text_response (no_stories_text (ls_status a)))
             | _ :: _ => Return (text_response (stories_text show (ls_status a) filtered))
             end
         end,
         mkState (currentProjectId st) (calls st ++ [GetProjectStories pid])%list)
    end.
Proof.
  intros Hargs.
  unfold listStories, bind, try_catch, parse, await, get_state, ret, throw.
  rewrite Hargs.
  destruct (truthy_id _) as [pid|]; [|reflexivity].
  destruct (getProjectStories api pid) as [stories|e]; [|reflexivity].
  destruct (filteredStories (ls_status a) stories); reflexivity.
Qed.

(** [listStories] on arguments that fail validation. *)
Lemma listStories_invalid (args : JS.value) (issues : list Zod.ZodIssue)
    (st : State) :
  ListStoriesSchema args = Zod.Invalid issues ->
  listStories show api args st = (Throw (ZodError issues), st).
Proof.
  intros Hargs. unfold listStories, bind, parse, throw.
  rewrite Hargs. reflexivity.
Qed.

(** When the resolution expression of the handlers yields no id, the three
    operations raise the no-project-context error and call nothing. *)
Lemma handler_unresolved (op : ProjectOp) (args : JS.value) (explicit : option Q)
    (st : State) :
  explicit_project_id op args = Some explicit ->
  truthy_id (or_current explicit (currentProjectId st)) = None ->
  handler show api op args st = (Throw no_project_context, st).
Proof.
  intros Hexp Hnone. destruct op; cbn [handler explicit_project_id] in *.
  - destruct (GetProjectSchema args) as [p|] eqn:Hargs; [|discriminate].
    inversion Hexp; subst p.
    now rewrite (getProjectInfo_valid args explicit st Hargs), Hnone.
  - destruct (CreateStorySchema args) as [a|] eqn:Hargs; [|discriminate].
    inversion Hexp; subst explicit.
    now rewrite (createStory_valid show api args a st Hargs), Hnone.
  - destruct (ListStoriesSchema args) as [a|] eqn:Hargs; [|discriminate].
    inversion Hexp; subst explicit.
    now rewrite (listStories_valid args a st Hargs), Hnone.
Qed.

(** When it yields [pid], they work on [pid]. *)
Lemma handler_resolved (op : ProjectOp) (args : JS.value) (explicit : option Q)
    (ctx : option JS.number) (pid : JS.number) :
  explicit_project_id op args = Some explicit ->
  truthy_id (or_current explicit ctx) = Some pid ->
  uses_project (handler show api op args (session ctx)) pid.
Proof.
  intros Hexp Hpid. unfold uses_project, no_project_context.
  destruct op; cbn [handler explicit_project_id] in *.
  - destruct (GetProjectSchema args) as [p|] eqn:Hargs; [|discriminate].
    inversion Hexp; subst p.
    rewrite (getProjectInfo_valid args explicit (session ctx) Hargs).
    cbn [session currentProjectId calls]. rewrite Hpid.
    destruct (getProject api pid); [destruct (getProjectStories api pid)|];
      cbn; (split; [repeat constructor | split; discriminate]).
  - destruct (CreateStorySchema args) as [a|] eqn:Hargs; [|discriminate].
    inversion Hexp; subst explicit.
    rewrite (createStory_valid show api args a (session ctx) Hargs).
    cbn [session currentProjectId calls]. rewrite Hpid.
    destruct (too_large _).
    + cbn. split; [constructor|]. split; [discriminate|]. intros _. eexists. reflexivity.
    + destruct (SoftYPMClient.createStory api _);
        cbn; (split; [repeat constructor | split; discriminate]).
  - destruct (ListStoriesSchema args) as [a|] eqn:Hargs; [|discriminate].
    inversion Hexp; subst explicit.
    rewrite (listStories_valid args a (session ctx) Hargs).
    cbn [session currentProjectId calls]. rewrite Hpid.
    destruct (getProjectStories api pid) as [stories|];
      [destruct (filteredStories _ stories)|];
      cbn; (split; [repeat constructor | split; discriminate]).
Qed.


End Resolution.

(** [create_story] with an explicit [project_id: 0] under context 42: the
    arguments are valid and carry the id 0, yet the story is created in
    project 42, so the explicit id is not the one used. *)
Lemma explicit_project_id_zero_not_used :
  explicit_project_id StoryCreation (create_args [("project_id", JS.VNumber 0)])
    = Some (Some 0) /\
  calls (snd (handler decimal (sample_backend (StatusNumber 1)) StoryCreation
                (create_args [("project_id", JS.VNumber 0)])
                (session (Some (JS.Finite 42)))))
    = [CreateStory (CreateStoryData.mk "Parse the header" None None None
                      (JS.Finite 42) (Some 1))] /\
  ~ uses_project
      (handler decimal (sample_backend (StatusNumber 1)) StoryCreation
         (create_args [("project_id", JS.VNumber 0)])
         (session (Some (JS.Finite 42))))
      (JS.Finite 0).
Proof.
  split; [reflexivity|]. split; [reflexivity|].
  intros (Hall & _). cbn in Hall. inversion Hall as [|c cs Hc _]; subst.
  cbn in Hc. discriminate Hc.
Qed.


(** *** Validation of the target status *)

(** A record built from properties is valid only when each property is. *)
Lemma ap_valid {A B : Type} (f : Zod.result (A -> B)) (x : Zod.result A) (b : B) :
  f <*> x = Zod.Valid b ->
  exists (g : A -> B) (a : A), f = Zod.Valid g /\ x = Zod.Valid a /\ b = g a.
Proof.
  destruct f as [g|], x as [a|]; cbn; try discriminate.
  intros H. inversion H. exists g, a. auto.
Qed.

Lemma ap_invalid_r {A B : Type} (f : Zod.result (A -> B)) (issues : list Zod.ZodIssue) :
  exists issues' : list Zod.ZodIssue, f <*> Zod.Invalid issues = Zod.Invalid issues'.
Proof. destruct f; cbn; eexists; reflexivity. Qed.

Lemma ap_invalid_l {A B : Type} (x : Zod.result A) (issues : list Zod.ZodIssue) :
  exists issues' : list Zod.ZodIssue,
    Zod.Invalid (A:=A -> B) issues <*> x = Zod.Invalid issues'.
Proof. destruct x; cbn; eexists; reflexivity. Qed.

Lemma field_valid {A : Type} (fields : list (string * JS.value)) (key : string)
    (s : Zod.schema A) (a : A) :
  Zod.field fields key s = Zod.Valid a -> s (JS.get key fields) = Zod.Valid a.
Proof.
  unfold Zod.field. destruct (s (JS.get key fields)); [auto | discriminate].
Qed.

Lemma field_invalid {A : Type} (fields : list (string * JS.value)) (key : string)
    (s : Zod.schema A) (issues : list Zod.ZodIssue) :
  s (JS.get key fields) = Zod.Invalid issues ->
  exists issues' : list Zod.ZodIssue, Zod.field fields key s = Zod.Invalid issues'.
Proof.
  intros H. unfold Zod.field. rewrite H. eexists. reflexivity.
Qed.

Lemma enum_valid (options : list string) (v : JS.value) (s : string) :
  Zod.enum options v = Zod.Valid s -> v = JS.VString s /\ In s options.
Proof.
  unfold Zod.enum. destruct v as [| | | |s'| |]; try discriminate.
  destruct (existsb (String.eqb s') options) eqn:E; [|discriminate].
  intros H. inversion H; subst s'. split; [reflexivity|].
  apply existsb_exists in E. destruct E as (o & Hin & Heq).
  apply String.eqb_eq in Heq. now subst o.
Qed.

(** It accepts the three strings and the numbers from 1 to 5, and keeps the
    value as it came. *)
Lemma status_schema_valid (v : JS.value) (r : string + Q) :
  status_schema v = Zod.Valid r ->
  (exists s : string, v = JS.VString s /\ r = inl s /\ (s = "1" \/ s = "3" \/ s = "5")) \/
  (exists q : Q, v = JS.VNumber q /\ r = inr q /\ 1 <= q /\ q <= 5).
Proof.
  unfold status_schema, Zod.or. intros H.
  destruct (Zod.enum _ v) as [s|] eqn:Henum.
  - inversion H; subst r. apply enum_valid in Henum as [Hv Hin]. cbn in Hin.
    left. exists s. split; [exact Hv|]. split; [reflexivity|].
    destruct Hin as [<- | [<- | [<- | []]]]; auto.
  - destruct (Zod.refine2 _ _ _ _ Zod.number v) as [q|] eqn:Hnum;
      [|repeat match type of H with
               | context [if ?c then _ else _] => destruct c
               end; discriminate].
    inversion H; subst r. right. exists q.
    unfold Zod.refine2, Zod.number in Hnum.
    destruct v as [| | |q'| | |]; try discriminate.
    destruct (Zod.at_least 1 q') eqn:Hlo; destruct (Zod.at_most 5 q') eqn:Hhi;
      cbn in Hnum; try discriminate.
    inversion Hnum; subst q'. unfold Zod.at_least, Zod.at_most in *.
    repeat split; try reflexivity; now apply Qle_bool_iff.
Qed.

(** It rejects every other value. *)
Lemma status_schema_invalid (v : JS.value) :
  ~ acceptable_status v ->
  exists issues : list Zod.ZodIssue, status_schema v = Zod.Invalid issues.
Proof.
  intros Hno. destruct (status_schema v) as [r|issues] eqn:H.
  - exfalso. apply Hno.
    destruct (status_schema_valid v r H) as [(s & -> & _ & Hs) | (q & -> & _ & Hq)];
      cbn; assumption.
  - exists issues. reflexivity.
Qed.

(** What fails the validation of [update_story_status] raises before any
    call. *)
Lemma updateStoryStatus_invalid (show : Q -> string) (api : SoftYPMClient.t)
    (args : JS.value) (issues : list Zod.ZodIssue) (st : State) :
  UpdateStoryStatusSchema args = Zod.Invalid issues ->
  updateStoryStatus show api args st = (Throw (ZodError issues), st).
Proof.
  intros Hargs. unfold updateStoryStatus, bind, parse, throw.
  rewrite Hargs. reflexivity.
Qed.

(** A numeric target status 2 passes the validation of
    [update_story_status]: no validation error is raised, the story is
    fetched from the backend, and the handler answers with the
    invalid-transition warning, whose text prints the target as
    [undefined].  The numbers 4 and 5/2 pass as well. *)
Lemma numeric_status_2_passes_validation :
  UpdateStoryStatusSchema (update_args (JS.VNumber 2))
    = Zod.Valid (mkUpdateStoryStatusArgs 7 (inr 2) None) /\
  updateStoryStatus decimal (sample_backend (StatusNumber 1))
      (update_args (JS.VNumber 2)) (session None)
    = (Return (text_response (invalid_transition_text (JS.Finite 1) (JS.Finite 2))),
       mkState None [GetStory 7]) /\
  contains (invalid_transition_text (JS.Finite 1) (JS.Finite 2))
    ("Cannot move story from " ++ dq ++ "Backlog" ++ dq ++ " to " ++ dq
     ++ "undefined" ++ dq) /\
  UpdateStoryStatusSchema (update_args (JS.VNumber 4))
    = Zod.Valid (mkUpdateStoryStatusArgs 7 (inr 4) None) /\
  UpdateStoryStatusSchema (update_args (JS.VNumber (5 # 2)))
    = Zod.Valid (mkUpdateStoryStatusArgs 7 (inr (5 # 2)) None).
Proof.
  repeat split; try reflexivity.
  apply containsb_sound. reflexivity.
Qed.

(** *** Scenarios *)

(** With no context, [get_project_info] with no id fails; after
    [set_project_context] on project 42 it works on project 42. *)
Example scenario_context_then_info :
  let backend := sample_backend (StatusNumber 1) in
  let s0 := initial None in
  let r1 := getProjectInfo decimal backend (JS.VObject []) s0 in
  let r2 := setProjectContext decimal backend
              (JS.VObject [("project_id", JS.VNumber 42)]) (snd r1) in
  let r3 := getProjectInfo decimal backend (JS.VObject []) (snd r2) in
  fst r1 = Throw no_project_context /\
  calls (snd r1) = [] /\
  currentProjectId (snd r2) = Some (JS.Finite 42) /\
  calls (snd r3)
    = [GetProject (JS.Finite 42); GetProject (JS.Finite 42);
       GetProjectStories (JS.Finite 42)] /\
  exists text : string,
    fst r3 = Return (text_response text) /\
    contains text "(Project #42)".
Proof.
  cbv zeta. repeat split.
  eexists. split; [reflexivity|].
  apply containsb_sound. vm_compute. reflexivity.
Qed.

(** A story that is Done is reopened to the backlog. *)
Example scenario_done_to_backlog :
  let run := updateStoryStatus decimal (sample_backend (StatusNumber 5))
               (update_args (JS.VString "1")) (session None) in
  calls (snd run) = [GetStory 7; UpdateStoryStatus 7 (JS.Finite 1)] /\
  exists text : string,
    fst run = Return (text_response text) /\
    contains text "Done → Backlog".
Proof.
  cbv zeta. split; [reflexivity|].
  eexists. split; [reflexivity|].
  apply containsb_sound. vm_compute. reflexivity.
Qed.

(** A story in the backlog cannot jump to Done: nothing is written, and the
    only next step offered is In Progress. *)
Example scenario_backlog_to_done :
  let run := updateStoryStatus decimal (sample_backend (StatusNumber 1))
               (update_args (JS.VNumber 5)) (session None) in
  calls (snd run) = [GetStory 7] /\
  exists text : string,
    fst run = Return (text_response text) /\
    ends_with text "Valid next steps: In Progress".
Proof.
  cbv zeta. split; [reflexivity|].
  eexists. split; [reflexivity|].
  apply ends_withb_sound. vm_compute. reflexivity.
Qed.

(** A context read from [DEFAULT_PROJECT_ID=none] is NaN, which resolves to
    no project. *)
Example scenario_nan_context :
  listStories decimal (sample_backend (StatusNumber 1)) (JS.VObject [])
    (initial (Some "none"))
  = (Throw no_project_context, initial (Some "none")).
Proof. reflexivity. Qed.

(* ================================================================== *)
(** ** Properties of the switch, of the session and of the gateway *)

(** *** The switch over the tools *)

Section Tools.

Variable show : Q -> string.
Variable date : string -> string.
Variable zod_message : list Zod.ZodIssue -> string.
Variable api : SoftYPMClient.t.

(** The switch, tool by tool. *)
Lemma callTool_cases (name : string) (args : JS.value) (st : State) :
  let run := Dispatcher.callTool show date zod_message api name args st in
  (name = "set_project_context" /\
   run = rethrown zod_message (setProjectContext show api args st)) \/
  (name = "get_project_info" /\
   run = rethrown zod_message (getProjectInfo show api args st)) \/
  (name = "create_story" /\
   run = rethrown zod_message (createStory show api args st)) \/
  (name = "update_story_status" /\
   run = rethrown zod_message (updateStoryStatus show api args st)) \/
  (name = "get_story" /\
   run = rethrown zod_message (Dispatcher.getStory show date api args st)) \/
  (name = "list_my_stories" /\
   run = rethrown zod_message (listStories show api args st)) \/
  (~ In name tool_names /\
   run = (Throw (McpError MethodNotFound ("Unknown tool: " ++ name)), st)).
Proof.
  cbv zeta. unfold Dispatcher.callTool, try_catch, rethrown.
  destruct (String.eqb name "set_project_context") eqn:E1.
  { apply String.eqb_eq in E1. left. split; [exact E1|].
    destruct (setProjectContext show api args st) as [[r|[c m|i]] s]; reflexivity. }
  destruct (String.eqb name "get_project_info") eqn:E2.
  { apply String.eqb_eq in E2. right; left. split; [exact E2|].
    destruct (getProjectInfo show api args st) as [[r|[c m|i]] s]; reflexivity. }
  destruct (String.eqb name "create_story") eqn:E3.
  { apply String.eqb_eq in E3. do 2 right; left. split; [exact E3|].
    destruct (createStory show api args st) as [[r|[c m|i]] s]; reflexivity. }
  destruct (String.eqb name "update_story_status") eqn:E4.
  { apply String.eqb_eq in E4. do 3 right; left. split; [exact E4|].
    destruct (updateStoryStatus show api args st) as [[r|[c m|i]] s]; reflexivity. }
  destruct (String.eqb name "get_story") eqn:E5.
  { apply String.eqb_eq in E5. do 4 right; left. split; [exact E5|].
    destruct (Dispatcher.getStory show date api args st) as [[r|[c m|i]] s]; reflexivity. }
  destruct (String.eqb name "list_my_stories") eqn:E6.
  { apply String.eqb_eq in E6. do 5 right; left. split; [exact E6|].
    destruct (listStories show api args st) as [[r|[c m|i]] s]; reflexivity. }
  do 6 right. split; [|reflexivity].
  apply String.eqb_neq in E1, E2, E3, E4, E5, E6.
  cbn. intuition congruence.
Qed.

End Tools.

(** *** The handlers, outcome by outcome *)

Section Outcomes.

Variable show : Q -> string.
Variable date : string -> string.
Variable api : SoftYPMClient.t.

Ltac handler_exception_tac :=
  intros ? H; inversion H; subst; unfold handler_exception, no_project_context;
  eauto 6.

Lemma writes_app (a b : list Call) : writes (a ++ b) = (writes a ++ writes b)%list.
Proof. apply filter_app. Qed.

Lemma getProjectInfo_read_only (args : JS.value) (st : State) :
  read_only st (getProjectInfo show api args st).
Proof.
  unfold read_only, getProjectInfo, bind, try_catch, parse, await, get_state,
    ret, throw.
  destruct (GetProjectSchema args); cbn;
    [|repeat split; handler_exception_tac].
  destruct (truthy_id _); cbn; [|repeat split; handler_exception_tac].
  destruct (getProject api _); cbn;
    [destruct (getProjectStories api _); cbn|];
    rewrite ?writes_app; cbn; rewrite ?app_nil_r;
    repeat split; try handler_exception_tac; try discriminate.
Qed.

Lemma listStories_read_only (args : JS.value) (st : State) :
  read_only st (listStories show api args st).
Proof.
  unfold read_only, listStories, bind, try_catch, parse, await, get_state,
    ret, throw.
  destruct (ListStoriesSchema args); cbn;
    [|repeat split; handler_exception_tac].
  destruct (truthy_id _); cbn; [|repeat split; handler_exception_tac].
  destruct (getProjectStories api _); cbn;
    [destruct (Nat.eqb _ 0); cbn|];
    rewrite ?writes_app; cbn; rewrite ?app_nil_r;
    repeat split; try handler_exception_tac; try discriminate.
Qed.

Lemma getStory_read_only (args : JS.value) (st : State) :
  read_only st (Dispatcher.getStory show date api args st).
Proof.
  unfold read_only, Dispatcher.getStory, bind, try_catch, parse, await, ret, throw.
  destruct (Dispatcher.GetStorySchema args); cbn;
    [|repeat split; handler_exception_tac].
  destruct (getStory api _); cbn;
    rewrite ?writes_app; cbn; rewrite ?app_nil_r;
    repeat split; try handler_exception_tac; try discriminate.
Qed.

End Outcomes.

Section ToolCalls.

Variable show : Q -> string.
Variable date : string -> string.
Variable zod_message : list Zod.ZodIssue -> string.
Variable api : SoftYPMClient.t.

Lemma rethrown_state (run : outcome Exn ToolResponse * State) :
  snd (rethrown zod_message run) = snd run.
Proof. destruct run as [[r|[c m|i]] s]; reflexivity. Qed.

Lemma In_writes (c : Call) (cs : list Call) :
  In c cs -> is_write c = true -> In c (writes cs).
Proof. intros Hin Hw. apply filter_In. auto. Qed.

Lemma listed_transition_target (s t : JS.number) :
  listed_transition s t -> workflow_status s /\ workflow_status t.
Proof.
  unfold listed_transition, workflow_status. intuition.
Qed.

(** The calls [createStory] makes from an empty journal. *)
Lemma createStory_calls (args : JS.value) (ctx : option JS.number) :
  let journal := calls (snd (createStory show api args (session ctx))) in
  journal = [] \/
  exists (a : CreateStoryArgs) (pid : JS.number),
    CreateStorySchema args = Zod.Valid a /\
    journal = [CreateStory (creation_request a pid)].
Proof.
  cbv zeta.
  destruct (CreateStorySchema args) as [a|issues] eqn:Hargs.
  - rewrite (createStory_valid show api args a (session ctx) Hargs).
    destruct (truthy_id _) as [pid|]; [|left; reflexivity].
    destruct (too_large _); [left; reflexivity|].
    right. exists a, pid. split; reflexivity.
  - rewrite (createStory_invalid show api args issues (session ctx) Hargs).
    left. reflexivity.
Qed.

(** The calls [updateStoryStatus] makes from an empty journal. *)
Lemma updateStoryStatus_calls (args : JS.value) (ctx : option JS.number) :
  let journal := calls (snd (updateStoryStatus show api args (session ctx))) in
  journal = [] \/
  (exists a : UpdateStoryStatusArgs,
      UpdateStoryStatusSchema args = Zod.Valid a /\
      journal = [GetStory (us_story_id a)]) \/
  (exists (a : UpdateStoryStatusArgs) (story : Story.t),
      UpdateStoryStatusSchema args = Zod.Valid a /\
      getStory api (us_story_id a) = Return story /\
      listed_transition (status_number (Story.status story))
        (target_number (us_status a)) /\
      journal = [GetStory (us_story_id a);
                 UpdateStoryStatus (us_story_id a) (target_number (us_status a))]).
Proof.
  cbv zeta.
  destruct (UpdateStoryStatusSchema args) as [a|issues] eqn:Hargs.
  - destruct (getStory api (us_story_id a)) as [story|e] eqn:Hstory.
    + rewrite (updateStoryStatus_fetched show api args a story (session ctx)
                 Hargs Hstory).
      destruct (transition_allowed _ _) eqn:Hguard.
      * right; right. exists a, story.
        apply transition_allowed_listed in Hguard. repeat split; assumption.
      * right; left. exists a. split; reflexivity.
    + right; left. exists a. split; [reflexivity|].
      unfold updateStoryStatus, bind, try_catch, parse, await, ret, throw.
      rewrite Hargs. cbn. rewrite Hstory. reflexivity.
  - rewrite (updateStoryStatus_invalid show api args issues (session ctx) Hargs).
    left. reflexivity.
Qed.

Lemma setProjectContext_writes (args : JS.value) (st : State) :
  writes (calls (snd (setProjectContext show api args st))) = writes (calls st).
Proof.
  destruct (SetProjectContextSchema args) as [pid|issues] eqn:Hargs.
  - rewrite (setProjectContext_valid show api args pid st Hargs).
    destruct (getProject api _); cbn; rewrite writes_app; cbn; apply app_nil_r.
  - now rewrite (setProjectContext_invalid show api args issues st Hargs).
Qed.

(** X1.  Whatever tool is called with whatever arguments, the only
    tools that write to the backend are create_story and
    update_story_status; a creation request carries status 1, a status
    write carries a target that is 1, 3 or 5, and one call writes at most
    once. *)
Theorem writes_carry_workflow_statuses
    (name : string) (args : JS.value) (ctx : option JS.number) :
  let journal :=
    calls (snd (Dispatcher.callTool show date zod_message api name args
                  (session ctx))) in
  (forall data : CreateStoryData.t,
      In (CreateStory data) journal ->
      name = "create_story" /\ CreateStoryData.status data = Some 1) /\
  (forall (id : Q) (t : JS.number),
      In (UpdateStoryStatus id t) journal ->
      name = "update_story_status" /\ workflow_status t) /\
  (length (writes journal) <= 1)%nat.
Proof.
  cbv zeta.
  assert (Hro : forall run : outcome Exn ToolResponse * State,
             read_only (session ctx) run ->
             (forall data, In (CreateStory data) (calls (snd run)) -> False) /\
             (forall id t, In (UpdateStoryStatus id t) (calls (snd run)) -> False) /\
             (length (writes (calls (snd run))) <= 1)%nat).
  { intros run (_ & Hw & _). cbn in Hw. repeat split.
    - intros data Hin. apply In_writes in Hin; [|reflexivity].
      rewrite Hw in Hin. exact Hin.
    - intros id t Hin. apply In_writes in Hin; [|reflexivity].
      rewrite Hw in Hin. exact Hin.
    - rewrite Hw. cbn. lia. }
  assert (Hnone : forall run : outcome Exn ToolResponse * State,
             writes (calls (snd run)) = [] ->
             (forall data, In (CreateStory data) (calls (snd run)) -> False) /\
             (forall id t, In (UpdateStoryStatus id t) (calls (snd run)) -> False) /\
             (length (writes (calls (snd run))) <= 1)%nat).
  { intros run Hw. repeat split.
    - intros data Hin. apply In_writes in Hin; [|reflexivity].
      rewrite Hw in Hin. exact Hin.
    - intros id t Hin. apply In_writes in Hin; [|reflexivity].
      rewrite Hw in Hin. exact Hin.
    - rewrite Hw. cbn. lia. }
  destruct (callTool_cases show date zod_message api name args (session ctx))
    as [[-> ->]|[[-> ->]|[[-> ->]|[[-> ->]|[[-> ->]|[[-> ->]|[_ ->]]]]]]];
    rewrite ?rethrown_state.
  - destruct (Hnone _ (setProjectContext_writes args (session ctx))) as (H1 & H2 & H3).
    repeat split; try (intros; exfalso; eauto; fail). exact H3.
  - destruct (Hro _ (getProjectInfo_read_only show api args (session ctx)))
      as (H1 & H2 & H3).
    repeat split; try (intros; exfalso; eauto; fail). exact H3.
  - destruct (createStory_calls args ctx) as [Hj|(a & pid & _ & Hj)];
      cbv zeta in Hj; rewrite Hj.
    + repeat split; try (intros; exfalso; cbn in *; tauto). cbn. lia.
    + repeat split.
      * destruct H as [H|[]]. inversion H. reflexivity.
      * destruct H as [H|[]]. discriminate H.
      * destruct H as [H|[]]. discriminate H.
      * cbn. lia.
  - destruct (updateStoryStatus_calls args ctx)
      as [Hj|[(a & _ & Hj)|(a & story & _ & _ & Hlisted & Hj)]];
      cbv zeta in Hj; rewrite Hj.
    + repeat split; try (intros; exfalso; cbn in *; tauto). cbn. lia.
    + repeat split; try (intros; exfalso; cbn in *; intuition discriminate).
      cbn. lia.
    + repeat split; try (intros; exfalso; cbn in *; intuition discriminate).
      * destruct H as [H|[H|[]]]; [discriminate H|]. inversion H; subst.
        apply (listed_transition_target _ _ Hlisted).
      * cbn. lia.
  - destruct (Hro _ (getStory_read_only show date api args (session ctx)))
      as (H1 & H2 & H3).
    repeat split; try (intros; exfalso; eauto; fail). exact H3.
  - destruct (Hro _ (listStories_read_only show api args (session ctx)))
      as (H1 & H2 & H3).
    repeat split; try (intros; exfalso; eauto; fail). exact H3.
  - cbn. repeat split; try (intros; exfalso; cbn in *; tauto). lia.
Qed.

End ToolCalls.

(** A story in the backlog moved to In Progress: the write carries 3. *)
Lemma writes_carry_workflow_statuses_witness :
  let journal :=
    calls (snd (Dispatcher.callTool decimal sample_date sample_zod_message
                  (sample_backend (StatusNumber 1)) "update_story_status"
                  (update_args (JS.VString "3")) (session None))) in
  In (UpdateStoryStatus 7 (JS.Finite 3)) journal /\
  workflow_status (JS.Finite 3).
Proof.
  cbv zeta. split.
  - vm_compute. right. left. reflexivity.
  - apply (proj1 (proj2 (writes_carry_workflow_statuses decimal sample_date
             sample_zod_message (sample_backend (StatusNumber 1))
             "update_story_status" (update_args (JS.VString "3")) None)) 7).
    vm_compute. right. left. reflexivity.
Defined.

Section ToolErrors.

Variable show : Q -> string.
Variable date : string -> string.
Variable zod_message : list Zod.ZodIssue -> string.
Variable api : SoftYPMClient.t.

Lemma getProjectInfo_invalid (args : JS.value) (issues : list Zod.ZodIssue)
    (st : State) :
  GetProjectSchema args = Zod.Invalid issues ->
  getProjectInfo show api args st = (Throw (ZodError issues), st).
Proof.
  intros Hargs. unfold getProjectInfo, bind, parse, throw.
  rewrite Hargs. reflexivity.
Qed.

Lemma getStory_invalid (args : JS.value) (issues : list Zod.ZodIssue) (st : State) :
  Dispatcher.GetStorySchema args = Zod.Invalid issues ->
  Dispatcher.getStory show date api args st = (Throw (ZodError issues), st).
Proof.
  intros Hargs. unfold Dispatcher.getStory, bind, parse, throw.
  rewrite Hargs. reflexivity.
Qed.

Lemma setProjectContext_exception (args : JS.value) (st : State) (e : Exn) :
  fst (setProjectContext show api args st) = Throw e -> handler_exception e.
Proof.
  destruct (SetProjectContextSchema args) as [pid|issues] eqn:Hargs.
  - rewrite (setProjectContext_valid show api args pid st Hargs).
    destruct (getProject api _); cbn; intros H; inversion H.
    unfold handler_exception. eauto.
  - rewrite (setProjectContext_invalid show api args issues st Hargs).
    cbn. intros H; inversion H. unfold handler_exception. eauto.
Qed.

Lemma createStory_exception (args : JS.value) (st : State) (e : Exn) :
  fst (createStory show api args st) = Throw e -> handler_exception e.
Proof.
  destruct (CreateStorySchema args) as [a|issues] eqn:Hargs.
  - rewrite (createStory_valid show api args a st Hargs).
    destruct (truthy_id _); [destruct (too_large _);
      [|destruct (SoftYPMClient.createStory api _)]|];
      cbn; intros H; inversion H; unfold handler_exception, no_project_context;
      eauto.
  - rewrite (createStory_invalid show api args issues st Hargs).
    cbn. intros H; inversion H. unfold handler_exception. eauto.
Qed.

Lemma updateStoryStatus_exception (args : JS.value) (st : State) (e : Exn) :
  fst (updateStoryStatus show api args st) = Throw e -> handler_exception e.
Proof.
  unfold updateStoryStatus, bind, try_catch, parse, await, ret, throw.
  destruct (UpdateStoryStatusSchema args); cbn;
    [|intros H; inversion H; unfold handler_exception; eauto].
  destruct (getStory api _); cbn;
    [|intros H; inversion H; unfold handler_exception; eauto].
  destruct (negb _); cbn; [discriminate|].
  destruct (SoftYPMClient.updateStoryStatus api _ _); cbn;
    intros H; inversion H; unfold handler_exception; eauto.
Qed.

(** Arguments that fail the schema of a tool, at the switch. *)
Lemma callTool_invalid (name : string) (args : JS.value) (st : State)
    (issues : list Zod.ZodIssue) :
  (name = "set_project_context" /\ SetProjectContextSchema args = Zod.Invalid issues) \/
  (name = "get_project_info" /\ GetProjectSchema args = Zod.Invalid issues) \/
  (name = "create_story" /\ CreateStorySchema args = Zod.Invalid issues) \/
  (name = "update_story_status" /\
   UpdateStoryStatusSchema args = Zod.Invalid issues) \/
  (name = "get_story" /\ Dispatcher.GetStorySchema args = Zod.Invalid issues) \/
  (name = "list_my_stories" /\ ListStoriesSchema args = Zod.Invalid issues) ->
  Dispatcher.callTool show date zod_message api name args st
    = (Throw (McpError InternalError
                ("Tool execution failed: " ++ zod_message issues)), st).
Proof.
  intros H.
  destruct H as [[-> H]|[[-> H]|[[-> H]|[[-> H]|[[-> H]|[-> H]]]]]];
    unfold Dispatcher.callTool, try_catch; cbn [String.eqb Ascii.eqb Bool.eqb].
  - now rewrite (setProjectContext_invalid show api args issues st H).
  - now rewrite (getProjectInfo_invalid args issues st H).
  - now rewrite (createStory_invalid show api args issues st H).
  - now rewrite (updateStoryStatus_invalid show api args issues st H).
  - now rewrite (getStory_invalid args issues st H).
  - now rewrite (listStories_invalid show api args issues st H).
Qed.

(** X2.  Whatever a tool call throws is an [McpError].  The
    no-project-context error of a handler leaves the switch as it was
    thrown, with code [InvalidRequest]; arguments that fail the schema of
    the tool give [InternalError] with the message of zod after "Tool
    execution failed: ", before any call to the backend and with the
    session untouched. *)
Theorem tool_calls_throw_mcp_errors (name : string) (args : JS.value) (st : State) :
  (forall e : Exn,
      fst (Dispatcher.callTool show date zod_message api name args st) = Throw e ->
      exists (code : ErrorCode) (msg : string), e = McpError code msg) /\
  (forall op : ProjectOp,
      name = tool_of op ->
      explicit_project_id op args = Some None ->
      currentProjectId st = None ->
      Dispatcher.callTool show date zod_message api name args st
        = (Throw no_project_context, st)) /\
  (forall issues : list Zod.ZodIssue,
      (name = "set_project_context" /\ SetProjectContextSchema args = Zod.Invalid issues) \/
      (name = "get_project_info" /\ GetProjectSchema args = Zod.Invalid issues) \/
      (name = "create_story" /\ CreateStorySchema args = Zod.Invalid issues) \/
      (name = "update_story_status" /\
       UpdateStoryStatusSchema args = Zod.Invalid issues) \/
      (name = "get_story" /\ Dispatcher.GetStorySchema args = Zod.Invalid issues) \/
      (name = "list_my_stories" /\ ListStoriesSchema args = Zod.Invalid issues) ->
      Dispatcher.callTool show date zod_message api name args st
        = (Throw (McpError InternalError
                    ("Tool execution failed: " ++ zod_message issues)), st)).
Proof.
  split; [|split].
  - intros e. unfold Dispatcher.callTool, try_catch.
    match goal with
    | |- context [match ?body st with _ => _ end] =>
        destruct (body st) as [[r|[c m|i]] s]
    end; cbn; intros H; inversion H; eauto.
  - intros op -> Hexp Hctx.
    assert (Hrun : handler show api op args st = (Throw no_project_context, st)).
    { apply (handler_unresolved show api op args None st Hexp).
      cbn. now rewrite Hctx. }
    destruct op; cbn [tool_of handler] in *;
      unfold Dispatcher.callTool, try_catch; cbn [String.eqb Ascii.eqb Bool.eqb];
      now rewrite Hrun.
  - intros issues. apply callTool_invalid.
Qed.

(** X3.  The tools the server lists are exactly the names the switch
    handles: a call to a listed tool never fails with [MethodNotFound], and
    a call to any other name fails with [MethodNotFound] and "Unknown tool",
    calls nothing and leaves the session as it was. *)
Theorem listed_tools_are_handled (name : string) (args : JS.value) (st : State) :
  (In name tool_names ->
   forall msg : string,
     fst (Dispatcher.callTool show date zod_message api name args st)
       <> Throw (McpError MethodNotFound msg)) /\
  (~ In name tool_names ->
   Dispatcher.callTool show date zod_message api name args st
     = (Throw (McpError MethodNotFound ("Unknown tool: " ++ name)), st)).
Proof.
  assert (Hwrap : forall run : outcome Exn ToolResponse * State,
             (forall e, fst run = Throw e -> handler_exception e) ->
             forall msg, fst (rethrown zod_message run)
                         <> Throw (McpError MethodNotFound msg)).
  { intros [[r|[c m|i]] s] Hexc msg; cbn; try discriminate.
    destruct (Hexc _ eq_refl) as [(i & H)|[(m' & H)|(m' & H)]];
      inversion H; subst; discriminate. }
  destruct (callTool_cases show date zod_message api name args st)
    as [[-> ->]|[[-> ->]|[[-> ->]|[[-> ->]|[[-> ->]|[[-> ->]|[Hout ->]]]]]]];
    (split; [intros _ | intros Hno; exfalso; apply Hno; cbn; tauto]) ||
    (split; [intros Hin; contradiction | intros _; reflexivity]).
  - apply Hwrap. apply setProjectContext_exception.
  - apply Hwrap. apply (getProjectInfo_read_only show api args st).
  - apply Hwrap. apply createStory_exception.
  - apply Hwrap. apply updateStoryStatus_exception.
  - apply Hwrap. apply (getStory_read_only show date api args st).
  - apply Hwrap. apply (listStories_read_only show api args st).
Qed.

End ToolErrors.

(** get_story called without a story id. *)
Lemma tool_calls_throw_mcp_errors_witness :
  Dispatcher.GetStorySchema (JS.VObject [])
    = Zod.Invalid [Zod.mkIssue Zod.invalid_type ["story_id"] None] /\
  Dispatcher.callTool decimal sample_date sample_zod_message failing_backend
      "get_story" (JS.VObject []) (session None)
    = (Throw (McpError InternalError "Tool execution failed: Invalid input"),
       session None).
Proof.
  split; [reflexivity|].
  apply (proj2 (proj2 (tool_calls_throw_mcp_errors decimal sample_date
           sample_zod_message failing_backend "get_story" (JS.VObject [])
           (session None)))
           [Zod.mkIssue Zod.invalid_type ["story_id"] None]).
  do 4 right. left. split; reflexivity.
Defined.

(** A tool the server does not list. *)
Lemma listed_tools_are_handled_witness :
  ~ In "delete_story" tool_names /\
  Dispatcher.callTool decimal sample_date sample_zod_message failing_backend
      "delete_story" (JS.VObject []) (session None)
    = (Throw (McpError MethodNotFound "Unknown tool: delete_story"), session None).
Proof.
  assert (H : ~ In "delete_story" tool_names).
  { vm_compute. intuition discriminate. }
  split; [exact H|].
  exact (proj2 (listed_tools_are_handled decimal sample_date sample_zod_message
                  failing_backend "delete_story" (JS.VObject []) (session None)) H).
Defined.

(** *** The advertised schemas and the validation *)

Lemma ap_invalid_chain {A B : Type} (f : Zod.result (A -> B)) (x : Zod.result A) :
  (exists issues, f = Zod.Invalid issues) ->
  exists issues, f <*> x = Zod.Invalid issues.
Proof. intros [issues ->]. apply ap_invalid_l. Qed.

Section Advertised.

Variable show : Q -> string.
Variable date : string -> string.
Variable zod_message : list Zod.ZodIssue -> string.
Variable api : SoftYPMClient.t.

(** X4.  Every property a listed tool declares as required is
    enforced: a call of that tool whose arguments lack the property fails
    with the validation failure of the switch, before any call to the
    backend and with the session untouched. *)
Theorem required_properties_are_enforced
    (tool : Dispatcher.Tool) (keys : list string) (key : string)
    (fields : list (string * JS.value)) (st : State) :
  In tool Dispatcher.tools ->
  Dispatcher.required tool = Some keys ->
  In key keys ->
  JS.get key fields = JS.VUndefined ->
  exists issues : list Zod.ZodIssue,
    Dispatcher.callTool show date zod_message api (Dispatcher.name tool)
        (JS.VObject fields) st
      = (Throw (McpError InternalError
                  ("Tool execution failed: " ++ zod_message issues)), st).
Proof.
  intros Htool Hreq Hkey Hget.
  assert (Hvia : forall name issues,
    (name = "set_project_context" /\
     SetProjectContextSchema (JS.VObject fields) = Zod.Invalid issues) \/
    (name = "get_project_info" /\
     GetProjectSchema (JS.VObject fields) = Zod.Invalid issues) \/
    (name = "create_story" /\
     CreateStorySchema (JS.VObject fields) = Zod.Invalid issues) \/
    (name = "update_story_status" /\
     UpdateStoryStatusSchema (JS.VObject fields) = Zod.Invalid issues) \/
    (name = "get_story" /\
     Dispatcher.GetStorySchema (JS.VObject fields) = Zod.Invalid issues) \/
    (name = "list_my_stories" /\
     ListStoriesSchema (JS.VObject fields) = Zod.Invalid issues) ->
    exists issues' : list Zod.ZodIssue,
      Dispatcher.callTool show date zod_message api name (JS.VObject fields) st
        = (Throw (McpError InternalError
                    ("Tool execution failed: " ++ zod_message issues')), st)).
  { intros name issues H. exists issues.
    apply (callTool_invalid show date zod_message api name
             (JS.VObject fields) st issues H). }
  cbn in Htool.
  destruct Htool as [<-|[<-|[<-|[<-|[<-|[<-|[]]]]]]]; cbn in Hreq;
    inversion Hreq; subst keys; cbn in Hkey.
  - destruct Hkey as [<-|[]].
    assert (Hinv : exists issues,
               SetProjectContextSchema (JS.VObject fields) = Zod.Invalid issues).
    { unfold SetProjectContextSchema, Zod.object, Zod.field. rewrite Hget.
      eexists. reflexivity. }
    destruct Hinv as [issues Hinv]. apply (Hvia _ issues). tauto.
  - destruct Hkey as [<-|[]].
    assert (Hinv : exists issues,
               CreateStorySchema (JS.VObject fields) = Zod.Invalid issues).
    { unfold CreateStorySchema, Zod.object.
      do 4 apply ap_invalid_chain.
      unfold Zod.field at 1. rewrite Hget. cbn. eexists. reflexivity. }
    destruct Hinv as [issues Hinv]. apply (Hvia _ issues). tauto.
  - assert (Hinv : exists issues,
               UpdateStoryStatusSchema (JS.VObject fields) = Zod.Invalid issues).
    { unfold UpdateStoryStatusSchema, Zod.object.
      destruct Hkey as [<-|[<-|[]]].
      - do 2 apply ap_invalid_chain.
        unfold Zod.field at 1. rewrite Hget. cbn. eexists. reflexivity.
      - apply ap_invalid_chain.
        match goal with
        | |- exists _, ?f <*> Zod.field _ _ ?s = _ =>
            destruct (field_invalid fields "status" s
                        [Zod.issue Zod.invalid_union]) as [is1 ->];
              [rewrite Hget; reflexivity | apply ap_invalid_r]
        end. }
    destruct Hinv as [issues Hinv]. apply (Hvia _ issues). tauto.
  - destruct Hkey as [<-|[]].
    assert (Hinv : exists issues,
               Dispatcher.GetStorySchema (JS.VObject fields) = Zod.Invalid issues).
    { unfold Dispatcher.GetStorySchema, Zod.object, Zod.field. rewrite Hget.
      eexists. reflexivity. }
    destruct Hinv as [issues Hinv]. apply (Hvia _ issues). tauto.
Qed.

(** X5.  A call whose arguments are not an object (the request
    carried none, or [null], or an array) fails the validation of every
    listed tool, those with no required property included: get_project_info
    and list_my_stories fall back on the session context only when they are
    given an object. *)
Theorem arguments_must_be_an_object (name : string) (args : JS.value) (st : State) :
  In name tool_names ->
  (forall fields : list (string * JS.value), args <> JS.VObject fields) ->
  Dispatcher.callTool show date zod_message api name args st
    = (Throw (McpError InternalError
                ("Tool execution failed: "
                 ++ zod_message [Zod.issue Zod.invalid_type])), st).
Proof.
  intros Hin Hshape.
  assert (Hall : forall (A : Type) (shape : list (string * JS.value) -> Zod.result A),
             Zod.object shape args = Zod.Invalid [Zod.issue Zod.invalid_type]).
  { intros A shape. unfold Zod.object.
    destruct args; try reflexivity. exfalso. eapply Hshape. reflexivity. }
  apply callTool_invalid.
  cbn in Hin.
  destruct Hin as [<-|[<-|[<-|[<-|[<-|[<-|[]]]]]]].
  - left. split; [reflexivity | apply Hall].
  - right; left. split; [reflexivity | apply Hall].
  - do 2 right; left. split; [reflexivity | apply Hall].
  - do 3 right; left. split; [reflexivity | apply Hall].
  - do 4 right; left. split; [reflexivity | apply Hall].
  - do 5 right. split; [reflexivity | apply Hall].
Qed.

End Advertised.

(** create_story called with an estimate and no name. *)
Lemma required_properties_are_enforced_witness :
  let tool := nth 2 Dispatcher.tools (Dispatcher.mkTool "" "" [] None) in
  In tool Dispatcher.tools /\
  Dispatcher.required tool = Some ["name"] /\
  exists issues : list Zod.ZodIssue,
    Dispatcher.callTool decimal sample_date sample_zod_message
        (sample_backend (StatusNumber 1)) "create_story"
        (JS.VObject [("estimate", JS.VNumber 2)]) (session (Some (JS.Finite 42)))
      = (Throw (McpError InternalError
                  ("Tool execution failed: " ++ sample_zod_message issues)),
         session (Some (JS.Finite 42))).
Proof.
  cbv zeta.
  assert (Hin : In (nth 2 Dispatcher.tools (Dispatcher.mkTool "" "" [] None))
                  Dispatcher.tools).
  { right. right. left. reflexivity. }
  split; [exact Hin|]. split; [reflexivity|].
  apply (required_properties_are_enforced decimal sample_date sample_zod_message
           (sample_backend (StatusNumber 1))
           (nth 2 Dispatcher.tools (Dispatcher.mkTool "" "" [] None))
           ["name"] "name" [("estimate", JS.VNumber 2)]
           (session (Some (JS.Finite 42))) Hin eq_refl).
  - left. reflexivity.
  - reflexivity.
Defined.

(** list_my_stories called with no arguments while a context is set. *)
Lemma arguments_must_be_an_object_witness :
  In "list_my_stories" tool_names /\
  Dispatcher.callTool decimal sample_date sample_zod_message
      (sample_backend (StatusNumber 1)) "list_my_stories" JS.VUndefined
      (session (Some (JS.Finite 42)))
    = (Throw (McpError InternalError "Tool execution failed: Invalid input"),
       session (Some (JS.Finite 42))).
Proof.
  assert (Hin : In "list_my_stories" tool_names).
  { do 5 right. left. reflexivity. }
  split; [exact Hin|].
  apply (arguments_must_be_an_object decimal sample_date sample_zod_message
           (sample_backend (StatusNumber 1)) "list_my_stories" JS.VUndefined
           (session (Some (JS.Finite 42))) Hin).
  intros fields H. discriminate H.
Defined.

(** *** The session context across requests *)

Lemma SetProjectContextSchema_positive (args : JS.value) (pid : Q) :
  SetProjectContextSchema args = Zod.Valid pid -> 0 < pid.
Proof.
  unfold SetProjectContextSchema, Zod.object.
  destruct args as [| | | | | |fields]; try discriminate.
  intros H. apply field_valid in H. unfold Zod.refine, Zod.number in H.
  destruct (JS.get "project_id" fields) as [| | |q| | |]; try discriminate.
  destruct (Zod.is_positive q) eqn:Hpos; [|discriminate].
  inversion H; subst q. unfold Zod.is_positive, JS.gt in Hpos.
  apply negb_true_iff in Hpos.
  destruct (Qlt_le_dec 0 pid) as [Hlt|Hle]; [exact Hlt|].
  apply Qle_bool_iff in Hle. congruence.
Qed.

Section Sessions.

Variable show : Q -> string.
Variable date : string -> string.
Variable zod_message : list Zod.ZodIssue -> string.
Variable api : SoftYPMClient.t.

Lemma createStory_context (args : JS.value) (st : State) :
  currentProjectId (snd (createStory show api args st)) = currentProjectId st.
Proof.
  destruct (CreateStorySchema args) as [a|issues] eqn:Hargs.
  - rewrite (createStory_valid show api args a st Hargs).
    destruct (truthy_id _); [destruct (too_large _)|]; reflexivity.
  - now rewrite (createStory_invalid show api args issues st Hargs).
Qed.

Lemma updateStoryStatus_context (args : JS.value) (st : State) :
  currentProjectId (snd (updateStoryStatus show api args st)) = currentProjectId st.
Proof.
  unfold updateStoryStatus, bind, try_catch, parse, await, ret, throw.
  destruct (UpdateStoryStatusSchema args); cbn; [|reflexivity].
  destruct (getStory api _); cbn; [|reflexivity].
  destruct (negb _); cbn; [reflexivity|].
  destruct (SoftYPMClient.updateStoryStatus api _ _); reflexivity.
Qed.

(** One request: the context it leaves, and the journal it extends. *)
Lemma callTool_step (name : string) (args : JS.value) (st : State) :
  let run := Dispatcher.callTool show date zod_message api name args st in
  (currentProjectId (snd run) = currentProjectId st \/
   (name = "set_project_context" /\
    exists (pid : Q) (project : Project.t) (r : ToolResponse),
      SetProjectContextSchema args = Zod.Valid pid /\
      getProject api (JS.Finite pid) = Return project /\
      fst run = Return r /\
      currentProjectId (snd run) = Some (JS.Finite pid) /\
      0 < pid)) /\
  exists new : list Call, calls (snd run) = (calls st ++ new)%list.
Proof.
  cbv zeta.
  destruct (callTool_cases show date zod_message api name args st)
    as [[-> ->]|[[-> ->]|[[-> ->]|[[-> ->]|[[-> ->]|[[-> ->]|[_ ->]]]]]]].
  - destruct (SetProjectContextSchema args) as [pid|issues] eqn:Hargs.
    + rewrite (setProjectContext_valid show api args pid st Hargs).
      destruct (getProject api (JS.Finite pid)) as [project|e] eqn:Hfetch; cbn.
      * split; [|eexists; reflexivity]. right. split; [reflexivity|].
        exists pid, project. eexists. repeat split; try reflexivity.
        -- exact Hfetch.
        -- apply (SetProjectContextSchema_positive args pid Hargs).
      * split; [left; reflexivity | eexists; reflexivity].
    + rewrite (setProjectContext_invalid show api args issues st Hargs). cbn.
      split; [left; reflexivity | exists []; now rewrite app_nil_r].
  - rewrite rethrown_state, getProjectInfo_journal. cbn.
    destruct (getProjectInfo_read_only show api args
                (session (currentProjectId st))) as (Hctx & _).
    split; [left; exact Hctx | eexists; reflexivity].
  - rewrite rethrown_state. split; [left; apply createStory_context|].
    rewrite createStory_journal. cbn. eexists; reflexivity.
  - rewrite rethrown_state. split; [left; apply updateStoryStatus_context|].
    rewrite updateStoryStatus_journal. cbn. eexists; reflexivity.
  - rewrite rethrown_state.
    destruct (getStory_read_only show date api args st) as (Hctx & _).
    split; [left; exact Hctx|].
    unfold Dispatcher.getStory, bind, try_catch, parse, await, ret, throw.
    destruct (Dispatcher.GetStorySchema args); cbn;
      [|exists []; now rewrite app_nil_r].
    destruct (getStory api _); cbn; eexists; reflexivity.
  - rewrite rethrown_state, listStories_journal. cbn.
    destruct (listStories_read_only show api args
                (session (currentProjectId st))) as (Hctx & _).
    split; [left; exact Hctx | eexists; reflexivity].
  - cbn. split; [left; reflexivity | exists []; now rewrite app_nil_r].
Qed.

(** X7.  Through any sequence of requests, the session context is
    either still the one the sequence started with or a positive project
    id, and the journal of gateway calls only grows. *)
Theorem context_through_requests
    (requests : list (string * JS.value)) (st : State) :
  let st' := serve show date zod_message api requests st in
  (currentProjectId st' = currentProjectId st \/
   positive_context (currentProjectId st')) /\
  exists new : list Call, calls st' = (calls st ++ new)%list.
Proof.
  cbv zeta. revert st. induction requests as [|[name args] rest IH]; intros st.
  - cbn. split; [left; reflexivity | exists []; now rewrite app_nil_r].
  - cbn [serve fold_left fst snd].
    destruct (callTool_step name args st) as (Hctx & new1 & Hcalls).
    cbv zeta in Hctx, Hcalls.
    specialize (IH (snd (Dispatcher.callTool show date zod_message api name args st))).
    unfold serve in IH. destruct IH as (IHctx & new2 & IHcalls).
    split.
    + destruct IHctx as [IHsame|IHpos]; [|right; exact IHpos].
      rewrite IHsame.
      destruct Hctx as [Hsame|(_ & pid & _ & _ & _ & _ & _ & Hnew & Hpos)].
      * left. exact Hsame.
      * right. exists pid. split; assumption.
    + exists (new1 ++ new2)%list. rewrite IHcalls, Hcalls. now rewrite app_assoc.
Qed.

(** A handler run after the journal [old] works on [pid] as soon as its run
    from the empty journal does, when the old calls are about [pid]. *)
Lemma uses_project_rebase (old : list Call)
    (run : outcome Exn ToolResponse * State) (pid : JS.number) :
  Forall (fun c => call_project c = Some pid) old ->
  old <> [] ->
  uses_project run pid ->
  uses_project (rebase old run) pid.
Proof.
  intros Hold Hne (Hall & Hnot & Hret). unfold uses_project, rebase. cbn.
  split; [apply Forall_app; split; assumption|].
  split; [exact Hnot|].
  intros Hempty. apply app_eq_nil in Hempty. destruct Hempty as [Hempty _].
  contradiction.
Qed.

Lemma handler_journal (op : ProjectOp) (args : JS.value) (st : State) :
  handler show api op args st
    = rebase (calls st) (handler show api op args (session (currentProjectId st))).
Proof.
  destruct op; cbn [handler].
  - apply getProjectInfo_journal.
  - apply createStory_journal.
  - apply listStories_journal.
Qed.

(** X8.  After a set_project_context call that succeeded on
    project [pid], info lookup, story creation and story listing called
    with valid arguments and no project id work on [pid]: they do not raise
    the no-project-context error, and every call they make is about
    [pid]. *)
Theorem context_set_is_then_used
    (op : ProjectOp) (args0 args : JS.value) (pid : Q) (project : Project.t)
    (ctx : option JS.number) :
  SetProjectContextSchema args0 = Zod.Valid pid ->
  getProject api (JS.Finite pid) = Return project ->
  explicit_project_id op args = Some None ->
  uses_project
    (handler show api op args
       (snd (setProjectContext show api args0 (session ctx))))
    (JS.Finite pid).
Proof.
  intros Hargs0 Hfetch Hexp.
  rewrite (setProjectContext_valid show api args0 pid (session ctx) Hargs0), Hfetch.
  cbn [snd session calls app].
  rewrite handler_journal. cbn [calls currentProjectId].
  apply uses_project_rebase.
  - repeat constructor.
  - discriminate.
  - apply (handler_resolved show api op args None (Some (JS.Finite pid)) _ Hexp).
    assert (Hpos := SetProjectContextSchema_positive args0 pid Hargs0).
    cbn. unfold JS.truthy_Q.
    destruct (Qeq_bool pid 0) eqn:E; [|reflexivity].
    apply Qeq_bool_iff in E. rewrite E in Hpos. discriminate Hpos.
Qed.

End Sessions.

(** The stories are listed after the context was set to project 42. *)
Lemma context_set_is_then_used_witness :
  SetProjectContextSchema (JS.VObject [("project_id", JS.VNumber 42)])
    = Zod.Valid 42 /\
  explicit_project_id StoryListing (JS.VObject []) = Some None /\
  uses_project
    (handler decimal (sample_backend (StatusNumber 1)) StoryListing (JS.VObject [])
       (snd (setProjectContext decimal (sample_backend (StatusNumber 1))
               (JS.VObject [("project_id", JS.VNumber 42)]) (session None))))
    (JS.Finite 42).
Proof.
  split; [reflexivity|]. split; [reflexivity|].
  exact (context_set_is_then_used decimal (sample_backend (StatusNumber 1))
           StoryListing (JS.VObject [("project_id", JS.VNumber 42)]) (JS.VObject [])
           42 sample_project None eq_refl eq_refl eq_refl).
Defined.

(** *** The text of get_story *)

Section StoryDetails.

Variable show : Q -> string.
Variable date : string -> string.
Variable api : SoftYPMClient.t.

(** X10.  [get_story] on valid arguments and a story that is fetched
    returns its text after that one call, and writes nothing.  The closing
    hint reads "Next" for status 1 and "Active" for status 3; for every
    other status, a backend-supplied 2 or 4 and a status that is no number
    included, it reads "Complete: This story is done", and the status line
    then shows the number in place of a label. *)
Theorem get_story_closing_hint
    (args : JS.value) (id : Q) (story : Story.t) (ctx : option JS.number) :
  Dispatcher.GetStorySchema args = Zod.Valid id ->
  getStory api id = Return story ->
  let s := status_number (Story.status story) in
  let text := Dispatcher.story_text show date story in
  Dispatcher.getStory show date api args (session ctx)
    = (Return (text_response text), mkState ctx [GetStory id]) /\
  (num_is s 1 ->
   ends_with text ("💡 **Next**: Move to " ++ dq ++ "In Progress" ++ dq
                   ++ " when you start working")) /\
  (num_is s 3 -> ends_with text "🔨 **Active**: Currently in progress") /\
  (~ num_is s 1 -> ~ num_is s 3 ->
   ends_with text "✅ **Complete**: This story is done") /\
  (~ workflow_status s ->
   contains text ("📊 **Status**: " ++ show_number show s ++ nl)).
Proof.
  intros Hargs Hstory s text.
  split.
  { unfold Dispatcher.getStory, bind, try_catch, parse, await, ret, throw.
    rewrite Hargs. cbn. rewrite Hstory. reflexivity. }
  subst text. unfold Dispatcher.story_text. fold s.
  assert (H1 : JS.strict_eq s (JS.Finite 1) = true <-> num_is s 1).
  { destruct s; cbn; [apply Qeq_bool_iff | split; [discriminate | tauto]..]. }
  assert (H3 : JS.strict_eq s (JS.Finite 3) = true <-> num_is s 3).
  { destruct s; cbn; [apply Qeq_bool_iff | split; [discriminate | tauto]..]. }
  split; [|split; [|split]].
  - intros Hs. apply H1 in Hs. rewrite Hs.
    do 13 apply ends_with_append. exists "". reflexivity.
  - intros Hs.
    assert (Hn1 : JS.strict_eq s (JS.Finite 1) = false).
    { apply not_true_is_false. intros E. apply H1 in E.
      destruct s; cbn in *; [q_clash | contradiction..]. }
    apply H3 in Hs. rewrite Hn1, Hs.
    do 13 apply ends_with_append. exists "". reflexivity.
  - intros Hn1 Hn3.
    assert (E1 : JS.strict_eq s (JS.Finite 1) = false).
    { apply not_true_is_false. intros E. apply H1 in E. contradiction. }
    assert (E3 : JS.strict_eq s (JS.Finite 3) = false).
    { apply not_true_is_false. intros E. apply H3 in E. contradiction. }
    rewrite E1, E3.
    do 13 apply ends_with_append. exists "". reflexivity.
  - intros Hno.
    assert (Hrow : statusNames s = None).
    { unfold statusNames. destruct (lookup135 _ _ _ s) eqn:E; [|reflexivity].
      exfalso. apply Hno. apply workflow_status_lookup.
      unfold validTransitions, lookup135 in *.
      destruct s as [q| |neg]; [|discriminate..].
      destruct (Qeq_bool q 1); [discriminate|].
      destruct (Qeq_bool q 3); [discriminate|].
      destruct (Qeq_bool q 5); [discriminate|discriminate]. }
    rewrite Hrow.
    do 6 apply contains_append.
    match goal with
    | |- contains (?a ++ ?n ++ ?rest) _ =>
        destruct (ends_withb_sound a "📊 **Status**: " eq_refl) as [pre Hpre];
          rewrite Hpre
    end.
    match goal with
    | |- contains (_ ++ _ ++ ?lit ++ ?rest) _ =>
        destruct (starts_withb_sound lit nl eq_refl) as [post Hpost];
          rewrite Hpost
    end.
    exists pre. eexists. rewrite !append_assoc. reflexivity.
Qed.

End StoryDetails.

(** *** The workflow as a graph *)

(** X11.  The transition table as a graph on the statuses: no status
    may move to itself; an allowed move starts and ends at one of 1, 3, 5;
    each of 1, 3, 5 has a move out; and from each of them every other one is
    reached in one move or in two. *)
Theorem workflow_graph (s t : JS.number) :
  transition_allowed s s = false /\
  (transition_allowed s t = true -> workflow_status s /\ workflow_status t) /\
  (workflow_status s -> exists u : JS.number, transition_allowed s u = true) /\
  (workflow_status s -> workflow_status t -> JS.strict_eq s t = false ->
   transition_allowed s t = true \/
   exists m : JS.number,
     transition_allowed s m = true /\ transition_allowed m t = true).
Proof.
  split; [|split; [|split]].
  - apply transition_refused_unlisted. unfold listed_transition.
    destruct s as [q| |neg]; cbn; [|tauto..].
    intros H. repeat match goal with
      | K : _ \/ _ |- _ => destruct K
      | K : _ /\ _ |- _ => destruct K
      end; q_clash.
  - intros H. apply transition_allowed_listed in H.
    unfold listed_transition, workflow_status in *. intuition.
  - intros [H|[H|H]].
    + exists (JS.Finite 3). apply transition_allowed_listed.
      left. split; [exact H | reflexivity].
    + exists (JS.Finite 5). apply transition_allowed_listed.
      right; left. split; [exact H | reflexivity].
    + exists (JS.Finite 1). apply transition_allowed_listed.
      do 3 right; left. split; [exact H | reflexivity].
  - intros Hs Ht Hne.
    assert (Hdiff : forall k, num_is s k -> num_is t k -> False).
    { intros k Hsk Htk. destruct s as [q| |neg], t as [r| |neg']; cbn in *;
        try contradiction.
      apply Qeq_bool_false_iff in Hne. apply Hne. rewrite Hsk, Htk. reflexivity. }
    destruct Hs as [Hs|[Hs|Hs]], Ht as [Ht|[Ht|Ht]];
      try (exfalso; eapply Hdiff; eassumption).
    + left. apply transition_allowed_listed. left. auto.
    + right. exists (JS.Finite 3). split; apply transition_allowed_listed.
      * left. split; [exact Hs | reflexivity].
      * right; left. split; [reflexivity | exact Ht].
    + left. apply transition_allowed_listed. do 2 right; left. auto.
    + left. apply transition_allowed_listed. right; left. auto.
    + left. apply transition_allowed_listed. do 3 right; left. auto.
    + left. apply transition_allowed_listed. do 4 right. auto.
Qed.

(** *** The buckets of get_project_info *)

Lemma has_status_exclusive (show : Q -> string) (a b : Q) (s : Story.t) :
  has_status a s = true -> has_status b s = true -> a == b.
Proof.
  unfold has_status. destruct (status_number (Story.status s)) as [q| |neg]; cbn;
    [|discriminate..].
  intros Ha Hb. apply Qeq_bool_iff in Ha, Hb. rewrite <- Ha, <- Hb. reflexivity.
Qed.

Ltac buckets_clash Hex :=
  match goal with
  | Ha : has_status ?a ?s = true, Hb : has_status ?b ?s = true |- _ =>
      exact (Hex a b s Ha Hb eq_refl)
  end.

(** X12.  The three lists [get_project_info] counts (backlog, in
    progress, done) share no story, so the counts add up to at most the
    number of stories; they add up to it exactly when every story is at
    status 1, 3 or 5, and a story at any other status is counted in none. *)
Theorem project_info_buckets (stories : list Story.t) :
  let backlog := filter (has_status 1) stories in
  let in_progress := filter (has_status 3) stories in
  let done := filter (has_status 5) stories in
  (forall s : Story.t, In s backlog -> ~ In s in_progress /\ ~ In s done) /\
  (forall s : Story.t, In s in_progress -> ~ In s done) /\
  (length backlog + length in_progress + length done <= length stories)%nat /\
  ((length backlog + length in_progress + length done = length stories)%nat <->
   Forall (fun s => workflow_status (status_number (Story.status s))) stories).
Proof.
  cbv zeta.
  assert (Hex : forall a b s, has_status a s = true -> has_status b s = true ->
                              Qeq_bool a b = false -> False).
  { intros a b s Ha Hb Hab. apply Qeq_bool_false_iff in Hab. apply Hab.
    apply (has_status_exclusive (fun _ => "") a b s Ha Hb). }
  assert (Hws : forall s,
             workflow_status (status_number (Story.status s)) <->
             has_status 1 s = true \/ has_status 3 s = true \/ has_status 5 s = true).
  { intros s. unfold workflow_status, has_status.
    destruct (status_number (Story.status s)) as [q| |neg]; cbn.
    - rewrite !Qeq_bool_iff. tauto.
    - intuition discriminate.
    - intuition discriminate. }
  split; [|split; [|split]].
  - intros s Hin. apply filter_In in Hin. destruct Hin as [_ H1].
    split; intros Hin'; apply filter_In in Hin'; destruct Hin' as [_ H'];
      [exact (Hex 1 3 s H1 H' eq_refl) | exact (Hex 1 5 s H1 H' eq_refl)].
  - intros s Hin. apply filter_In in Hin. destruct Hin as [_ H3].
    intros Hin'; apply filter_In in Hin'; destruct Hin' as [_ H'].
    exact (Hex 3 5 s H3 H' eq_refl).
  - induction stories as [|s rest IH]; cbn; [lia|].
    destruct (has_status 1 s) eqn:E1; destruct (has_status 3 s) eqn:E3;
      destruct (has_status 5 s) eqn:E5; cbn;
      try (exfalso; buckets_clash Hex); lia.
  - assert (Hle : forall l : list Story.t,
               (length (filter (has_status 1) l) + length (filter (has_status 3) l)
                + length (filter (has_status 5) l) <= length l)%nat).
    { induction l as [|s rest IH]; cbn; [lia|].
      destruct (has_status 1 s) eqn:E1; destruct (has_status 3 s) eqn:E3;
        destruct (has_status 5 s) eqn:E5; cbn;
        try (exfalso; buckets_clash Hex); lia. }
    induction stories as [|s rest IH]; cbn.
    + split; [constructor | reflexivity].
    + specialize (Hle rest).
      destruct (has_status 1 s) eqn:E1; destruct (has_status 3 s) eqn:E3;
        destruct (has_status 5 s) eqn:E5; cbn;
        try (exfalso; buckets_clash Hex).
      * split.
        -- intros H. constructor; [apply Hws; tauto | apply IH; lia].
        -- intros H. inversion H; subst. apply IH in H3. lia.
      * split.
        -- intros H. constructor; [apply Hws; tauto | apply IH; lia].
        -- intros H. inversion H; subst. apply IH in H3. lia.
      * split.
        -- intros H. constructor; [apply Hws; tauto | apply IH; lia].
        -- intros H. inversion H; subst. apply IH in H3. lia.
      * split.
        -- intros H. lia.
        -- intros H. inversion H; subst. apply Hws in H2.
           destruct H2 as [H2|[H2|H2]]; congruence.
Qed.

(** A story the backend reports at status 4 reads as complete. *)
Lemma get_story_closing_hint_witness :
  Dispatcher.GetStorySchema (JS.VObject [("story_id", JS.VNumber 7)])
    = Zod.Valid 7 /\
  ~ num_is (JS.Finite 4) 1 /\ ~ num_is (JS.Finite 4) 3 /\
  ends_with
    (Dispatcher.story_text decimal sample_date (sample_story 7 (StatusNumber 4)))
    "✅ **Complete**: This story is done".
Proof.
  assert (H1 : ~ num_is (JS.Finite 4) 1) by (intros H; discriminate H).
  assert (H3 : ~ num_is (JS.Finite 4) 3) by (intros H; discriminate H).
  split; [reflexivity|]. split; [exact H1|]. split; [exact H3|].
  exact (proj1 (proj2 (proj2 (proj2
           (get_story_closing_hint decimal sample_date
              (sample_backend (StatusNumber 4))
              (JS.VObject [("story_id", JS.VNumber 7)]) 7
              (sample_story 7 (StatusNumber 4)) None eq_refl eq_refl)))) H1 H3).
Defined.

(** From Backlog, Done is reached in two moves. *)
Lemma workflow_graph_witness :
  workflow_status (JS.Finite 1) /\ workflow_status (JS.Finite 5) /\
  (transition_allowed (JS.Finite 1) (JS.Finite 5) = true \/
   exists m : JS.number,
     transition_allowed (JS.Finite 1) m = true /\
     transition_allowed m (JS.Finite 5) = true).
Proof.
  assert (H1 : workflow_status (JS.Finite 1)) by (left; reflexivity).
  assert (H5 : workflow_status (JS.Finite 5)) by (right; right; reflexivity).
  split; [exact H1|]. split; [exact H5|].
  exact (proj2 (proj2 (proj2 (workflow_graph (JS.Finite 1) (JS.Finite 5))))
           H1 H5 eq_refl).
Defined.

(** A backlog story and a story at status 4: the counts add up to one. *)
Lemma project_info_buckets_witness :
  let stories := [sample_story 1 (StatusNumber 1); sample_story 2 (StatusNumber 4)] in
  In (sample_story 1 (StatusNumber 1)) (filter (has_status 1) stories) /\
  ~ In (sample_story 1 (StatusNumber 1)) (filter (has_status 3) stories) /\
  ~ In (sample_story 1 (StatusNumber 1)) (filter (has_status 5) stories).
Proof.
  cbv zeta.
  assert (H : In (sample_story 1 (StatusNumber 1))
                (filter (has_status 1)
                   [sample_story 1 (StatusNumber 1);
                    sample_story 2 (StatusNumber 4)])).
  { left. reflexivity. }
  split; [exact H|].
  exact (proj1 (project_info_buckets
                  [sample_story 1 (StatusNumber 1); sample_story 2 (StatusNumber 4)])
           (sample_story 1 (StatusNumber 1)) H).
Defined.

(** *** The gateway over HTTP *)

Lemma Throw_inj {E A : Type} (x y : E) :
  Throw (A:=A) x = Throw y -> x = y.
Proof. intros H. now inversion H. Qed.

Section GatewayProperties.

Variable show : Q -> string.
Variable engine : Gateway.Fault -> string.
Variable backend : Gateway.HttpCall -> Gateway.AxiosResult.

(** X13.  For the statuses 401, 403, 404 and 500 and above, the
    message the interceptor throws depends on the status alone: what the
    backend wrote in the body, and the status text, are dropped.  For any
    other status the message is "API Error: " followed by the [message] of
    the body when it is a non-empty string, and by the status text when the
    body has no [message]. *)
Theorem interceptor_messages (error : Gateway.AxiosError) (r : Gateway.Response) :
  Gateway.response error = Some r ->
  (coded_status (Gateway.status r) ->
   exists m : string,
     Gateway.interceptor show error = Gateway.RaisedError (mkError m) /\
     forall (error' : Gateway.AxiosError) (r' : Gateway.Response),
       Gateway.response error' = Some r' ->
       Gateway.status r' = Gateway.status r ->
       Gateway.interceptor show error' = Gateway.RaisedError (mkError m)) /\
  (~ coded_status (Gateway.status r) ->
   (forall m : string,
       Gateway.read_opt (Gateway.data r) "message" = JS.VString m ->
       m <> "" ->
       Gateway.interceptor show error
         = Gateway.RaisedError (mkError ("API Error: " ++ m))) /\
   (Gateway.truthy (Gateway.read_opt (Gateway.data r) "message") = false ->
    Gateway.interceptor show error
      = Gateway.RaisedError (mkError ("API Error: " ++ Gateway.statusText r)))).
Proof.
  intros Hr. unfold coded_status. split.
  - intros Hcoded.
    assert (Hdep : forall (e' : Gateway.AxiosError) (r' : Gateway.Response),
               Gateway.response e' = Some r' ->
               Gateway.status r' = Gateway.status r ->
               Gateway.interceptor show e' =
               if (Gateway.status r =? 401)%Z then
                 Gateway.RaisedError
                   (mkError "Authentication failed. Please check your API token.")
               else if (Gateway.status r =? 403)%Z then
                 Gateway.RaisedError
                   (mkError "Access denied. You may not have permission to access this resource.")
               else if (Gateway.status r =? 404)%Z then
                 Gateway.RaisedError (mkError "Resource not found.")
               else Gateway.RaisedError
                      (mkError "SoftYPM server error. Please try again later.")).
    { intros e' r' Hr' Hst. unfold Gateway.interceptor. rewrite Hr', Hst.
      destruct (Gateway.status r =? 401)%Z eqn:E1; [reflexivity|].
      destruct (Gateway.status r =? 403)%Z eqn:E3; [reflexivity|].
      destruct (Gateway.status r =? 404)%Z eqn:E4; [reflexivity|].
      destruct (500 <=? Gateway.status r)%Z eqn:E5; [reflexivity|].
      exfalso. apply Z.eqb_neq in E1, E3, E4. apply Z.leb_gt in E5. lia. }
    destruct (Gateway.status r =? 401)%Z eqn:E1;
      [|destruct (Gateway.status r =? 403)%Z eqn:E3;
        [|destruct (Gateway.status r =? 404)%Z eqn:E4]];
      eexists; (split; [apply (Hdep error r Hr eq_refl) | exact Hdep]).
  - intros Hno.
    assert (E1 : (Gateway.status r =? 401)%Z = false) by (apply Z.eqb_neq; lia).
    assert (E3 : (Gateway.status r =? 403)%Z = false) by (apply Z.eqb_neq; lia).
    assert (E4 : (Gateway.status r =? 404)%Z = false) by (apply Z.eqb_neq; lia).
    assert (E5 : (500 <=? Gateway.status r)%Z = false) by (apply Z.leb_gt; lia).
    split.
    + intros m Hm Hne. unfold Gateway.interceptor. rewrite Hr, E1, E3, E4, E5, Hm.
      unfold Gateway.or_value. cbn.
      destruct m; [contradiction | reflexivity].
    + intros Hfalsy. unfold Gateway.interceptor. rewrite Hr, E1, E3, E4, E5.
      unfold Gateway.or_value. rewrite Hfalsy. reflexivity.
Qed.

(** X14.  Each method of the gateway sends exactly one request,
    to its own endpoint, whatever the backend answers; and when it fails,
    what it throws is an [Error] whose message starts with the description
    of the method, also when the failure is a TypeError raised on the
    body. *)
Theorem gateway_methods_send_one_request (sent : list Gateway.HttpCall) :
  (forall projectId : JS.number,
      one_request_described
        (Gateway.getProject show engine backend projectId sent) sent
        (Gateway.HttpGet ("/projects/" ++ Gateway.show_number show projectId))
        ("Failed to get project " ++ Gateway.show_number show projectId ++ ": ")) /\
  (forall projectId : JS.number,
      one_request_described
        (Gateway.getProjectStories show engine backend projectId sent) sent
        (Gateway.HttpGet ("/claude-code/projects/"
                          ++ Gateway.show_number show projectId ++ "/structure"))
        ("Failed to get stories for project "
         ++ Gateway.show_number show projectId ++ ": ")) /\
  (forall data : CreateStoryData.t,
      one_request_described
        (Gateway.createStory show engine backend data sent) sent
        (Gateway.HttpPost "/stories" (Gateway.StoryBody data))
        "Failed to create story: ") /\
  (forall storyId : Q,
      one_request_described
        (Gateway.getStory show engine backend storyId sent) sent
        (Gateway.HttpGet ("/stories/" ++ show storyId))
        ("Failed to get story " ++ show storyId ++ ": ")) /\
  (forall (storyId : Q) (status : JS.number),
      one_request_described
        (Gateway.updateStoryStatus show engine backend storyId status sent) sent
        (Gateway.HttpPost ("/stories/" ++ show storyId ++ "/status")
           (Gateway.StatusBody status))
        ("Failed to update story " ++ show storyId ++ " status: ")).
Proof.
  unfold one_request_described.
  repeat match goal with |- _ /\ _ => split end; intros.
  - unfold Gateway.getProject, try_catch, bind, Gateway.send, Gateway.pure_step,
      ret, throw.
    destruct (backend _); cbn -[append]; [destruct (Gateway.read _ _)|]; cbn -[append];
      (split; [reflexivity|]);
      intros err H; try discriminate H; apply Throw_inj in H; subst err; eexists; rewrite ?append_assoc; reflexivity.
  - unfold Gateway.getProjectStories, try_catch, bind, Gateway.send,
      Gateway.pure_step, ret, throw.
    destruct (backend _); cbn -[append];
      [|split; [reflexivity|];
        intros err H; try discriminate H; apply Throw_inj in H; subst err; eexists; rewrite ?append_assoc; reflexivity].
    destruct (Gateway.read _ "success") as [success|]; cbn -[append];
      [|split; [reflexivity|];
        intros err H; try discriminate H; apply Throw_inj in H; subst err; eexists; rewrite ?append_assoc; reflexivity].
    destruct (if Gateway.truthy success then _ else _) as [payload|]; cbn -[append];
      [|split; [reflexivity|];
        intros err H; try discriminate H; apply Throw_inj in H; subst err; eexists; rewrite ?append_assoc; reflexivity].
    destruct (Gateway.truthy payload); cbn -[append];
      [|split; [reflexivity|];
        intros err H; try discriminate H; apply Throw_inj in H; subst err; eexists; rewrite ?append_assoc; reflexivity].
    destruct (Gateway.read payload "project"); cbn -[append];
      [|split; [reflexivity|];
        intros err H; try discriminate H; apply Throw_inj in H; subst err; eexists; rewrite ?append_assoc; reflexivity].
    destruct (Gateway.collect_stories _); cbn -[append];
      (split; [reflexivity|]);
      intros err H; try discriminate H; apply Throw_inj in H; subst err; eexists; rewrite ?append_assoc; reflexivity.
  - unfold Gateway.createStory, try_catch, bind, Gateway.send, Gateway.pure_step,
      ret, throw.
    destruct (backend _); cbn -[append]; [destruct (Gateway.unwrap_story _)|]; cbn -[append];
      (split; [reflexivity|]);
      intros err H; try discriminate H; apply Throw_inj in H; subst err; eexists; reflexivity.
  - unfold Gateway.getStory, try_catch, bind, Gateway.send, Gateway.pure_step,
      ret, throw.
    destruct (backend _); cbn -[append]; [destruct (Gateway.unwrap_story _)|]; cbn -[append];
      (split; [reflexivity|]);
      intros err H; try discriminate H; apply Throw_inj in H; subst err; eexists; rewrite ?append_assoc; reflexivity.
  - unfold Gateway.updateStoryStatus, try_catch, bind, Gateway.send,
      Gateway.pure_step, ret, throw.
    destruct (backend _); cbn -[append];
      [|split; [reflexivity|];
        intros err H; try discriminate H; apply Throw_inj in H; subst err; eexists; rewrite ?append_assoc; reflexivity].
    destruct (Gateway.read _ "success") as [success|]; cbn -[append];
      [|split; [reflexivity|];
        intros err H; try discriminate H; apply Throw_inj in H; subst err; eexists; rewrite ?append_assoc; reflexivity].
    destruct (negb (Gateway.truthy success) && _); cbn -[append];
      (split; [reflexivity|]);
      intros err H; try discriminate H; apply Throw_inj in H; subst err; eexists; rewrite ?append_assoc; reflexivity.
Qed.

End GatewayProperties.

(** A 422 whose body carries a message. *)
Lemma interceptor_messages_witness :
  let body := JS.VObject [("message", JS.VString "Name taken")] in
  ~ coded_status 422 /\
  Gateway.interceptor decimal (answered_with 422 "Unprocessable Entity" body)
    = Gateway.RaisedError (mkError "API Error: Name taken").
Proof.
  cbv zeta.
  assert (H : ~ coded_status 422) by (unfold coded_status; lia).
  split; [exact H|].
  apply (proj1 (proj2 (interceptor_messages decimal
           (answered_with 422 "Unprocessable Entity"
              (JS.VObject [("message", JS.VString "Name taken")]))
           (Gateway.mkResponse 422 "Unprocessable Entity"
              (JS.VObject [("message", JS.VString "Name taken")]))
           eq_refl) H) "Name taken").
  - reflexivity.
  - discriminate.
Defined.

(** Project 42 on a backend that answers 404. *)
Lemma gateway_methods_send_one_request_witness :
  let backend := rejecting (answered_with 404 "Not Found" JS.VNull) in
  let run := Gateway.getProject decimal sample_engine backend (JS.Finite 42) [] in
  fst run = Throw (mkError "Failed to get project 42: Resource not found.") /\
  snd run = [Gateway.HttpGet "/projects/42"] /\
  exists m : string,
    mkError "Failed to get project 42: Resource not found."
    = mkError (("Failed to get project "
                ++ Gateway.show_number decimal (JS.Finite 42) ++ ": ") ++ m).
Proof.
  cbv zeta.
  assert (H : fst (Gateway.getProject decimal sample_engine
                     (rejecting (answered_with 404 "Not Found" JS.VNull))
                     (JS.Finite 42) [])
              = Throw (mkError "Failed to get project 42: Resource not found.")).
  { reflexivity. }
  split; [exact H|]. split; [reflexivity|].
  exact (proj2 (proj1 (gateway_methods_send_one_request decimal sample_engine
                         (rejecting (answered_with 404 "Not Found" JS.VNull)) [])
                  (JS.Finite 42)) _ H).
Defined.

Section GatewayBodies.

Variable show : Q -> string.
Variable engine : Gateway.Fault -> string.
Variable backend : Gateway.HttpCall -> Gateway.AxiosResult.

Lemma push_stories_stands_for (acc : list JS.value)
    (fields : list (string * JS.value)) (l : list JS.value) :
  stands_for (JS.get "stories" fields) l ->
  Gateway.push_stories acc (JS.VObject fields) = Return (acc ++ l)%list.
Proof.
  intros [H|[H ->]]; unfold Gateway.push_stories, Gateway.read.
  - rewrite H. reflexivity.
  - rewrite H. now rewrite app_nil_r.
Qed.

Lemma forEach_epic_holds (epics : list JS.value) (ess : list (list JS.value))
    (acc : list JS.value) :
  Forall2 epic_holds epics ess ->
  Gateway.forEach_epic epics acc = Return (acc ++ concat ess)%list.
Proof.
  intros H. revert acc. induction H as [|epic es epics ess Hepic _ IH]; intros acc.
  - cbn. now rewrite app_nil_r.
  - destruct Hepic as (fields & -> & Hes). cbn [Gateway.forEach_epic concat].
    rewrite (push_stories_stands_for acc fields es Hes), IH.
    now rewrite app_assoc.
Qed.

(** X15.  On a structure response with a truthy [success] and a
    [data.project] object, [getProjectStories] returns the stories of the
    epics, epic after epic in the order of the response, followed by the
    stories of the project itself; an epic without stories, a project
    without epics and a project without stories of its own contribute
    nothing, and nothing is lost or reordered. *)
Theorem project_stories_are_flattened
    (projectId : JS.number) (sent : list Gateway.HttpCall) (r : Gateway.Response)
    (fields dfields pfields : list (string * JS.value))
    (epics : list JS.value) (ess : list (list JS.value)) (own : list JS.value) :
  let call := Gateway.HttpGet ("/claude-code/projects/"
                               ++ Gateway.show_number show projectId
                               ++ "/structure") in
  backend call = Gateway.Resolved r ->
  Gateway.data r = JS.VObject fields ->
  Gateway.truthy (JS.get "success" fields) = true ->
  JS.get "data" fields = JS.VObject dfields ->
  JS.get "project" dfields = JS.VObject pfields ->
  stands_for (JS.get "epics" pfields) epics ->
  Forall2 epic_holds epics ess ->
  stands_for (JS.get "stories" pfields) own ->
  Gateway.getProjectStories show engine backend projectId sent
    = (Return (concat ess ++ own)%list, (sent ++ [call])%list) /\
  length (concat ess ++ own) = (list_sum (map (@length JS.value) ess) + length own)%nat.
Proof.
  intros call Hback Hdata Hsuccess Hpayload Hproject Hepics Hess Hown.
  split.
  - unfold Gateway.getProjectStories, try_catch, bind, Gateway.send,
      Gateway.pure_step, ret, throw. fold call. rewrite Hback.
    unfold Gateway.body_of. rewrite Hdata. cbn [Gateway.read].
    rewrite Hsuccess, Hpayload. cbn [Gateway.truthy Gateway.read].
    rewrite Hproject. unfold Gateway.collect_stories. cbn [Gateway.read].
    destruct Hepics as [Hepics|[Hepics ->]]; rewrite Hepics.
    + cbn [Gateway.truthy]. rewrite (forEach_epic_holds epics ess [] Hess).
      cbn [app]. fold (Gateway.read (JS.VObject pfields) "stories").
      change (match Gateway.read (JS.VObject pfields) "stories" with
              | Return s => _
              | Throw f => Throw f
              end) with (Gateway.push_stories (concat ess) (JS.VObject pfields)).
      now rewrite (push_stories_stands_for (concat ess) pfields own Hown).
    + inversion Hess; subst. cbn [concat app].
      change (match Gateway.read (JS.VObject pfields) "stories" with
              | Return s => _
              | Throw f => Throw f
              end) with (Gateway.push_stories [] (JS.VObject pfields)).
      now rewrite (push_stories_stands_for [] pfields own Hown).
  - rewrite length_app. f_equal.
    clear. induction ess as [|es ess IH]; cbn; [reflexivity|].
    now rewrite length_app, IH.
Qed.

End GatewayBodies.

(** Two epics, of two stories and of none, and one story on the project. *)
Lemma project_stories_are_flattened_witness :
  let r := Gateway.mkResponse 200 "OK" (JS.VObject structure_body) in
  Gateway.getProjectStories decimal sample_engine (answering r) (JS.Finite 42) []
    = (Return [story_json 1; story_json 2; story_json 3],
       [Gateway.HttpGet "/claude-code/projects/42/structure"]).
Proof.
  cbv zeta.
  refine (proj1 (project_stories_are_flattened decimal sample_engine
            (answering (Gateway.mkResponse 200 "OK" (JS.VObject structure_body)))
            (JS.Finite 42) []
            (Gateway.mkResponse 200 "OK" (JS.VObject structure_body))
            structure_body
            [("project", JS.VObject structure_project)]
            structure_project
            [JS.VObject [("stories", JS.VArray [story_json 1; story_json 2])];
             JS.VObject [("name", JS.VString "Later")]]
            [[story_json 1; story_json 2]; []]
            [story_json 3]
            eq_refl eq_refl eq_refl eq_refl eq_refl _ _ _)).
  - left. reflexivity.
  - constructor; [|constructor; [|constructor]].
    + eexists. split; [reflexivity|]. left. reflexivity.
    + eexists. split; [reflexivity|]. right. split; reflexivity.
  - left. reflexivity.
Defined.

Section GatewayFailures.

Variable show : Q -> string.
Variable engine : Gateway.Fault -> string.
Variable backend : Gateway.HttpCall -> Gateway.AxiosResult.

(** X17.  [getStory] and [createStory] return the same story
    whether the backend sends it bare, under [story] or under [data] of an
    envelope with a truthy [success].  An envelope that holds neither
    yields [undefined], and not a failure; only a body that is [null] or
    missing makes the method fail. *)
Theorem story_is_unwrapped (body : JS.value) :
  (forall (fields : list (string * JS.value)) (story : JS.value),
      body = JS.VObject fields ->
      Gateway.truthy (JS.get "success" fields) = true ->
      Gateway.truthy story = true ->
      JS.get "story" fields = story \/
      (Gateway.truthy (JS.get "story" fields) = false /\
       JS.get "data" fields = story) ->
      Gateway.unwrap_story body = Return story) /\
  (forall fields : list (string * JS.value),
      body = JS.VObject fields ->
      Gateway.truthy (JS.get "success" fields) = true ->
      Gateway.truthy (JS.get "story" fields) = false ->
      JS.get "data" fields = JS.VUndefined ->
      Gateway.unwrap_story body = Return JS.VUndefined) /\
  (Gateway.truthy (Gateway.read_opt body "success") = false ->
   body <> JS.VUndefined -> body <> JS.VNull ->
   Gateway.unwrap_story body = Return body) /\
  (body = JS.VUndefined \/ body = JS.VNull ->
   Gateway.unwrap_story body = Throw (Gateway.ReadOf body "success")) /\
  (forall (storyId : Q) (data : CreateStoryData.t) (sent : list Gateway.HttpCall)
          (r1 r2 : Gateway.Response) (story : JS.value),
      backend (Gateway.HttpGet ("/stories/" ++ show storyId)) = Gateway.Resolved r1 ->
      backend (Gateway.HttpPost "/stories" (Gateway.StoryBody data))
        = Gateway.Resolved r2 ->
      Gateway.data r1 = body -> Gateway.data r2 = body ->
      Gateway.unwrap_story body = Return story ->
      fst (Gateway.getStory show engine backend storyId sent) = Return story /\
      fst (Gateway.createStory show engine backend data sent) = Return story).
Proof.
  split; [|split; [|split; [|split]]].
  - intros fields story -> Hs Hstory Hwhere.
    unfold Gateway.unwrap_story. cbn [Gateway.read Gateway.read_opt].
    rewrite Hs. unfold Gateway.or_value.
    destruct Hwhere as [<-|[Hno <-]].
    + now rewrite Hstory.
    + now rewrite Hno.
  - intros fields -> Hs Hno Hdata.
    unfold Gateway.unwrap_story. cbn [Gateway.read Gateway.read_opt].
    rewrite Hs. unfold Gateway.or_value. now rewrite Hno, Hdata.
  - intros Hs Hu Hn. unfold Gateway.unwrap_story.
    destruct body; try contradiction; cbn [Gateway.read Gateway.read_opt] in *;
      try reflexivity.
    now rewrite Hs.
  - intros [->| ->]; reflexivity.
  - intros storyId data sent r1 r2 story H1 H2 Hd1 Hd2 Hun.
    unfold Gateway.getStory, Gateway.createStory, try_catch, bind, Gateway.send,
      Gateway.pure_step, ret, throw.
    rewrite H1, H2. unfold Gateway.body_of. rewrite Hd1, Hd2, Hun.
    split; reflexivity.
Qed.

(** X18.  [updateStoryStatus] of the gateway takes an answered
    request for a success as soon as the status of the response is 200 or
    the [success] of the body is truthy: a 200 whose body says
    [success: false] is a success.  Otherwise it fails with the [message]
    of the body when that is a non-empty string, and with "Failed to update
    story status" when the body has none. *)
Theorem status_update_acceptance
    (storyId : Q) (status : JS.number) (sent : list Gateway.HttpCall)
    (r : Gateway.Response) (fields : list (string * JS.value)) :
  let call := Gateway.HttpPost ("/stories/" ++ show storyId ++ "/status")
                (Gateway.StatusBody status) in
  let failure (m : string) :=
    (Throw (A:=unit)
       (mkError ("Failed to update story " ++ show storyId ++ " status: " ++ m)),
     (sent ++ [call])%list) in
  let run := Gateway.updateStoryStatus show engine backend storyId status sent in
  backend call = Gateway.Resolved r ->
  Gateway.data r = JS.VObject fields ->
  (Gateway.status r = 200%Z \/ Gateway.truthy (JS.get "success" fields) = true ->
   run = (Return tt, (sent ++ [call])%list)) /\
  (Gateway.status r <> 200%Z ->
   Gateway.truthy (JS.get "success" fields) = false ->
   (forall m : string,
       JS.get "message" fields = JS.VString m -> m <> "" -> run = failure m) /\
   (Gateway.truthy (JS.get "message" fields) = false ->
    run = failure "Failed to update story status")).
Proof.
  intros call failure run Hback Hdata. subst run failure.
  unfold Gateway.updateStoryStatus, try_catch, bind, Gateway.send,
    Gateway.pure_step, ret, throw. fold call. rewrite Hback.
  unfold Gateway.body_of, Gateway.status_of. rewrite Hdata.
  cbn [Gateway.read Gateway.read_opt].
  split.
  - intros [H200|Hs].
    + rewrite H200. cbn. now rewrite andb_false_r.
    + rewrite Hs. reflexivity.
  - intros Hn200 Hs. rewrite Hs. apply Z.eqb_neq in Hn200. rewrite Hn200.
    cbn [negb andb]. unfold Gateway.new_Error, Gateway.or_value. split.
    + intros m Hm Hne. rewrite Hm. cbn [Gateway.truthy].
      destruct m; [contradiction|]. reflexivity.
    + intros Hno. rewrite Hno. reflexivity.
Qed.

(** X19.  When axios rejects the request, each method of the
    gateway fails with its own description followed by the message of the
    interceptor: a 404 on the project endpoint surfaces as "Failed to get
    project N: Resource not found.". *)
Theorem rejections_carry_both_descriptions
    (sent : list Gateway.HttpCall) (error : Gateway.AxiosError) :
  let reason := Gateway.message_of engine (Gateway.interceptor show error) in
  (forall projectId : JS.number,
      backend (Gateway.HttpGet ("/projects/" ++ Gateway.show_number show projectId))
        = Gateway.Rejected error ->
      fst (Gateway.getProject show engine backend projectId sent)
        = Throw (mkError ("Failed to get project "
                          ++ Gateway.show_number show projectId ++ ": " ++ reason))) /\
  (forall projectId : JS.number,
      backend (Gateway.HttpGet ("/claude-code/projects/"
                                ++ Gateway.show_number show projectId ++ "/structure"))
        = Gateway.Rejected error ->
      fst (Gateway.getProjectStories show engine backend projectId sent)
        = Throw (mkError ("Failed to get stories for project "
                          ++ Gateway.show_number show projectId ++ ": " ++ reason))) /\
  (forall data : CreateStoryData.t,
      backend (Gateway.HttpPost "/stories" (Gateway.StoryBody data))
        = Gateway.Rejected error ->
      fst (Gateway.createStory show engine backend data sent)
        = Throw (mkError ("Failed to create story: " ++ reason))) /\
  (forall storyId : Q,
      backend (Gateway.HttpGet ("/stories/" ++ show storyId))
        = Gateway.Rejected error ->
      fst (Gateway.getStory show engine backend storyId sent)
        = Throw (mkError ("Failed to get story " ++ show storyId ++ ": " ++ reason))) /\
  (forall (storyId : Q) (status : JS.number),
      backend (Gateway.HttpPost ("/stories/" ++ show storyId ++ "/status")
                 (Gateway.StatusBody status))
        = Gateway.Rejected error ->
      fst (Gateway.updateStoryStatus show engine backend storyId status sent)
        = Throw (mkError ("Failed to update story " ++ show storyId ++ " status: "
                          ++ reason))).
Proof.
  cbv zeta.
  repeat match goal with |- _ /\ _ => split end; intros;
    unfold Gateway.getProject, Gateway.getProjectStories, Gateway.createStory,
      Gateway.getStory, Gateway.updateStoryStatus, try_catch, bind, Gateway.send,
      Gateway.pure_step, ret, throw;
    rewrite H; reflexivity.
Qed.

End GatewayFailures.

(** A story sent under [data] of an envelope. *)
Lemma story_is_unwrapped_witness :
  Gateway.unwrap_story
    (JS.VObject [("success", JS.VBool true); ("data", story_json 7)])
  = Return (story_json 7).
Proof.
  refine (proj1 (story_is_unwrapped decimal sample_engine
            (answering (Gateway.mkResponse 200 "OK" JS.VNull))
            (JS.VObject [("success", JS.VBool true); ("data", story_json 7)]))
            [("success", JS.VBool true); ("data", story_json 7)] (story_json 7)
            eq_refl eq_refl eq_refl _).
  right. split; reflexivity.
Defined.

(** A 200 whose body says [success: false] counts as a success. *)
Lemma status_update_acceptance_witness :
  let r := Gateway.mkResponse 200 "OK" (JS.VObject [("success", JS.VBool false)]) in
  Gateway.updateStoryStatus decimal sample_engine (answering r) 7 (JS.Finite 3) []
    = (Return tt,
       [Gateway.HttpPost "/stories/7/status" (Gateway.StatusBody (JS.Finite 3))]).
Proof.
  cbv zeta.
  refine (proj1 (status_update_acceptance decimal sample_engine
            (answering (Gateway.mkResponse 200 "OK"
                          (JS.VObject [("success", JS.VBool false)])))
            7 (JS.Finite 3) []
            (Gateway.mkResponse 200 "OK" (JS.VObject [("success", JS.VBool false)]))
            [("success", JS.VBool false)] eq_refl eq_refl) _).
  left. reflexivity.
Defined.

(** Story 7 on a backend that answers 404. *)
Lemma rejections_carry_both_descriptions_witness :
  fst (Gateway.getStory decimal sample_engine
         (rejecting (answered_with 404 "Not Found" JS.VNull)) 7 [])
  = Throw (mkError "Failed to get story 7: Resource not found.").
Proof.
  exact (proj1 (proj2 (proj2 (proj2
           (rejections_carry_both_descriptions decimal sample_engine
              (rejecting (answered_with 404 "Not Found" JS.VNull)) []
              (answered_with 404 "Not Found" JS.VNull))))) 7 eq_refl).
Defined.

(* ================================================================== *)
(** ** Properties of the handlers at run time *)

(** *** The handlers on answers of the declared types *)

Section DeclaredTypes.

Variable show : Q -> string.
Variable engine : Runtime.TypeError -> string.
Variable inherited_text : string -> string.
Variable toLocaleDateString : JS.value -> string.
Variable zod_message : list Zod.ZodIssue -> string.
Variable api : SoftYPMClient.t.

Ltac step :=
  cbn -[append Runtime.project_json Runtime.story_json firstn Nat.ltb Nat.eqb
       length JS.slice0 Runtime.map_text Runtime.filter].

Lemma typed_status (s : StatusField) :
  Runtime.status_of (Runtime.status_json s) = Runtime.Num (status_number s).
Proof. destruct s; reflexivity. Qed.

Lemma typed_story_status (s : Story.t) :
  Runtime.read (Runtime.story_json s) "status"
  = Return (Runtime.status_json (Story.status s)).
Proof.
  destruct s as [id name description status estimate epic project created updated].
  destruct description; reflexivity.
Qed.

Lemma typed_story_id (s : Story.t) :
  Runtime.interpolate show (Runtime.story_json s) "id" = Return (show (Story.id s)).
Proof. reflexivity. Qed.

Lemma typed_story_name (s : Story.t) :
  Runtime.interpolate show (Runtime.story_json s) "name" = Return (Story.name s).
Proof. reflexivity. Qed.

Lemma typed_story_estimate (s : Story.t) :
  Runtime.read (Runtime.story_json s) "estimate"
  = Return (match Story.estimate s with
            | Some e => JS.VNumber e
            | None => JS.VUndefined
            end).
Proof.
  destruct s as [id name description status estimate epic project created updated].
  destruct description, estimate, epic, created, updated; reflexivity.
Qed.

Lemma typed_story_estimate_or (s : Story.t) (alt : string) :
  Runtime.interpolate_or show (Runtime.story_json s) "estimate" (JS.VString alt)
  = Return (show_or show (Story.estimate s) alt).
Proof.
  unfold Runtime.interpolate_or. rewrite typed_story_estimate.
  destruct (Story.estimate s) as [e|]; cbn; [|reflexivity].
  unfold Gateway.or_value, Runtime.text_of. cbn.
  destruct (JS.truthy_Q e); reflexivity.
Qed.

Lemma typed_story_description (s : Story.t) (alt : string) :
  Runtime.interpolate_or show (Runtime.story_json s) "description" (JS.VString alt)
  = Return (string_or (Story.description s) alt).
Proof.
  destruct s as [id name description status estimate epic project created updated].
  destruct description as [d|], estimate, epic, created, updated; cbn;
    try reflexivity;
    unfold Runtime.interpolate_or, Gateway.or_value, Runtime.text_of; cbn;
    destruct d; reflexivity.
Qed.

Lemma typed_story_created (s : Story.t) :
  Runtime.and_then (Runtime.read (Runtime.story_json s) "created_at")
    (Runtime.created_text show toLocaleDateString)
  = Return (match Story.created_at s with
            | Some created => if JS.truthy_string created
                              then toLocaleDateString (JS.VString created)
                              else "Unknown"
            | None => "Unknown"
            end).
Proof.
  destruct s as [id name description status estimate epic project created updated].
  destruct description, estimate, epic, created as [c|], updated; cbn;
    try reflexivity; unfold Runtime.created_text; cbn; destruct c; reflexivity.
Qed.

Lemma typed_member {T : Type} (a b c : T) (n : JS.number) :
  Runtime.member show a b c (Runtime.Num n)
  = Return (match lookup135 a b c n with
            | Some x => Runtime.Own x
            | None => Runtime.Missing
            end).
Proof. reflexivity. Qed.

(** get_story. *)
Lemma getStory_typed (args : JS.value) (st : State) :
  Runtime.getStory show engine inherited_text toLocaleDateString (Runtime.typed api)
    args st
  = Dispatcher.getStory show (fun s => toLocaleDateString (JS.VString s)) api args st.
Proof.
  unfold Runtime.getStory, Dispatcher.getStory, bind, try_catch, parse,
    Runtime.await, await, Runtime.eval, ret, throw.
  destruct (Dispatcher.GetStorySchema args) as [id|issues]; [|reflexivity].
  step.
  destruct (getStory api id) as [story|e]; step;
    [|reflexivity].
  rewrite typed_story_status. step.
  rewrite typed_status, typed_story_id, typed_story_name, typed_story_description.
  step.
  rewrite typed_story_estimate_or, typed_story_created.
  step.
  unfold Dispatcher.story_text, Runtime.story_text, statusNames.
  destruct (lookup135 _ _ _ (status_number (Story.status story))) as [label|];
    cbn -[append]; [destruct (JS.truthy_string label)|]; reflexivity.
Qed.


Lemma typed_project_name (p : Project.t) :
  Runtime.interpolate show (Runtime.project_json p) "name" = Return (Project.name p).
Proof. reflexivity. Qed.

Lemma typed_project_progress (p : Project.t) :
  Runtime.interpolate_or show (Runtime.project_json p) "progress_percentage"
    (JS.VNumber 0)
  = Return (show_or_zero show (Project.progress_percentage p)).
Proof.
  destruct p as [id name description client progress].
  destruct description, client, progress as [q|]; cbn; try reflexivity;
    unfold Runtime.interpolate_or, Gateway.or_value, Runtime.text_of; cbn;
    destruct (JS.truthy_Q q); reflexivity.
Qed.

(** set_project_context. *)
Lemma setProjectContext_typed (args : JS.value) (st : State) :
  Runtime.setProjectContext show engine (Runtime.typed api) args st
  = setProjectContext show api args st.
Proof.
  unfold Runtime.setProjectContext, setProjectContext, bind, try_catch, parse,
    Runtime.await, await, Runtime.eval, Runtime.set_currentProjectId,
    set_currentProjectId, ret, throw.
  destruct (SetProjectContextSchema args) as [id|issues]; [|reflexivity].
  step.
  destruct (getProject api (JS.Finite id)) as [project|e];
    step; [|reflexivity].
  rewrite typed_project_name. step.
  rewrite typed_project_progress. reflexivity.
Qed.

Lemma typed_has_status (n : Q) (s : Story.t) :
  Runtime.has_status n (Runtime.story_json s) = Return (has_status n s).
Proof.
  unfold Runtime.has_status. rewrite typed_story_status. cbn [Runtime.and_then].
  now rewrite typed_status.
Qed.

Lemma typed_status_is (t : JS.number) (s : Story.t) :
  Runtime.status_is t (Runtime.story_json s)
  = Return (JS.strict_eq (status_number (Story.status s)) t).
Proof.
  unfold Runtime.status_is. rewrite typed_story_status. cbn [Runtime.and_then].
  now rewrite typed_status.
Qed.

Lemma typed_filter (keep : JS.value -> outcome Runtime.TypeError bool)
    (keep' : Story.t -> bool) (stories : list Story.t) :
  (forall s, keep (Runtime.story_json s) = Return (keep' s)) ->
  Runtime.filter keep (map Runtime.story_json stories)
  = Return (map Runtime.story_json (List.filter keep' stories)).
Proof.
  intros Hkeep. induction stories as [|s rest IH]; [reflexivity|].
  cbn [map Runtime.filter List.filter]. rewrite Hkeep. cbn [Runtime.and_then].
  rewrite IH. cbn [Runtime.and_then]. destruct (keep' s); reflexivity.
Qed.

Lemma typed_map_text (line : JS.value -> outcome Runtime.TypeError string)
    (line' : Story.t -> string) (stories : list Story.t) :
  (forall s, line (Runtime.story_json s) = Return (line' s)) ->
  Runtime.map_text line (map Runtime.story_json stories)
  = Return (map line' stories).
Proof.
  intros Hline. induction stories as [|s rest IH]; [reflexivity|].
  cbn [map Runtime.map_text]. rewrite Hline. cbn [Runtime.and_then].
  rewrite IH. reflexivity.
Qed.

Lemma typed_next_in_progress (s : Story.t) :
  Runtime.next_in_progress show (Runtime.story_json s)
  = Return (next_in_progress show s).
Proof.
  unfold Runtime.next_in_progress.
  rewrite typed_story_id. cbn [Runtime.and_then].
  rewrite typed_story_name. cbn [Runtime.and_then].
  rewrite typed_story_estimate_or. reflexivity.
Qed.

Lemma typed_next_backlog (s : Story.t) :
  Runtime.next_backlog show (Runtime.story_json s) = Return (next_backlog show s).
Proof.
  unfold Runtime.next_backlog.
  rewrite typed_story_id. cbn [Runtime.and_then].
  rewrite typed_story_name. cbn [Runtime.and_then].
  rewrite typed_story_estimate_or. reflexivity.
Qed.

(** get_project_info. *)
Lemma getProjectInfo_typed (args : JS.value) (st : State) :
  Runtime.getProjectInfo show engine (Runtime.typed api) args st
  = getProjectInfo show api args st.
Proof.
  unfold Runtime.getProjectInfo, getProjectInfo, bind, try_catch, parse,
    Runtime.await, await, Runtime.eval, get_state, ret, throw.
  destruct (GetProjectSchema args) as [p|issues]; [|reflexivity].
  step.
  destruct (truthy_id _) as [pid|]; [|reflexivity].
  step.
  destruct (getProject api pid) as [project|e];
    step; [|reflexivity].
  destruct (getProjectStories api pid) as [stories|e];
    step; [|reflexivity].
  rewrite !(typed_filter _ _ stories (typed_has_status _)).
  step.
  rewrite typed_project_name.
  step.
  rewrite typed_project_progress.
  step.
  unfold JS.slice0. rewrite !length_map, !firstn_map.
  rewrite (typed_map_text _ _ _ typed_next_in_progress),
    (typed_map_text _ _ _ typed_next_backlog).
  unfold project_info_text, Runtime.project_info_text, JS.slice0.
  destruct (Nat.ltb 0 _); reflexivity.
Qed.

(** create_story. *)
Lemma createStory_typed (args : JS.value) (st : State) :
  Runtime.createStory show engine (Runtime.typed api) args st
  = createStory show api args st.
Proof.
  unfold Runtime.createStory, createStory, bind, try_catch, parse,
    Runtime.await, await, Runtime.eval, get_state, ret, throw.
  destruct (CreateStorySchema args) as [a|issues]; [|reflexivity].
  step.
  destruct (truthy_id _) as [pid|]; [|reflexivity].
  destruct (too_large _); [reflexivity|].
  step.
  destruct (SoftYPMClient.createStory api _) as [story|e];
    step; [|reflexivity].
  rewrite typed_story_id. step.
  rewrite typed_story_name. reflexivity.
Qed.

Lemma typed_rows {A B : Type} (a1 a3 a5 : A) (b1 b3 b5 : B) (n : JS.number) :
  match lookup135 a1 a3 a5 n, lookup135 b1 b3 b5 n with
  | Some _, Some _ | None, None => True
  | _, _ => False
  end.
Proof.
  destruct n as [q| |neg]; cbn; [|exact I..].
  destruct (Qeq_bool q 1); [exact I|].
  destruct (Qeq_bool q 3); [exact I|].
  destruct (Qeq_bool q 5); exact I.
Qed.

(** update_story_status. *)
Lemma updateStoryStatus_typed (args : JS.value) (st : State) :
  Runtime.updateStoryStatus show engine inherited_text (Runtime.typed api) args st
  = updateStoryStatus show api args st.
Proof.
  unfold Runtime.updateStoryStatus, updateStoryStatus, bind, try_catch, parse,
    Runtime.await, await, Runtime.eval, ret, throw.
  destruct (UpdateStoryStatusSchema args) as [a|issues]; [|reflexivity].
  step.
  destruct (getStory api (us_story_id a)) as [story|e];
    step; [|reflexivity].
  rewrite typed_story_status. step.
  rewrite typed_status. unfold Runtime.validTransitions, Runtime.statusNames.
  step.
  unfold transition_allowed, validTransitions.
  pose proof (typed_rows [JS.Finite 3] [JS.Finite 5; JS.Finite 1]
                [JS.Finite 1; JS.Finite 3] "Backlog" "In Progress" "Done"
                (status_number (Story.status story))) as Hrows.
  destruct (lookup135 [JS.Finite 3] _ _ (status_number (Story.status story)))
    as [targets|] eqn:Hrow;
    destruct (lookup135 "Backlog" _ _ (status_number (Story.status story)))
      as [label|] eqn:Hlabel; try contradiction;
    step.
  - destruct (JS.includes targets _); step.
    + destruct (SoftYPMClient.updateStoryStatus api _ _) as [[]|e];
        step; [|reflexivity].
      rewrite typed_story_name. step.
      unfold story_updated_text, Runtime.story_updated_text, statusNames.
      rewrite Hlabel. reflexivity.
    + unfold invalid_transition_text, Runtime.invalid_transition_text,
        valid_next_steps, Runtime.valid_next_steps, statusNames, validTransitions.
      rewrite Hlabel, Hrow. reflexivity.
  - unfold invalid_transition_text, Runtime.invalid_transition_text,
      valid_next_steps, Runtime.valid_next_steps, statusNames, validTransitions.
    rewrite Hlabel, Hrow. reflexivity.
Qed.

Lemma typed_story_line (s : Story.t) :
  Runtime.story_line show inherited_text (Runtime.story_json s)
  = Return (story_line show s).
Proof.
  unfold Runtime.story_line. rewrite typed_story_status. cbn [Runtime.and_then].
  rewrite typed_status, typed_story_id. cbn [Runtime.and_then].
  rewrite typed_story_name. cbn [Runtime.and_then].
  unfold Runtime.statusNames. rewrite typed_member. cbn [Runtime.and_then].
  rewrite typed_story_estimate. cbn [Runtime.and_then].
  unfold story_line, statusNames.
  destruct (lookup135 _ _ _ (status_number (Story.status s))) as [label|];
    destruct (Story.estimate s) as [e|]; cbn -[append]; try reflexivity;
    destruct (JS.truthy_Q e); reflexivity.
Qed.

(** list_my_stories. *)
Lemma listStories_typed (args : JS.value) (st : State) :
  Runtime.listStories show engine inherited_text (Runtime.typed api) args st
  = listStories show api args st.
Proof.
  unfold Runtime.listStories, listStories, bind, try_catch, parse,
    Runtime.await, await, Runtime.eval, get_state, ret, throw.
  destruct (ListStoriesSchema args) as [a|issues]; [|reflexivity].
  step.
  destruct (truthy_id _) as [pid|]; [|reflexivity].
  step.
  destruct (getProjectStories api pid) as [stories|e];
    step; [|reflexivity].
  assert (Hkept : Runtime.filteredStories (ls_status a)
                    (map Runtime.story_json stories)
                  = Return (map Runtime.story_json
                              (filteredStories (ls_status a) stories))).
  { unfold Runtime.filteredStories, filteredStories.
    destruct (ls_status a) as [status|]; [|reflexivity].
    destruct (filter_given (Some status)); [|reflexivity].
    apply typed_filter. intros s. apply typed_status_is. }
  rewrite Hkept. step.
  rewrite length_map.
  destruct (Nat.eqb _ 0); [reflexivity|].
  unfold JS.slice0. rewrite firstn_map.
  rewrite (typed_map_text _ _ _ typed_story_line).
  reflexivity.
Qed.

(** The switch: on answers of the declared types the handlers at run time
    are the handlers of [SoftYPMServer] and [Dispatcher]. *)
Lemma callTool_typed (name : string) (args : JS.value) (st : State) :
  Runtime.callTool show engine inherited_text toLocaleDateString zod_message
    (Runtime.typed api) name args st
  = Dispatcher.callTool show (fun s => toLocaleDateString (JS.VString s))
      zod_message api name args st.
Proof.
  unfold Runtime.callTool, Dispatcher.callTool, try_catch.
  destruct (String.eqb name "set_project_context");
    [now rewrite setProjectContext_typed|].
  destruct (String.eqb name "get_project_info");
    [now rewrite getProjectInfo_typed|].
  destruct (String.eqb name "create_story"); [now rewrite createStory_typed|].
  destruct (String.eqb name "update_story_status");
    [now rewrite updateStoryStatus_typed|].
  destruct (String.eqb name "get_story"); [now rewrite getStory_typed|].
  destruct (String.eqb name "list_my_stories"); [now rewrite listStories_typed|].
  reflexivity.
Qed.

End DeclaredTypes.

(** *** update_story_status at run time *)

(** What the schema makes of the arguments of a request. *)
Lemma update_request_valid (fields : list (string * JS.value)) (id : Q)
    (requested : JS.value) (t : JS.number) :
  update_request fields id requested ->
  requested_status requested t ->
  exists a : UpdateStoryStatusArgs,
    UpdateStoryStatusSchema (JS.VObject fields) = Zod.Valid a /\
    us_story_id a = id /\ target_number (us_status a) = t.
Proof.
  intros (Hid & Hpos & Hstatus & Hnotes) Hreq.
  unfold UpdateStoryStatusSchema, Zod.object, Zod.field.
  rewrite Hid, Hstatus. unfold Zod.refine, Zod.number at 1.
  assert (Hp : Zod.is_positive id = true).
  { unfold Zod.is_positive, JS.gt. apply negb_true_iff.
    destruct (Qle_bool id 0) eqn:E; [|reflexivity].
    apply Qle_bool_iff in E. exfalso. apply (Qlt_not_le _ _ Hpos E). }
  rewrite Hp.
  assert (Hn : exists notes, Zod.optional Zod.string_ (JS.get "notes" fields)
                             = Zod.Valid notes).
  { destruct Hnotes as [-> | [n ->]]; eexists; reflexivity. }
  destruct Hn as [notes ->].
  destruct Hreq as [[-> ->] | [[-> ->] | [[-> ->] | (q & -> & Hlo & Hhi & ->)]]];
    try (eexists; split; [reflexivity|]; split; reflexivity).
  unfold Zod.or, Zod.enum, Zod.refine2, Zod.number, Zod.at_least, Zod.at_most.
  apply Qle_bool_iff in Hlo, Hhi. rewrite Hlo, Hhi. cbn.
  eexists. split; [reflexivity|]. split; reflexivity.
Qed.

(** The label of a status, as [statusNames] gives it. *)
Lemma label_of_status_names (t : JS.number) :
  label_of_status t (or_undefined (statusNames t)).
Proof.
  unfold label_of_status, workflow_status, statusNames, lookup135.
  destruct t as [q| |neg]; simpl; [|tauto..].
  destruct (Qeq_bool q 1) eqn:E1; [|destruct (Qeq_bool q 3) eqn:E3;
    [|destruct (Qeq_bool q 5) eqn:E5]]; q_facts; cbn [or_undefined]; tauto.
Qed.

Section RuntimeWorkflow.

Variable show : Q -> string.
Variable engine : Runtime.TypeError -> string.
Variable inherited_text : string -> string.
Variable api : Runtime.Client.t.

Lemma fetched_status_read (story : JS.value) (s : JS.number) :
  fetched_status story s ->
  exists status : JS.value,
    Runtime.read story "status" = Return status /\
    Runtime.status_of status = Runtime.Num s.
Proof.
  intros (fields & -> & [(q & Hq & ->) | (str & Hstr & ->)]);
    eexists; (split; [reflexivity|]); cbn; [rewrite Hq | rewrite Hstr]; reflexivity.
Qed.

(** What [updateStoryStatus] does once the arguments are valid and the
    fetched story carries a number or a string as its status. *)
Lemma updateStoryStatus_number (args : JS.value) (a : UpdateStoryStatusArgs)
    (story : JS.value) (s : JS.number) (st : State) :
  UpdateStoryStatusSchema args = Zod.Valid a ->
  Runtime.Client.getStory api (us_story_id a) = Return story ->
  fetched_status story s ->
  let id := us_story_id a in
  let t := target_number (us_status a) in
  Runtime.updateStoryStatus show engine inherited_text api args st =
    if transition_allowed s t
    then (match Runtime.Client.updateStoryStatus api id t with
          | Return _ =>
              match Runtime.interpolate show story "name" with
              | Return name =>
                  Return (text_response
                            (Runtime.story_updated_text show id name
                               (or_undefined (statusNames s)) t (us_notes a)))
              | Throw f =>
                  Throw (McpError InternalError
                           ("Failed to update story status: " ++ engine f))
              end
          | Throw e =>
              Throw (McpError InternalError
                       ("Failed to update story status: " ++ message e))
          end,
          mkState (currentProjectId st)
                  (calls st ++ [GetStory id; UpdateStoryStatus id t])%list)
    else (Return (text_response
                    (Runtime.invalid_transition_text
                       (or_undefined (statusNames s))
                       (or_undefined (statusNames t))
                       (valid_next_steps s))),
          mkState (currentProjectId st) (calls st ++ [GetStory id])%list).
Proof.
  intros Hargs Hstory Hs. cbv zeta.
  destruct (fetched_status_read story s Hs) as (status & Hread & Hnum).
  unfold Runtime.updateStoryStatus, bind, try_catch, parse, Runtime.await,
    Runtime.eval, ret, throw.
  rewrite Hargs. cbn [calls currentProjectId fst snd]. rewrite Hstory, Hread.
  cbn [calls currentProjectId fst snd]. rewrite Hnum.
  unfold Runtime.validTransitions, Runtime.statusNames, Runtime.member.
  unfold transition_allowed, validTransitions, valid_next_steps, statusNames,
    validTransitions.
  pose proof (typed_rows [JS.Finite 3] [JS.Finite 5; JS.Finite 1]
                [JS.Finite 1; JS.Finite 3] "Backlog" "In Progress" "Done" s)
    as Hrows.
  destruct (lookup135 [JS.Finite 3] _ _ s) as [targets|] eqn:Hrow;
    destruct (lookup135 "Backlog" _ _ s) as [label|] eqn:Hlabel;
    try contradiction; cbn -[append].
  - destruct (JS.includes targets _); cbn -[append].
    + destruct (Runtime.Client.updateStoryStatus api _ _) as [[]|e];
        cbn -[append]; [|rewrite <- app_assoc; reflexivity].
      destruct (Runtime.interpolate show story "name"); cbn -[append];
        rewrite <- app_assoc; reflexivity.
    + reflexivity.
  - reflexivity.
Qed.

(** The warning names the move that was refused, the current status and
    the statuses the table allows next. *)
Lemma warning_describes (current target next : string) :
  contains (Runtime.invalid_transition_text current target next)
    ("Cannot move story from " ++ dq ++ current ++ dq ++ " to " ++ dq
     ++ target ++ dq) /\
  ends_with (Runtime.invalid_transition_text current target next)
    ("Current status: " ++ current ++ nl ++ "Valid next steps: " ++ next).
Proof.
  unfold Runtime.invalid_transition_text. split.
  - match goal with
    | |- contains (?a ++ ?rest) _ =>
        destruct (ends_withb_sound a "Cannot move story from " eq_refl) as [pre Hpre];
          rewrite Hpre
    end.
    exists pre.
    eexists. rewrite !append_assoc. reflexivity.
  - do 8 apply ends_with_append.
    match goal with
    | |- ends_with (?a ++ ?rest) _ =>
        destruct (ends_withb_sound a "Current status: " eq_refl) as [pre Hpre];
          rewrite Hpre
    end.
    exists pre. rewrite !append_assoc. reflexivity.
Qed.

(** C1.  For a request of [update_story_status] that asks for the status
    [t] (as one of the strings '1', '3', '5' or as a number), on a story
    the backend reports at status [s] equal to 1, 3 or 5: the handler
    fetches the story and then writes [t] if (s, t) is one of (1,3), (3,5),
    (3,1), (5,1), (5,3), and only then.  For every other pair the fetch is
    the only call, and the handler returns, without raising, the warning
    that describes the refused move, the current status and the allowed
    next statuses. *)
Theorem update_status_writes_iff_listed
    (fields : list (string * JS.value)) (id : Q) (requested : JS.value)
    (s t : JS.number) (story : JS.value) (ctx : option JS.number) :
  update_request fields id requested ->
  requested_status requested t ->
  Runtime.Client.getStory api id = Return story ->
  fetched_status story s ->
  workflow_status s ->
  let run := Runtime.updateStoryStatus show engine inherited_text api
               (JS.VObject fields) (session ctx) in
  (listed_transition s t ->
   calls (snd run) = [GetStory id; UpdateStoryStatus id t]) /\
  (writes (calls (snd run)) = [UpdateStoryStatus id t] <-> listed_transition s t) /\
  (~ listed_transition s t ->
     calls (snd run) = [GetStory id] /\
     exists warning current target next : string,
       fst run = Return (text_response warning) /\
       ((num_is s 1 /\ current = "Backlog" /\ next = "In Progress") \/
        (num_is s 3 /\ current = "In Progress" /\ next = "Done, Backlog") \/
        (num_is s 5 /\ current = "Done" /\ next = "Backlog, In Progress")) /\
       label_of_status t target /\
       contains warning
         ("Cannot move story from " ++ dq ++ current ++ dq ++ " to " ++ dq
          ++ target ++ dq) /\
       ends_with warning
         ("Current status: " ++ current ++ nl ++ "Valid next steps: " ++ next)).
Proof.
  intros Hreq Ht Hstory Hfetched Hs run.
  destruct (update_request_valid fields id requested t Hreq Ht)
    as (a & Hargs & Hid & Htarget).
  rewrite <- Hid in Hstory.
  assert (Hrun := updateStoryStatus_number (JS.VObject fields) a story s
                    (session ctx) Hargs Hstory Hfetched).
  cbv zeta in Hrun. rewrite Hid, Htarget in Hrun. subst run. rewrite Hrun.
  clear Hrun.
  destruct (transition_allowed s t) eqn:Hguard.
  - apply transition_allowed_listed in Hguard as Hlisted.
    split; [intros _; reflexivity|].
    split; [split; [intros _; exact Hlisted | intros _; reflexivity]|].
    intros Hno. contradiction.
  - apply transition_refused_unlisted in Hguard as Hno.
    split; [intros H; contradiction|].
    split; [split; [discriminate | intros H; contradiction]|].
    intros _. split; [reflexivity|].
    destruct Hs as [H1|[H3|H5]].
    + assert (Hn : statusNames s = Some "Backlog") by now apply lookup135_1.
      assert (Hv : valid_next_steps s = "In Progress").
      { unfold valid_next_steps, validTransitions.
        now rewrite (lookup135_1 _ _ _ s H1). }
      rewrite Hn, Hv. cbn [or_undefined fst].
      eexists. exists "Backlog", (or_undefined (statusNames t)), "In Progress".
      split; [reflexivity|]. split; [left; auto|].
      split; [apply label_of_status_names|]. apply warning_describes.
    + assert (Hn : statusNames s = Some "In Progress") by now apply lookup135_3.
      assert (Hv : valid_next_steps s = "Done, Backlog").
      { unfold valid_next_steps, validTransitions.
        now rewrite (lookup135_3 _ _ _ s H3). }
      rewrite Hn, Hv. cbn [or_undefined fst].
      eexists. exists "In Progress", (or_undefined (statusNames t)), "Done, Backlog".
      split; [reflexivity|]. split; [right; left; auto|].
      split; [apply label_of_status_names|]. apply warning_describes.
    + assert (Hn : statusNames s = Some "Done") by now apply lookup135_5.
      assert (Hv : valid_next_steps s = "Backlog, In Progress").
      { unfold valid_next_steps, validTransitions.
        now rewrite (lookup135_5 _ _ _ s H5). }
      rewrite Hn, Hv. cbn [or_undefined fst].
      eexists. exists "Done", (or_undefined (statusNames t)), "Backlog, In Progress".
      split; [reflexivity|]. split; [right; right; auto|].
      split; [apply label_of_status_names|]. apply warning_describes.
Qed.


End RuntimeWorkflow.

(** A story in the backlog: asked to move to In Progress it is fetched and
    written; asked to jump to Done it is fetched and refused. *)
Lemma update_status_writes_iff_listed_witness :
  let api := Runtime.typed (sample_backend (StatusNumber 1)) in
  let run (status : string) :=
    Runtime.updateStoryStatus decimal sample_type_error sample_inherited api
      (JS.VObject (update_fields (JS.VString status))) (session None) in
  requested_status (JS.VString "3") (JS.Finite 3) /\
  fetched_status (Runtime.story_json (sample_story 7 (StatusNumber 1)))
    (JS.Finite 1) /\
  listed_transition (JS.Finite 1) (JS.Finite 3) /\
  calls (snd (run "3")) = [GetStory 7; UpdateStoryStatus 7 (JS.Finite 3)] /\
  writes (calls (snd (run "3"))) = [UpdateStoryStatus 7 (JS.Finite 3)] /\
  ~ listed_transition (JS.Finite 1) (JS.Finite 5) /\
  calls (snd (run "5")) = [GetStory 7].
Proof.
  cbv zeta.
  assert (Hargs : forall status : JS.value,
             update_request (update_fields status) 7 status).
  { intros status. split; [reflexivity|]. split; [reflexivity|].
    split; [reflexivity|]. left. reflexivity. }
  assert (H3 : requested_status (JS.VString "3") (JS.Finite 3)).
  { right. left. split; reflexivity. }
  assert (H5 : requested_status (JS.VString "5") (JS.Finite 5)).
  { right. right. left. split; reflexivity. }
  assert (Hstory : fetched_status
                     (Runtime.story_json (sample_story 7 (StatusNumber 1)))
                     (JS.Finite 1)).
  { eexists. split; [reflexivity|]. left. exists 1. split; reflexivity. }
  assert (Hs : workflow_status (JS.Finite 1)) by (left; reflexivity).
  assert (Hyes : listed_transition (JS.Finite 1) (JS.Finite 3)).
  { left. split; reflexivity. }
  assert (Hno : ~ listed_transition (JS.Finite 1) (JS.Finite 5)).
  { unfold listed_transition, num_is. vm_compute. intuition discriminate. }
  split; [exact H3|]. split; [exact Hstory|]. split; [exact Hyes|].
  split; [|split; [|split; [exact Hno|]]].
  - exact (proj1 (update_status_writes_iff_listed decimal sample_type_error
                    sample_inherited
                    (Runtime.typed (sample_backend (StatusNumber 1)))
                    (update_fields (JS.VString "3")) 7 (JS.VString "3")
                    (JS.Finite 1) (JS.Finite 3)
                    (Runtime.story_json (sample_story 7 (StatusNumber 1))) None
                    (Hargs _) H3 eq_refl Hstory Hs) Hyes).
  - exact (proj2 (proj1 (proj2 (update_status_writes_iff_listed decimal
                    sample_type_error sample_inherited
                    (Runtime.typed (sample_backend (StatusNumber 1)))
                    (update_fields (JS.VString "3")) 7 (JS.VString "3")
                    (JS.Finite 1) (JS.Finite 3)
                    (Runtime.story_json (sample_story 7 (StatusNumber 1))) None
                    (Hargs _) H3 eq_refl Hstory Hs))) Hyes).
  - exact (proj1 (proj2 (proj2 (update_status_writes_iff_listed decimal
                    sample_type_error sample_inherited
                    (Runtime.typed (sample_backend (StatusNumber 1)))
                    (update_fields (JS.VString "5")) 7 (JS.VString "5")
                    (JS.Finite 1) (JS.Finite 5)
                    (Runtime.story_json (sample_story 7 (StatusNumber 1))) None
                    (Hargs _) H5 eq_refl Hstory Hs)) Hno)).
Defined.



(** *** The arguments, property by property *)

Lemma optional_number_property (v : JS.value) (r : option Q) :
  Zod.optional Zod.number v = Zod.Valid r ->
  r = number_property v /\
  (v = JS.VUndefined \/ exists q : Q, v = JS.VNumber q).
Proof.
  destruct v; cbn; intros H; inversion H; try discriminate; subst;
    (split; [reflexivity|]); eauto.
Qed.

Lemma optional_string_property (v : JS.value) (r : option string) :
  Zod.optional Zod.string_ v = Zod.Valid r ->
  r = string_property v.
Proof.
  destruct v; cbn; intros H; inversion H; try discriminate; reflexivity.
Qed.

Lemma create_arguments (fields : list (string * JS.value)) (a : CreateStoryArgs) :
  CreateStorySchema (JS.VObject fields) = Zod.Valid a ->
  JS.get "name" fields = JS.VString (cs_name a) /\
  cs_description a = string_property (JS.get "description" fields) /\
  cs_estimate a = number_property (JS.get "estimate" fields) /\
  cs_epic_id a = number_property (JS.get "epic_id" fields) /\
  cs_project_id a = number_property (JS.get "project_id" fields) /\
  (JS.get "project_id" fields = JS.VUndefined \/
   exists q : Q, JS.get "project_id" fields = JS.VNumber q) /\
  (forall e : Q, cs_estimate a = Some e -> 0 < e /\ e <= 8).
Proof.
  unfold CreateStorySchema, Zod.object. intros H.
  apply ap_valid in H as (g1 & project & H & Hproject & ->).
  apply ap_valid in H as (g2 & epic & H & Hepic & ->).
  apply ap_valid in H as (g3 & estimate & H & Hestimate & ->).
  apply ap_valid in H as (g4 & description & H & Hdescription & ->).
  apply ap_valid in H as (g5 & name & H & Hname & ->).
  inversion H; subst g5. cbn.
  apply field_valid in Hproject, Hepic, Hestimate, Hdescription, Hname.
  apply optional_number_property in Hproject as [-> Hp].
  apply optional_number_property in Hepic as [-> _].
  apply optional_string_property in Hdescription as ->.
  assert (He : estimate = number_property (JS.get "estimate" fields) /\
               forall e : Q, estimate = Some e -> 0 < e /\ e <= 8).
  { unfold Zod.optional, Zod.refine2, Zod.number in Hestimate.
    destruct (JS.get "estimate" fields); try discriminate;
      try (inversion Hestimate; split; [reflexivity | discriminate]).
    destruct (Zod.is_positive q) eqn:Hq;
      [|destruct (Zod.at_most 8 q); discriminate].
    destruct (Zod.at_most 8 q) eqn:Hm; [|discriminate].
    inversion Hestimate. split; [reflexivity|].
    intros e E; inversion E; subst e.
    unfold Zod.is_positive, JS.gt in Hq. apply negb_true_iff in Hq.
    split; [|now apply Qle_bool_iff].
    destruct (Qlt_le_dec 0 q) as [Hlt|Hle];
      [assumption | apply Qle_bool_iff in Hle; congruence]. }
  destruct He as [He Hbound].
  split.
  { unfold Zod.min_length, Zod.refine, Zod.string_ in Hname.
    destruct (JS.get "name" fields); try discriminate.
    destruct (Nat.leb 1 (String.length s)); [|discriminate].
    now inversion Hname. }
  split; [reflexivity|]. split; [exact He|]. split; [reflexivity|].
  split; [reflexivity|]. split; [exact Hp | exact Hbound].
Qed.

Lemma list_arguments (fields : list (string * JS.value)) (a : ListStoriesArgs) :
  ListStoriesSchema (JS.VObject fields) = Zod.Valid a ->
  ls_status a = string_property (JS.get "status" fields) /\
  (let v := JS.get "status" fields in
   v = JS.VUndefined \/ v = JS.VString "1" \/ v = JS.VString "3" \/
   v = JS.VString "5" \/ v = JS.VString "all") /\
  ls_project_id a = number_property (JS.get "project_id" fields) /\
  (JS.get "project_id" fields = JS.VUndefined \/
   exists q : Q, JS.get "project_id" fields = JS.VNumber q).
Proof.
  unfold ListStoriesSchema, Zod.object. intros H.
  apply ap_valid in H as (g1 & project & H & Hproject & ->).
  apply ap_valid in H as (g2 & status & H & Hstatus & ->).
  inversion H; subst g2. cbn.
  apply field_valid in Hproject, Hstatus.
  apply optional_number_property in Hproject as [-> Hp].
  assert (Hs : status = string_property (JS.get "status" fields) /\
               (JS.get "status" fields = JS.VUndefined \/
                JS.get "status" fields = JS.VString "1" \/
                JS.get "status" fields = JS.VString "3" \/
                JS.get "status" fields = JS.VString "5" \/
                JS.get "status" fields = JS.VString "all")).
  { unfold Zod.optional in Hstatus.
    destruct (JS.get "status" fields) eqn:Hget;
      try (inversion Hstatus; split; [reflexivity | left; reflexivity]);
      match type of Hstatus with
      | context [Zod.enum ?o ?v] => destruct (Zod.enum o v) as [s'|] eqn:Henum
      end; try discriminate;
      inversion Hstatus; subst status;
      apply enum_valid in Henum as [Hv Hin]; inversion Hv; subst;
      cbn in Hin; (split; [reflexivity|]);
      destruct Hin as [<- | [<- | [<- | [<- | []]]]]; auto. }
  destruct Hs as [-> Hs]. repeat split; assumption.
Qed.

Lemma info_arguments (fields : list (string * JS.value)) (p : option Q) :
  GetProjectSchema (JS.VObject fields) = Zod.Valid p ->
  p = number_property (JS.get "project_id" fields) /\
  (JS.get "project_id" fields = JS.VUndefined \/
   exists q : Q, JS.get "project_id" fields = JS.VNumber q).
Proof.
  unfold GetProjectSchema, Zod.object. intros H. apply field_valid in H.
  unfold Zod.optional, Zod.refine, Zod.number in H.
  destruct (JS.get "project_id" fields); try discriminate;
    try (inversion H; split; [reflexivity | left; reflexivity]).
  destruct (Zod.is_positive q); [|discriminate].
  inversion H. split; [reflexivity | right; eauto].
Qed.

(** The resolution rule, as the handlers compute it. *)
Lemma resolves_truthy_id (fields : list (string * JS.value))
    (ctx : option JS.number) (pid : JS.number) :
  resolves fields ctx pid ->
  truthy_id (or_current (number_property (JS.get "project_id" fields)) ctx)
  = Some pid.
Proof.
  intros [(q & -> & Hq & ->) | ([-> | (q & -> & Hq)] & -> & Hpid)]; cbn.
  - unfold JS.truthy_Q.
    destruct (Qeq_bool q 0) eqn:E; [apply Qeq_bool_iff in E; contradiction|].
    cbn. unfold JS.truthy_Q. now rewrite E.
  - now rewrite Hpid.
  - unfold JS.truthy_Q. apply Qeq_bool_iff in Hq. rewrite Hq. cbn.
    now rewrite Hpid.
Qed.

Lemma unresolved_truthy_id (fields : list (string * JS.value))
    (ctx : option JS.number) :
  JS.get "project_id" fields = JS.VUndefined ->
  ctx = None \/ (exists c : JS.number, ctx = Some c /\ JS.truthy c = false) ->
  truthy_id (or_current (number_property (JS.get "project_id" fields)) ctx) = None.
Proof.
  intros -> [-> | (c & -> & Hc)]; cbn; [reflexivity|]. now rewrite Hc.
Qed.

Section RuntimeResolution.

Variable show : Q -> string.
Variable engine : Runtime.TypeError -> string.
Variable inherited_text : string -> string.
Variable api : Runtime.Client.t.

(** The handlers once the arguments are valid. *)
Lemma runtime_getProjectInfo_valid (args : JS.value) (p : option Q) (st : State) :
  GetProjectSchema args = Zod.Valid p ->
  Runtime.getProjectInfo show engine api args st =
    match truthy_id (or_current p (currentProjectId st)) with
    | None => (Throw no_project_context, st)
    | Some pid =>
        (fst (Runtime.getProjectInfo show engine api args st),
         mkState (currentProjectId st)
           (calls st ++ GetProject pid
                        :: match Runtime.Client.getProject api pid with
                           | Return _ => [GetProjectStories pid]
                           | Throw _ => []
                           end)%list)
    end.
Proof.
  intros Hargs.
  unfold Runtime.getProjectInfo, bind, try_catch, parse, Runtime.await,
    Runtime.eval, get_state, ret, throw.
  rewrite Hargs. cbn [calls currentProjectId fst snd].
  destruct (truthy_id _) as [pid|]; [|reflexivity].
  destruct (Runtime.Client.getProject api pid) as [project|e];
    cbn [calls currentProjectId fst snd]; [|reflexivity].
  destruct (Runtime.Client.getProjectStories api pid) as [stories|e];
    cbn [calls currentProjectId fst snd];
    [|rewrite <- app_assoc; reflexivity].
  repeat match goal with
  | |- context [match ?o with Return _ => _ | Throw _ => _ end] =>
      destruct o; cbn [calls currentProjectId fst snd]
  end; rewrite <- app_assoc; reflexivity.
Qed.

Lemma runtime_createStory_valid (args : JS.value) (a : CreateStoryArgs) (st : State) :
  CreateStorySchema args = Zod.Valid a ->
  Runtime.createStory show engine api args st =
    match truthy_id (or_current (cs_project_id a) (currentProjectId st)) with
    | None => (Throw no_project_context, st)
    | Some pid =>
        match too_large (cs_estimate a) with
        | Some e =>
            (Return (text_response (story_too_large_text show (cs_name a) e)), st)
        | None =>
            (match Runtime.Client.createStory api (creation_request a pid) with
             | Return story =>
                 match Runtime.interpolate show story "id" with
                 | Return id =>
                     match Runtime.interpolate show story "name" with
                     | Return name =>
                         Return (text_response
                                   (Runtime.story_created_text show id name
                                      (cs_description a) (cs_estimate a)))
                     | Throw f =>
                         Throw (McpError InternalError
                                  ("Failed to create story: " ++ engine f))
                     end
                 | Throw f =>
                     Throw (McpError InternalError
                              ("Failed to create story: " ++ engine f))
                 end
             | Throw e =>
                 Throw (McpError InternalError
                          ("Failed to create story: " ++ message e))
             end,
             mkState (currentProjectId st)
                     (calls st ++ [CreateStory (creation_request a pid)])%list)
        end
    end.
Proof.
  intros Hargs.
  unfold Runtime.createStory, bind, try_catch, parse, Runtime.await,
    Runtime.eval, get_state, ret, throw, creation_request.
  rewrite Hargs. cbn [calls currentProjectId fst snd].
  destruct (truthy_id _) as [pid|]; [|reflexivity].
  destruct (too_large _); [reflexivity|].
  cbn [calls currentProjectId fst snd].
  destruct (Runtime.Client.createStory api _) as [story|e];
    cbn [calls currentProjectId fst snd]; [|reflexivity].
  destruct (Runtime.interpolate show story "id");
    cbn [calls currentProjectId fst snd]; [|reflexivity].
  destruct (Runtime.interpolate show story "name"); reflexivity.
Qed.

Lemma runtime_listStories_valid (args : JS.value) (a : ListStoriesArgs) (st : State) :
  ListStoriesSchema args = Zod.Valid a ->
  Runtime.listStories show engine inherited_text api args st =
    match truthy_id (or_current (ls_project_id a) (currentProjectId st)) with
    | None => (Throw no_project_context, st)
    | Some pid =>
        (fst (Runtime.listStories show engine inherited_text api args st),
         mkState (currentProjectId st) (calls st ++ [GetProjectStories pid])%list)
    end.
Proof.
  intros Hargs.
  unfold Runtime.listStories, bind, try_catch, parse, Runtime.await,
    Runtime.eval, get_state, ret, throw.
  rewrite Hargs. cbn [calls currentProjectId fst snd].
  destruct (truthy_id _) as [pid|]; [|reflexivity].
  destruct (Runtime.Client.getProjectStories api pid) as [stories|e];
    cbn [calls currentProjectId fst snd]; [|reflexivity].
  destruct (Runtime.filteredStories _ _) as [filtered|f];
    cbn [calls currentProjectId fst snd]; [|reflexivity].
  destruct (Nat.eqb _ 0); cbn [calls currentProjectId fst snd]; [reflexivity|].
  destruct (Runtime.map_text _ _); reflexivity.
Qed.

(** The request [createStory] builds is the one the arguments describe. *)
Lemma creation_request_expected (fields : list (string * JS.value))
    (a : CreateStoryArgs) (pid : JS.number) :
  CreateStorySchema (JS.VObject fields) = Zod.Valid a ->
  creation_request a pid = expected_request fields (cs_name a) pid.
Proof.
  intros H. destruct (create_arguments fields a H) as (_ & Hd & He & Hep & _).
  unfold creation_request, expected_request. now rewrite Hd, He, Hep.
Qed.

(** An operation whose project id resolves to [pid] works on [pid]. *)
Lemma runtime_handler_resolved (op : ProjectOp) (fields : list (string * JS.value))
    (ctx : option JS.number) (pid : JS.number) :
  explicit_project_id op (JS.VObject fields) <> None ->
  resolves fields ctx pid ->
  works_on show api op fields pid
    (runtime_handler show engine inherited_text api op (JS.VObject fields)
       (session ctx)).
Proof.
  intros Hvalid Hres. apply resolves_truthy_id in Hres.
  destruct op; cbn [runtime_handler works_on explicit_project_id] in *.
  - destruct (GetProjectSchema _) as [p|] eqn:Hargs; [|contradiction].
    destruct (info_arguments fields p Hargs) as [-> _].
    rewrite (runtime_getProjectInfo_valid _ _ (session ctx) Hargs).
    cbn [session currentProjectId calls]. now rewrite Hres.
  - destruct (CreateStorySchema _) as [a|] eqn:Hargs; [|contradiction].
    destruct (create_arguments fields a Hargs)
      as (Hname & _ & He & _ & Hp & _ & Hbound).
    exists (cs_name a). split; [exact Hname|].
    rewrite (runtime_createStory_valid _ a (session ctx) Hargs).
    cbn [session currentProjectId calls]. rewrite Hp, Hres.
    rewrite <- (creation_request_expected fields a pid Hargs).
    rewrite <- He. unfold too_large.
    destruct (cs_estimate a) as [e|]; [|reflexivity].
    unfold JS.gt. destruct (Qle_bool e 6); cbn [negb andb].
    + rewrite andb_false_r. reflexivity.
    + destruct (JS.truthy_Q e) eqn:Ht; cbn [andb]; [split; reflexivity|].
      exfalso.
      destruct (Hbound e eq_refl) as [Hpos _].
      unfold JS.truthy_Q in Ht. apply negb_false_iff in Ht.
      apply Qeq_bool_iff in Ht. rewrite Ht in Hpos. discriminate Hpos.
  - destruct (ListStoriesSchema _) as [a|] eqn:Hargs; [|contradiction].
    destruct (list_arguments fields a Hargs) as (_ & _ & Hp & _).
    rewrite (runtime_listStories_valid _ a (session ctx) Hargs).
    cbn [session currentProjectId calls]. rewrite Hp, Hres. reflexivity.
Qed.

(** With no project id to resolve, the operation raises before any call. *)
Lemma runtime_handler_unresolved (op : ProjectOp)
    (fields : list (string * JS.value)) (ctx : option JS.number) :
  explicit_project_id op (JS.VObject fields) <> None ->
  JS.get "project_id" fields = JS.VUndefined ->
  ctx = None \/ (exists c : JS.number, ctx = Some c /\ JS.truthy c = false) ->
  runtime_handler show engine inherited_text api op (JS.VObject fields) (session ctx)
  = (Throw no_project_context, session ctx).
Proof.
  intros Hvalid Habsent Hctx.
  pose proof (unresolved_truthy_id fields ctx Habsent Hctx) as Hnone.
  destruct op; cbn [runtime_handler explicit_project_id] in *.
  - destruct (GetProjectSchema _) as [p|] eqn:Hargs; [|contradiction].
    destruct (info_arguments fields p Hargs) as [-> _].
    rewrite (runtime_getProjectInfo_valid _ _ (session ctx) Hargs).
    cbn [session currentProjectId calls]. now rewrite Hnone.
  - destruct (CreateStorySchema _) as [a|] eqn:Hargs; [|contradiction].
    destruct (create_arguments fields a Hargs) as (_ & _ & _ & _ & Hp & _ & _).
    rewrite (runtime_createStory_valid _ a (session ctx) Hargs).
    cbn [session currentProjectId calls]. now rewrite Hp, Hnone.
  - destruct (ListStoriesSchema _) as [a|] eqn:Hargs; [|contradiction].
    destruct (list_arguments fields a Hargs) as (_ & _ & Hp & _).
    rewrite (runtime_listStories_valid _ a (session ctx) Hargs).
    cbn [session currentProjectId calls]. now rewrite Hp, Hnone.
Qed.

(** C2, as amended.  For info lookup, story creation and story listing on
    valid arguments: an explicit project id other than 0 is the project the
    operation works on, whatever the session holds; with no explicit id the
    operation works on the current project id of the session, when that is
    set to a number other than 0; and with no explicit id and no such
    context it raises the no-project-context error, calls nothing and
    leaves the session as it was.  Working on a project is stated by the
    calls made: the project, then its stories, are fetched for that id; the
    stories are fetched for that id; the creation request carries that
    id. *)
Theorem project_id_resolution (op : ProjectOp) (fields : list (string * JS.value))
    (ctx : option JS.number) :
  explicit_project_id op (JS.VObject fields) <> None ->
  let run := runtime_handler show engine inherited_text api op (JS.VObject fields)
               (session ctx) in
  (forall q : Q,
      JS.get "project_id" fields = JS.VNumber q -> ~ q == 0 ->
      works_on show api op fields (JS.Finite q) run) /\
  (JS.get "project_id" fields = JS.VUndefined ->
   (forall c : JS.number,
       ctx = Some c -> JS.truthy c = true -> works_on show api op fields c run) /\
   (ctx = None \/ (exists c : JS.number, ctx = Some c /\ JS.truthy c = false) ->
    run = (Throw no_project_context, session ctx))).
Proof.
  intros Hvalid run. subst run. split; [|intros Habsent; split].
  - intros q Hq Hne. apply runtime_handler_resolved; [exact Hvalid|].
    left. exists q. auto.
  - intros c -> Hc. apply runtime_handler_resolved; [exact Hvalid|].
    right. auto.
  - intros Hctx. now apply runtime_handler_unresolved.
Qed.

End RuntimeResolution.

(** *** create_story, the target status and list_my_stories at run time *)

Section RuntimeCreation.

Variable show : Q -> string.
Variable engine : Runtime.TypeError -> string.
Variable api : Runtime.Client.t.


End RuntimeCreation.

Section RuntimeValidation.

Variable show : Q -> string.
Variable engine : Runtime.TypeError -> string.
Variable inherited_text : string -> string.
Variable toLocaleDateString : JS.value -> string.
Variable zod_message : list Zod.ZodIssue -> string.
Variable api : Runtime.Client.t.

(** The statuses that stand for a number are those the validation lets
    through. *)
Lemma requested_status_acceptable (v : JS.value) :
  acceptable_status v <-> exists t : JS.number, requested_status v t.
Proof.
  unfold requested_status. split.
  - destruct v; cbn; try contradiction.
    + intros [Hlo Hhi]. exists (JS.Finite q). do 3 right. exists q. auto.
    + intros [-> | [-> | ->]]; eexists; eauto.
  - intros (t & [[-> _] | [[-> _] | [[-> _] | (q & -> & Hlo & Hhi & _)]]]);
      cbn; auto.
Qed.

(** C6, as amended.  The validation of [update_story_status] accepts the
    status exactly when it is one of the strings '1', '3', '5' or a number
    from 1 to 5: on arguments with a positive story id and notes that are
    absent or a string such a status is accepted, and the handler then
    works with one number for it, 1, 3 or 5 for the strings and the number
    itself otherwise; and whatever is accepted has such a status.  Any
    other status fails the validation, whatever the other arguments are:
    the handler raises the validation error, which leaves the switch as an
    [InternalError], no call is made and the session is as it was. *)
Theorem target_status_validation (fields : list (string * JS.value)) (st : State) :
  let v := JS.get "status" fields in
  let args := JS.VObject fields in
  (forall (id : Q) (t : JS.number),
      JS.get "story_id" fields = JS.VNumber id ->
      0 < id ->
      optional_string (JS.get "notes" fields) ->
      requested_status v t ->
      exists a : UpdateStoryStatusArgs,
        UpdateStoryStatusSchema args = Zod.Valid a /\
        us_story_id a = id /\ target_number (us_status a) = t) /\
  (forall a : UpdateStoryStatusArgs,
      UpdateStoryStatusSchema args = Zod.Valid a ->
      requested_status v (target_number (us_status a))) /\
  ((forall t : JS.number, ~ requested_status v t) ->
   exists issues : list Zod.ZodIssue,
     UpdateStoryStatusSchema args = Zod.Invalid issues /\
     Runtime.updateStoryStatus show engine inherited_text api args st
       = (Throw (ZodError issues), st) /\
     Runtime.callTool show engine inherited_text toLocaleDateString zod_message api
         "update_story_status" args st
       = (Throw (McpError InternalError
                   ("Tool execution failed: " ++ zod_message issues)), st)).
Proof.
  intros v args. split; [|split].
  - intros id t Hid Hpos Hnotes Ht.
    apply (update_request_valid fields id v t); [|exact Ht].
    repeat split; assumption.
  - intros a H. unfold args, UpdateStoryStatusSchema, Zod.object in H.
    apply ap_valid in H as (g1 & notes & H & _ & ->).
    apply ap_valid in H as (g2 & status & H & Hstatus & ->).
    apply ap_valid in H as (g3 & id' & H & _ & ->).
    inversion H; subst g3. cbn [us_status].
    apply field_valid in Hstatus. fold status_schema in Hstatus. fold v in Hstatus.
    unfold requested_status.
    destruct (status_schema_valid _ _ Hstatus)
      as [(s & Hv & -> & [-> | [-> | ->]]) | (q & Hv & -> & Hlo & Hhi)].
    + left. split; [exact Hv | reflexivity].
    + right. left. split; [exact Hv | reflexivity].
    + right. right. left. split; [exact Hv | reflexivity].
    + right. right. right. exists q. repeat split; assumption || reflexivity.
  - intros Hnone.
    assert (Hno : ~ acceptable_status v).
    { intros Hacc. apply requested_status_acceptable in Hacc as [t Ht].
      exact (Hnone t Ht). }
    destruct (status_schema_invalid _ Hno) as [issues Hinv].
    assert (Hargs : exists issues', UpdateStoryStatusSchema args = Zod.Invalid issues').
    { unfold args, UpdateStoryStatusSchema, Zod.object. fold status_schema.
      destruct (field_invalid fields "status" status_schema issues Hinv) as [is1 ->].
      destruct (ap_invalid_r
                  (Zod.pure mkUpdateStoryStatusArgs
                     <*> Zod.field fields "story_id"
                           (Zod.refine Zod.is_positive (Zod.issue Zod.too_small)
                              Zod.number)) is1)
        as [is2 ->].
      apply ap_invalid_l. }
    destruct Hargs as [issues' Hargs]. exists issues'.
    assert (Hrun : Runtime.updateStoryStatus show engine inherited_text api args st
                   = (Throw (ZodError issues'), st)).
    { unfold Runtime.updateStoryStatus, bind, parse, throw. now rewrite Hargs. }
    split; [exact Hargs|]. split; [exact Hrun|].
    unfold Runtime.callTool, try_catch. cbn [String.eqb Ascii.eqb Bool.eqb].
    now rewrite Hrun.
Qed.

End RuntimeValidation.

Section RuntimeListing.

Variable show : Q -> string.
Variable engine : Runtime.TypeError -> string.
Variable inherited_text : string -> string.
Variable api : Runtime.Client.t.

Lemma has_status_at_status (n : Q) (s : Story.t) :
  has_status n s = at_status n s.
Proof.
  unfold has_status, at_status, status_number. destruct (Story.status s); reflexivity.
Qed.

Lemma status_is_at_status (n : Q) (s : Story.t) :
  JS.strict_eq (status_number (Story.status s)) (JS.Finite n) = at_status n s.
Proof. apply has_status_at_status. Qed.

Lemma story_line_listing_line (s : Story.t) :
  story_line show s = listing_line show s.
Proof.
  unfold story_line, listing_line, listed_label, at_status, statusNames,
    lookup135, status_number.
  assert (Hlabel :
    or_undefined
      match match Story.status s with
            | StatusNumber q => JS.Finite q
            | StatusString str => JS.parseInt str
            end with
      | JS.Finite q =>
          if Qeq_bool q 1 then Some "Backlog"
          else if Qeq_bool q 3 then Some "In Progress"
          else if Qeq_bool q 5 then Some "Done" else None
      | _ => None
      end
    = (if match Story.status s with
          | StatusNumber q => Qeq_bool q 1
          | StatusString str => JS.strict_eq (JS.parseInt str) (JS.Finite 1)
          end then "Backlog"
       else if match Story.status s with
               | StatusNumber q => Qeq_bool q 3
               | StatusString str => JS.strict_eq (JS.parseInt str) (JS.Finite 3)
               end then "In Progress"
       else if match Story.status s with
               | StatusNumber q => Qeq_bool q 5
               | StatusString str => JS.strict_eq (JS.parseInt str) (JS.Finite 5)
               end then "Done"
       else "undefined")).
  { destruct (Story.status s) as [q|str].
    - destruct (Qeq_bool q 1); [reflexivity|].
      destruct (Qeq_bool q 3); [reflexivity|].
      destruct (Qeq_bool q 5); reflexivity.
    - destruct (JS.parseInt str) as [q| |neg]; cbn; try reflexivity.
      destruct (Qeq_bool q 1); [reflexivity|].
      destruct (Qeq_bool q 3); [reflexivity|].
      destruct (Qeq_bool q 5); reflexivity. }
  rewrite Hlabel.
  destruct (Story.estimate s) as [e|]; [|reflexivity].
  unfold JS.truthy_Q. destruct (Qeq_bool e 0); reflexivity.
Qed.

(** C7, as amended.  For a [list_my_stories] call on valid arguments whose
    project id resolves, when the backend answers with stories of the
    declared type: with no filter or the filter "all" every story is kept,
    and with the filter '1', '3' or '5' the stories at that status are kept,
    in the order of the backend; the fetch is the only call.  When none is
    kept the response is "No Stories Found", followed by the label of the
    status when the filter was '1', '3' or '5', and by nothing when it was
    "all" or absent.  Otherwise the response lists the first 10 kept
    stories, a line each with the id, the name, the status label and the
    hours, and ends with "... and N more", N being the number of kept
    stories minus 10, exactly when more than 10 were kept. *)
Theorem list_stories_filtered_and_capped
    (fields : list (string * JS.value)) (a : ListStoriesArgs)
    (ctx : option JS.number) (pid : JS.number) (stories : list Story.t) :
  ListStoriesSchema (JS.VObject fields) = Zod.Valid a ->
  resolves fields ctx pid ->
  Runtime.Client.getProjectStories api pid
    = Return (map Runtime.story_json stories) ->
  let v := JS.get "status" fields in
  let run := Runtime.listStories show engine inherited_text api (JS.VObject fields)
               (session ctx) in
  exists (kept : list Story.t) (label : option string),
    (((v = JS.VUndefined \/ v = JS.VString "all") /\
      kept = stories /\ label = None) \/
     (v = JS.VString "1" /\
      kept = List.filter (at_status 1) stories /\ label = Some "Backlog") \/
     (v = JS.VString "3" /\
      kept = List.filter (at_status 3) stories /\ label = Some "In Progress") \/
     (v = JS.VString "5" /\
      kept = List.filter (at_status 5) stories /\ label = Some "Done")) /\
    calls (snd run) = [GetProjectStories pid] /\
    (kept = [] ->
     fst run = Return (text_response
                         ("📋 **No Stories Found** "
                          ++ match label with
                             | Some l => "with status " ++ dq ++ l ++ dq
                             | None => ""
                             end))) /\
    (kept <> [] ->
     let lines := map (listing_line show) (firstn 10 kept) in
     fst run = Return (text_response
                         ("📋 **Stories** "
                          ++ match label with
                             | Some l => "(" ++ l ++ ")"
                             | None => ""
                             end
                          ++ ":" ++ nl ++ nl ++ JS.join nl lines ++ nl ++ nl
                          ++ (if Nat.ltb 10 (length kept)
                              then "... and "
                                   ++ show (inject_Z (Z.of_nat (length kept - 10)))
                                   ++ " more"
                              else ""))) /\
     length lines = Nat.min 10 (length kept)).
Proof.
  intros Hargs Hres Hfetch v run.
  destruct (list_arguments fields a Hargs) as (Hstatus & Hv & Hp & _).
  apply resolves_truthy_id in Hres.
  assert (Hrun : forall (kept : list Story.t),
             Runtime.filteredStories (ls_status a) (map Runtime.story_json stories)
             = Return (map Runtime.story_json kept) ->
             run = (Return (if Nat.eqb (length kept) 0
                            then text_response (no_stories_text (ls_status a))
                            else text_response
                                   (Runtime.stories_text show (ls_status a)
                                      (map (listing_line show) (firstn 10 kept))
                                      (length kept))),
                    mkState ctx [GetProjectStories pid])).
  { intros kept Hkept. subst run.
    unfold Runtime.listStories, bind, try_catch, parse, Runtime.await,
      Runtime.eval, get_state, ret, throw.
    rewrite Hargs. cbn [session calls currentProjectId fst snd].
    rewrite Hp, Hres. cbn [session calls currentProjectId fst snd app].
    rewrite Hfetch. cbn [session calls currentProjectId fst snd app].
    rewrite Hkept. cbn [session calls currentProjectId fst snd app].
    rewrite length_map.
    destruct (Nat.eqb (length kept) 0); [reflexivity|].
    unfold JS.slice0. rewrite firstn_map.
    rewrite (typed_map_text _ (story_line show) _
               (typed_story_line show inherited_text)).
    cbn [fst snd]. rewrite (map_ext _ _ story_line_listing_line). reflexivity. }
  assert (Hshape :
    forall (kept : list Story.t) (label : option string),
      Runtime.filteredStories (ls_status a) (map Runtime.story_json stories)
        = Return (map Runtime.story_json kept) ->
      no_stories_text (ls_status a)
        = "📋 **No Stories Found** "
          ++ match label with
             | Some l => "with status " ++ dq ++ l ++ dq
             | None => ""
             end ->
      (forall lines n, Runtime.stories_text show (ls_status a) lines n
        = "📋 **Stories** "
          ++ match label with
             | Some l => "(" ++ l ++ ")"
             | None => ""
             end
          ++ ":" ++ nl ++ nl ++ JS.join nl lines ++ nl ++ nl
          ++ (if Nat.ltb 10 n
              then "... and " ++ show (inject_Z (Z.of_nat (n - 10))) ++ " more"
              else "")) ->
      calls (snd run) = [GetProjectStories pid] /\
      (kept = [] ->
       fst run = Return (text_response
                           ("📋 **No Stories Found** "
                            ++ match label with
                               | Some l => "with status " ++ dq ++ l ++ dq
                               | None => ""
                               end))) /\
      (kept <> [] ->
       let lines := map (listing_line show) (firstn 10 kept) in
       fst run = Return (text_response
                           ("📋 **Stories** "
                            ++ match label with
                               | Some l => "(" ++ l ++ ")"
                               | None => ""
                               end
                            ++ ":" ++ nl ++ nl ++ JS.join nl lines ++ nl ++ nl
                            ++ (if Nat.ltb 10 (length kept)
                                then "... and "
                                     ++ show (inject_Z (Z.of_nat (length kept - 10)))
                                     ++ " more"
                                else ""))) /\
       length lines = Nat.min 10 (length kept))).
  { intros kept label Hkept Hnone Hsome. rewrite (Hrun kept Hkept).
    split; [reflexivity|]. split.
    - intros ->. cbn [fst length Nat.eqb]. now rewrite Hnone.
    - intros Hne. cbv zeta. destruct kept as [|s0 rest]; [contradiction|].
      cbn [fst length Nat.eqb]. rewrite Hsome. split; [reflexivity|].
      rewrite length_map. apply length_firstn. }
  assert (Hfilter : forall n : Q,
             Runtime.filter (Runtime.status_is (JS.Finite n))
               (map Runtime.story_json stories)
             = Return (map Runtime.story_json (List.filter (at_status n) stories))).
  { intros n. rewrite (typed_filter _ (at_status n)); [reflexivity|].
    intros s. rewrite typed_status_is. now rewrite status_is_at_status. }
  cbv zeta in Hv. fold v in Hv, Hstatus.
  destruct Hv as [Hf|[Hf|[Hf|[Hf|Hf]]]]; rewrite Hf in Hstatus;
    cbn [string_property] in Hstatus.
  - exists stories, None. split; [left; auto|].
    refine (Hshape stories None _ _ _); rewrite Hstatus; reflexivity.
  - exists (List.filter (at_status 1) stories), (Some "Backlog").
    split; [right; left; auto|].
    refine (Hshape _ (Some "Backlog") _ _ _); rewrite Hstatus;
      [apply (Hfilter 1) | reflexivity | reflexivity].
  - exists (List.filter (at_status 3) stories), (Some "In Progress").
    split; [right; right; left; auto|].
    refine (Hshape _ (Some "In Progress") _ _ _); rewrite Hstatus;
      [apply (Hfilter 3) | reflexivity | reflexivity].
  - exists (List.filter (at_status 5) stories), (Some "Done").
    split; [right; right; right; auto|].
    refine (Hshape _ (Some "Done") _ _ _); rewrite Hstatus;
      [apply (Hfilter 5) | reflexivity | reflexivity].
  - exists stories, None. split; [left; auto|].
    refine (Hshape stories None _ _ _); rewrite Hstatus; reflexivity.
Qed.

End RuntimeListing.

(** Info lookup with the explicit id 7 fetches project 7 and its stories;
    with no id under context 42 it fetches project 42; with no id and no
    context it fails before any call. *)
Lemma project_id_resolution_witness :
  let api := Runtime.typed (sample_backend (StatusNumber 1)) in
  let run (fields : list (string * JS.value)) (ctx : option JS.number) :=
    runtime_handler decimal sample_type_error sample_inherited api InfoLookup
      (JS.VObject fields) (session ctx) in
  explicit_project_id InfoLookup (JS.VObject [("project_id", JS.VNumber 7)])
    = Some (Some 7) /\
  explicit_project_id InfoLookup (JS.VObject []) = Some None /\
  calls (snd (run [("project_id", JS.VNumber 7)] (Some (JS.Finite 42))))
    = [GetProject (JS.Finite 7); GetProjectStories (JS.Finite 7)] /\
  calls (snd (run [] (Some (JS.Finite 42))))
    = [GetProject (JS.Finite 42); GetProjectStories (JS.Finite 42)] /\
  run [] None = (Throw no_project_context, session None).
Proof.
  cbv zeta.
  assert (H7 : explicit_project_id InfoLookup
                 (JS.VObject [("project_id", JS.VNumber 7)]) <> None)
    by discriminate.
  assert (H0 : explicit_project_id InfoLookup (JS.VObject []) <> None)
    by discriminate.
  split; [reflexivity|]. split; [reflexivity|].
  split; [|split].
  - refine (proj1 (project_id_resolution decimal sample_type_error
                     sample_inherited
                     (Runtime.typed (sample_backend (StatusNumber 1)))
                     InfoLookup [("project_id", JS.VNumber 7)]
                     (Some (JS.Finite 42)) H7) 7 eq_refl _).
    intros H. discriminate H.
  - exact (proj1 (proj2 (project_id_resolution decimal sample_type_error
                     sample_inherited
                     (Runtime.typed (sample_backend (StatusNumber 1)))
                     InfoLookup [] (Some (JS.Finite 42)) H0) eq_refl)
             (JS.Finite 42) eq_refl eq_refl).
  - exact (proj2 (proj2 (project_id_resolution decimal sample_type_error
                     sample_inherited
                     (Runtime.typed (sample_backend (StatusNumber 1)))
                     InfoLookup [] None H0) eq_refl)
             (or_introl eq_refl)).
Defined.



(** The string "3" is accepted and becomes the number 3; the number 6 is
    rejected with the issue of the range, before any call. *)
Lemma target_status_validation_witness :
  let api := Runtime.typed failing_backend in
  let args := JS.VObject (update_fields (JS.VNumber 6)) in
  requested_status (JS.VString "3") (JS.Finite 3) /\
  (exists a : UpdateStoryStatusArgs,
      UpdateStoryStatusSchema (JS.VObject (update_fields (JS.VString "3")))
        = Zod.Valid a /\
      us_story_id a = 7 /\ target_number (us_status a) = JS.Finite 3) /\
  (forall t : JS.number, ~ requested_status (JS.VNumber 6) t) /\
  UpdateStoryStatusSchema args
    = Zod.Invalid [Zod.mkIssue Zod.too_big ["status"] None] /\
  exists issues : list Zod.ZodIssue,
    UpdateStoryStatusSchema args = Zod.Invalid issues /\
    Runtime.updateStoryStatus decimal sample_type_error sample_inherited api args
        (session None)
      = (Throw (ZodError issues), session None) /\
    Runtime.callTool decimal sample_type_error sample_inherited sample_locale_date
        sample_zod_message api "update_story_status" args (session None)
      = (Throw (McpError InternalError
                  ("Tool execution failed: " ++ sample_zod_message issues)),
         session None).
Proof.
  cbv zeta.
  assert (H3 : requested_status (JS.VString "3") (JS.Finite 3)).
  { right. left. split; reflexivity. }
  assert (H6 : forall t : JS.number, ~ requested_status (JS.VNumber 6) t).
  { intros t [[H _] | [[H _] | [[H _] | (q & H & _ & Hhi & _)]]];
      try discriminate H.
    inversion H; subst q. apply Hhi. reflexivity. }
  split; [exact H3|]. split; [|split; [exact H6|split; [reflexivity|]]].
  - exact (proj1 (target_status_validation decimal sample_type_error
                    sample_inherited sample_locale_date sample_zod_message
                    (Runtime.typed failing_backend)
                    (update_fields (JS.VString "3")) (session None))
             7 (JS.Finite 3) eq_refl eq_refl (or_introl eq_refl) H3).
  - exact (proj2 (proj2 (target_status_validation decimal sample_type_error
                    sample_inherited sample_locale_date sample_zod_message
                    (Runtime.typed failing_backend)
                    (update_fields (JS.VNumber 6)) (session None)))
             H6).
Defined.

(** [list_my_stories] with the filter "all" on a project that has no
    stories: the response is the bare header, which names no filter; it is
    the response to a call with no filter at all. *)
Lemma empty_listing_for_all_names_no_filter :
  ListStoriesSchema (JS.VObject [("status", JS.VString "all")])
    = Zod.Valid (mkListStoriesArgs (Some "all") None) /\
  Runtime.listStories decimal sample_type_error sample_inherited
      (Runtime.typed empty_backend)
      (JS.VObject [("status", JS.VString "all")]) (session (Some (JS.Finite 42)))
    = (Return (text_response "📋 **No Stories Found** "),
       mkState (Some (JS.Finite 42)) [GetProjectStories (JS.Finite 42)]) /\
  Runtime.listStories decimal sample_type_error sample_inherited
      (Runtime.typed empty_backend)
      (JS.VObject []) (session (Some (JS.Finite 42)))
    = (Return (text_response "📋 **No Stories Found** "),
       mkState (Some (JS.Finite 42)) [GetProjectStories (JS.Finite 42)]).
Proof. repeat split. Qed.

(** *** The switch at run time *)

Section RuntimeSwitch.

Variable show : Q -> string.
Variable engine : Runtime.TypeError -> string.
Variable inherited_text : string -> string.
Variable toLocaleDateString : JS.value -> string.
Variable zod_message : list Zod.ZodIssue -> string.
Variable api : Runtime.Client.t.

(** The switch, tool by tool. *)
Lemma runtime_callTool_cases (name : string) (args : JS.value) (st : State) :
  let run := Runtime.callTool show engine inherited_text toLocaleDateString
               zod_message api name args st in
  (name = "set_project_context" /\
   run = rethrown zod_message (Runtime.setProjectContext show engine api args st)) \/
  (name = "get_project_info" /\
   run = rethrown zod_message (Runtime.getProjectInfo show engine api args st)) \/
  (name = "create_story" /\
   run = rethrown zod_message (Runtime.createStory show engine api args st)) \/
  (name = "update_story_status" /\
   run = rethrown zod_message
           (Runtime.updateStoryStatus show engine inherited_text api args st)) \/
  (name = "get_story" /\
   run = rethrown zod_message
           (Runtime.getStory show engine inherited_text toLocaleDateString api
              args st)) \/
  (name = "list_my_stories" /\
   run = rethrown zod_message
           (Runtime.listStories show engine inherited_text api args st)) \/
  (~ In name tool_names /\
   run = (Throw (McpError MethodNotFound ("Unknown tool: " ++ name)), st)).
Proof.
  cbv zeta. unfold Runtime.callTool, try_catch, rethrown.
  destruct (String.eqb name "set_project_context") eqn:E1.
  { apply String.eqb_eq in E1. left. split; [exact E1|].
    destruct (Runtime.setProjectContext _ _ _ args st) as [[r|[c m|i]] s];
      reflexivity. }
  destruct (String.eqb name "get_project_info") eqn:E2.
  { apply String.eqb_eq in E2. right; left. split; [exact E2|].
    destruct (Runtime.getProjectInfo _ _ _ args st) as [[r|[c m|i]] s];
      reflexivity. }
  destruct (String.eqb name "create_story") eqn:E3.
  { apply String.eqb_eq in E3. do 2 right; left. split; [exact E3|].
    destruct (Runtime.createStory _ _ _ args st) as [[r|[c m|i]] s]; reflexivity. }
  destruct (String.eqb name "update_story_status") eqn:E4.
  { apply String.eqb_eq in E4. do 3 right; left. split; [exact E4|].
    destruct (Runtime.updateStoryStatus _ _ _ _ args st) as [[r|[c m|i]] s];
      reflexivity. }
  destruct (String.eqb name "get_story") eqn:E5.
  { apply String.eqb_eq in E5. do 4 right; left. split; [exact E5|].
    destruct (Runtime.getStory _ _ _ _ _ args st) as [[r|[c m|i]] s];
      reflexivity. }
  destruct (String.eqb name "list_my_stories") eqn:E6.
  { apply String.eqb_eq in E6. do 5 right; left. split; [exact E6|].
    destruct (Runtime.listStories _ _ _ _ args st) as [[r|[c m|i]] s];
      reflexivity. }
  do 6 right. split; [|reflexivity].
  apply String.eqb_neq in E1, E2, E3, E4, E5, E6.
  cbn. intuition congruence.
Qed.

(** The end of a run: either nothing was called and the state is as it
    was, or the gateway was reached. *)
Ltac run_step :=
  cbn [fst snd calls currentProjectId];
  match goal with
  | |- context [match ?x with _ => _ end] =>
      lazymatch x with
      | context [match _ with _ => _ end] => fail
      | _ => destruct x eqn:?
      end
  end.

Ltac raised_by_call :=
  unfold raised;
  repeat match goal with
  | H : ?x = Throw _ |- context [?x] => rewrite H
  | H : ?x = Return _ |- context [?x] => rewrite H
  end; reflexivity.

Ltac run_end :=
  cbn [fst snd calls currentProjectId];
  first
    [ left; reflexivity
    | right; unfold reached_gateway; cbn [fst snd calls currentProjectId];
      eexists _, _; split; [reflexivity|];
      split; [left; reflexivity|];
      intros exn Hexn;
      first
        [ discriminate Hexn
        | apply Throw_inj in Hexn; subst exn; eexists; split; [reflexivity|];
          first
            [ left; eexists; split; [raised_by_call | reflexivity]
            | right; split; [raised_by_call | eexists; reflexivity] ] ] ].

Lemma runtime_getProjectInfo_end (args : JS.value) (st : State) :
  let run := Runtime.getProjectInfo show engine api args st in
  snd run = st \/ reached_gateway engine api "get_project_info" args st run.
Proof.
  cbv zeta.
  unfold Runtime.getProjectInfo, bind, try_catch, parse, Runtime.await,
    Runtime.eval, get_state, ret, throw.
  repeat run_step; run_end.
Qed.

Lemma runtime_createStory_end (args : JS.value) (st : State) :
  let run := Runtime.createStory show engine api args st in
  snd run = st \/ reached_gateway engine api "create_story" args st run.
Proof.
  cbv zeta.
  unfold Runtime.createStory, bind, try_catch, parse, Runtime.await,
    Runtime.eval, get_state, ret, throw.
  repeat run_step; run_end.
Qed.

Lemma runtime_updateStoryStatus_end (args : JS.value) (st : State) :
  let run := Runtime.updateStoryStatus show engine inherited_text api args st in
  snd run = st \/ reached_gateway engine api "update_story_status" args st run.
Proof.
  cbv zeta.
  unfold Runtime.updateStoryStatus, bind, try_catch, parse, Runtime.await,
    Runtime.eval, ret, throw.
  repeat run_step; run_end.
Qed.

Lemma runtime_getStory_end (args : JS.value) (st : State) :
  let run := Runtime.getStory show engine inherited_text toLocaleDateString api
               args st in
  snd run = st \/ reached_gateway engine api "get_story" args st run.
Proof.
  cbv zeta.
  unfold Runtime.getStory, bind, try_catch, parse, Runtime.await,
    Runtime.eval, ret, throw.
  repeat run_step; run_end.
Qed.

Lemma runtime_listStories_end (args : JS.value) (st : State) :
  let run := Runtime.listStories show engine inherited_text api args st in
  snd run = st \/ reached_gateway engine api "list_my_stories" args st run.
Proof.
  cbv zeta.
  unfold Runtime.listStories, bind, try_catch, parse, Runtime.await,
    Runtime.eval, get_state, ret, throw.
  repeat run_step; run_end.
Qed.


Lemma runtime_setProjectContext_end (args : JS.value) (st : State) :
  let run := Runtime.setProjectContext show engine api args st in
  snd run = st \/ reached_gateway engine api "set_project_context" args st run.
Proof.
  cbv zeta.
  unfold Runtime.setProjectContext, bind, try_catch, parse, Runtime.await,
    Runtime.eval, Runtime.set_currentProjectId, ret, throw.
  destruct (SetProjectContextSchema args) as [pid|issues] eqn:Hargs;
    [|left; reflexivity].
  cbn [fst snd calls currentProjectId].
  destruct (Runtime.Client.getProject api (JS.Finite pid)) as [project|e] eqn:Hfetch;
    cbn [fst snd calls currentProjectId].
  - right.
    assert (Hstate : forall o : outcome Exn ToolResponse,
               (forall exn, o = Throw exn ->
                exists f, exn = McpError InvalidRequest
                                  ("Failed to set project context: " ++ engine f)) ->
               reached_gateway engine api "set_project_context" args st
                 (o, mkState (Some (JS.Finite pid))
                       (calls st ++ [GetProject (JS.Finite pid)])%list)).
    { intros o Ho. exists (calls st), (GetProject (JS.Finite pid)).
      split; [reflexivity|]. split.
      - right. split; [reflexivity|]. exists pid, project. auto.
      - intros exn Hexn. cbn [fst] in Hexn. destruct (Ho exn Hexn) as [f ->].
        exists (engine f). split; [reflexivity|]. right.
        split; [unfold raised; now rewrite Hfetch | eauto]. }
    destruct (Runtime.interpolate show project "name") as [name|f];
      cbn [fst snd calls currentProjectId].
    + destruct (Runtime.interpolate_or show project "progress_percentage" _)
        as [progress|f]; cbn [fst snd calls currentProjectId];
        apply Hstate; intros exn Hexn;
        [discriminate Hexn
        | apply Throw_inj in Hexn; subst exn; eexists; reflexivity].
    + apply Hstate. intros exn Hexn. apply Throw_inj in Hexn. subst exn.
      eexists. reflexivity.
  - right. unfold reached_gateway. cbn [fst snd calls currentProjectId].
    exists (calls st), (GetProject (JS.Finite pid)).
    split; [reflexivity|]. split; [left; reflexivity|].
    intros exn Hexn. apply Throw_inj in Hexn. subst exn.
    exists (message e). split; [reflexivity|]. left. exists e.
    split; [|reflexivity]. unfold raised. now rewrite Hfetch.
Qed.

Lemma failure_report_is_McpError (name msg : string) :
  exists (code : ErrorCode) (text : string),
    failure_report name (mkError msg) = McpError code text.
Proof.
  unfold failure_report. destruct (String.eqb name "set_project_context");
    eexists _, _; reflexivity.
Qed.

Lemma reached_gateway_rethrown (name : string) (args : JS.value) (st : State)
    (run : outcome Exn ToolResponse * State) :
  reached_gateway engine api name args st run ->
  reached_gateway engine api name args st (rethrown zod_message run).
Proof.
  intros H. destruct run as [[r|[code msg|issues]] s]; try exact H.
  exfalso. destruct H as (earlier & c & _ & _ & H).
  destruct (H _ eq_refl) as (msg & Hmsg & _).
  destruct (failure_report_is_McpError name msg) as (code & text & E).
  rewrite E in Hmsg. discriminate Hmsg.
Qed.

(** A tool call either calls nothing and leaves the state as it was, or
    reaches the gateway. *)
Lemma runtime_callTool_end (name : string) (args : JS.value) (st : State) :
  let run := Runtime.callTool show engine inherited_text toLocaleDateString
               zod_message api name args st in
  snd run = st \/ reached_gateway engine api name args st run.
Proof.
  cbv zeta.
  destruct (runtime_callTool_cases name args st)
    as [[-> ->]|[[-> ->]|[[-> ->]|[[-> ->]|[[-> ->]|[[-> ->]|[_ ->]]]]]]];
    rewrite ?rethrown_state.
  - destruct (runtime_setProjectContext_end args st) as [H|H];
      [left; exact H | right; now apply reached_gateway_rethrown].
  - destruct (runtime_getProjectInfo_end args st) as [H|H];
      [left; exact H | right; now apply reached_gateway_rethrown].
  - destruct (runtime_createStory_end args st) as [H|H];
      [left; exact H | right; now apply reached_gateway_rethrown].
  - destruct (runtime_updateStoryStatus_end args st) as [H|H];
      [left; exact H | right; now apply reached_gateway_rethrown].
  - destruct (runtime_getStory_end args st) as [H|H];
      [left; exact H | right; now apply reached_gateway_rethrown].
  - destruct (runtime_listStories_end args st) as [H|H];
      [left; exact H | right; now apply reached_gateway_rethrown].
  - left. reflexivity.
Qed.

(** X6.  A tool call changes the current project id of the session only
    when it is a set_project_context call whose arguments were valid and
    whose fetch of the project succeeded; the new context is the given id,
    a positive number.  Such a call can still fail: when the name or the
    progress of the project it fetched cannot be printed, it throws
    [InvalidRequest] with the text of the TypeError, and the context stays
    changed.  No other tool changes the context. *)
Theorem context_changes_only_by_set_context
    (name : string) (args : JS.value) (st : State) :
  let run := Runtime.callTool show engine inherited_text toLocaleDateString
               zod_message api name args st in
  currentProjectId (snd run) <> currentProjectId st ->
  name = "set_project_context" /\
  exists (pid : Q) (project : JS.value),
    SetProjectContextSchema args = Zod.Valid pid /\
    0 < pid /\
    Runtime.Client.getProject api (JS.Finite pid) = Return project /\
    currentProjectId (snd run) = Some (JS.Finite pid) /\
    forall exn : Exn,
      fst run = Throw exn ->
      exists f : Runtime.TypeError,
        exn = McpError InvalidRequest
                ("Failed to set project context: " ++ engine f).
Proof.
  cbv zeta. intros Hchanged.
  destruct (runtime_callTool_end name args st) as [Hsame|Hreached].
  - exfalso. apply Hchanged. cbv zeta in Hsame. now rewrite Hsame.
  - cbv zeta in Hreached.
    destruct Hreached as (earlier & c & _ & [Hsame|Hset] & Hexn);
      [contradiction|].
    destruct Hset as (-> & pid & project & Hargs & Hfetch & -> & Hctx).
    split; [reflexivity|]. exists pid, project.
    split; [exact Hargs|].
    split; [exact (SetProjectContextSchema_positive args pid Hargs)|].
    split; [exact Hfetch|]. split; [exact Hctx|].
    intros exn H.
    destruct (Hexn exn H) as (msg & -> & [(e & He & _) | (_ & f & ->)]).
    + unfold raised in He. rewrite Hfetch in He. discriminate He.
    + exists f. reflexivity.
Qed.

(** X21.  A tool call that reached the gateway and throws, throws the report
    of its tool: code [InvalidRequest] for set_project_context and
    [InternalError] for the others, and as text the description of the tool
    (for update_story_status "Failed to update story status: ", also when it
    is the fetch of the story that failed) followed by a message.  The
    message is that of the [Error] the last call to the gateway raised, or,
    when that call returned, the text of a TypeError raised on what it
    returned.  The context of the session is as it was, except after a
    set_project_context whose fetch succeeded. *)
Theorem backend_failures_are_reported
    (name : string) (args : JS.value) (st : State) (exn : Exn) :
  let run := Runtime.callTool show engine inherited_text toLocaleDateString
               zod_message api name args st in
  calls (snd run) <> calls st ->
  fst run = Throw exn ->
  exists (msg : string) (earlier : list Call) (c : Call),
    exn = failure_report name (mkError msg) /\
    calls (snd run) = (earlier ++ [c])%list /\
    ((exists e : Error, raised api c = Some e /\ msg = message e) \/
     (raised api c = None /\ exists f : Runtime.TypeError, msg = engine f)) /\
    (currentProjectId (snd run) = currentProjectId st \/
     name = "set_project_context" /\ raised api c = None).
Proof.
  cbv zeta. intros Hgrew Hthrow.
  destruct (runtime_callTool_end name args st) as [Hsame|Hreached].
  - exfalso. apply Hgrew. cbv zeta in Hsame. now rewrite Hsame.
  - cbv zeta in Hreached. destruct Hreached as (earlier & c & Hcalls & Hctx & Hexn).
    destruct (Hexn exn Hthrow) as (msg & -> & Hmsg).
    exists msg, earlier, c. split; [reflexivity|]. split; [exact Hcalls|].
    split; [exact Hmsg|].
    destruct Hctx as [Hsame | (Hname & pid & project & _ & Hfetch & -> & _)];
      [left; exact Hsame|].
    right. split; [exact Hname|]. unfold raised. now rewrite Hfetch.
Qed.

End RuntimeSwitch.

(** *** The status write and the default context at run time *)

Section RuntimeGuard.

Variable show : Q -> string.
Variable engine : Runtime.TypeError -> string.
Variable inherited_text : string -> string.
Variable api : Runtime.Client.t.

(** A row that the lookup finds as an own property is the row of 1, of 3 or
    of 5, and a status that is a number finds the row of its value. *)
Lemma member_own {T : Type} (v1 v3 v5 x : T) (status : Runtime.Status) :
  Runtime.member show v1 v3 v5 status = Return (Runtime.Own x) ->
  exists k : Q,
    ((k = 1 /\ x = v1) \/ (k = 3 /\ x = v3) \/ (k = 5 /\ x = v5)) /\
    forall n : JS.number, status = Runtime.Num n -> num_is n k.
Proof.
  destruct status as [n|v]; cbn.
  - destruct n as [q| |neg]; cbn; try discriminate.
    destruct (Qeq_bool q 1) eqn:E1;
      [|destruct (Qeq_bool q 3) eqn:E3; [|destruct (Qeq_bool q 5) eqn:E5]];
      intros H; inversion H; subst.
    + exists 1. split; [auto|]. intros n Hn. inversion Hn; subst.
      now apply Qeq_bool_iff.
    + exists 3. split; [auto|]. intros n Hn. inversion Hn; subst.
      now apply Qeq_bool_iff.
    + exists 5. split; [auto|]. intros n Hn. inversion Hn; subst.
      now apply Qeq_bool_iff.
  - destruct (Runtime.text_of show v) as [key|f]; cbn; [|discriminate].
    destruct (String.eqb key (show 1));
      [|destruct (String.eqb key (show 3));
        [|destruct (String.eqb key (show 5));
          [|match goal with
            | |- context [if ?c then Runtime.Inherited _ else _] => destruct c
            end]]];
      intros H; inversion H; subst.
    + exists 1. split; [auto|]. discriminate.
    + exists 3. split; [auto|]. discriminate.
    + exists 5. split; [auto|]. discriminate.
Qed.

Lemma fetched_status_number (story status : JS.value) (s : JS.number) :
  Runtime.read story "status" = Return status ->
  fetched_status story s ->
  Runtime.status_of status = Runtime.Num s.
Proof.
  intros Hread Hs. destruct (fetched_status_read story s Hs) as (status' & H & Hn).
  rewrite Hread in H. inversion H. now subst.
Qed.

(** The journal of [updateStoryStatus] from an empty one. *)
Lemma runtime_updateStoryStatus_calls (args : JS.value) (ctx : option JS.number) :
  let journal :=
    calls (snd (Runtime.updateStoryStatus show engine inherited_text api args
                  (session ctx))) in
  journal = [] \/
  (exists a : UpdateStoryStatusArgs,
      UpdateStoryStatusSchema args = Zod.Valid a /\
      journal = [GetStory (us_story_id a)]) \/
  (exists (a : UpdateStoryStatusArgs) (story status : JS.value)
          (row : list JS.number),
      UpdateStoryStatusSchema args = Zod.Valid a /\
      Runtime.Client.getStory api (us_story_id a) = Return story /\
      Runtime.read story "status" = Return status /\
      Runtime.validTransitions show (Runtime.status_of status)
        = Return (Runtime.Own row) /\
      JS.includes row (target_number (us_status a)) = true /\
      journal = [GetStory (us_story_id a);
                 UpdateStoryStatus (us_story_id a) (target_number (us_status a))]).
Proof.
  cbv zeta.
  unfold Runtime.updateStoryStatus, bind, try_catch, parse, Runtime.await,
    Runtime.eval, ret, throw.
  destruct (UpdateStoryStatusSchema args) as [a|issues] eqn:Hargs;
    [|left; reflexivity].
  cbn [session fst snd calls currentProjectId app].
  destruct (Runtime.Client.getStory api (us_story_id a)) as [story|e] eqn:Hstory;
    cbn [fst snd calls currentProjectId];
    [|right; left; exists a; split; reflexivity].
  destruct (Runtime.read story "status") as [status|f] eqn:Hread;
    cbn [fst snd calls currentProjectId];
    [|right; left; exists a; split; reflexivity].
  destruct (Runtime.validTransitions show (Runtime.status_of status))
    as [[row|key|]|f] eqn:Hrow;
    cbn [fst snd calls currentProjectId Runtime.includes];
    try (right; left; exists a; split; reflexivity).
  - destruct (JS.includes row (target_number (us_status a))) eqn:Hin;
      cbn [negb fst snd calls currentProjectId].
    + right; right. exists a, story, status, row.
      repeat (split; [first [assumption | reflexivity]|]).
      destruct (Runtime.Client.updateStoryStatus api _ _) as [[]|e];
        cbn [fst snd calls currentProjectId]; [|reflexivity].
      destruct (Runtime.interpolate show story "name");
        cbn [fst snd calls currentProjectId]; [|reflexivity].
      destruct (Runtime.statusNames show (Runtime.status_of status)); reflexivity.
    + right; left. exists a. split; [reflexivity|].
      destruct (Runtime.statusNames show (Runtime.status_of status)); reflexivity.
  - right; left. exists a. split; [reflexivity|].
    destruct (Runtime.statusNames show (Runtime.status_of status)); reflexivity.
Qed.

(** X9.  [update_story_status] never writes a status without having
    fetched the story first, and never writes outside the table: when a
    status write is in its journal, the journal is the fetch of that story,
    which succeeded, followed by the write, and the written status is one
    the table lists for the row that the status of the fetched story
    selects.  The row is that of the status itself when the status is a
    number or a string, so that (fetched, written) is then a listed
    transition. *)
Theorem status_write_follows_fetch
    (args : JS.value) (ctx : option JS.number) (id : Q) (t : JS.number) :
  let journal :=
    calls (snd (Runtime.updateStoryStatus show engine inherited_text api args
                  (session ctx))) in
  In (UpdateStoryStatus id t) journal ->
  exists (story status : JS.value) (row : list JS.number) (k : Q),
    Runtime.Client.getStory api id = Return story /\
    Runtime.read story "status" = Return status /\
    Runtime.validTransitions show (Runtime.status_of status)
      = Return (Runtime.Own row) /\
    JS.includes row t = true /\
    listed_transition (JS.Finite k) t /\
    (forall s : JS.number, fetched_status story s -> listed_transition s t) /\
    journal = [GetStory id; UpdateStoryStatus id t].
Proof.
  cbv zeta. intros Hin.
  destruct (runtime_updateStoryStatus_calls args ctx)
    as [Hj|[(a & _ & Hj)|(a & story & status & row & _ & Hstory & Hread & Hrow
                          & Hinc & Hj)]];
    cbv zeta in Hj; rewrite Hj in Hin |- *.
  - destruct Hin.
  - destruct Hin as [H|[]]. discriminate H.
  - destruct Hin as [H|[H|[]]]; [discriminate H|].
    inversion H; subst id t. clear H.
    destruct (member_own _ _ _ row _ Hrow) as (k & Hk & Hnum).
    assert (Hlisted : listed_transition (JS.Finite k)
                        (target_number (us_status a))).
    { apply transition_allowed_listed.
      destruct Hk as [[-> ->] | [[-> ->] | [-> ->]]]; exact Hinc. }
    exists story, status, row, k.
    repeat (split; [first [assumption | reflexivity]|]).
    split; [|reflexivity].
    intros s Hs.
    pose proof (Hnum s (fetched_status_number story status s Hread Hs)) as Hsk.
    unfold listed_transition in *. destruct s as [q| |neg]; cbn in Hsk;
      try contradiction.
    cbn [num_is] in *.
    destruct Hlisted as [[H1 H2]|[[H1 H2]|[[H1 H2]|[[H1 H2]|[H1 H2]]]]];
      rewrite H1 in Hsk; auto 10.
Qed.

(** X20.  The session starts from [DEFAULT_PROJECT_ID], read with
    [parseInt] and not checked: the number can be negative, it is the
    double nearest to the digits, and an infinity beyond the doubles.  When
    it is neither 0 nor NaN, info lookup, story creation and story listing
    called on valid arguments with no project id work on it; when the
    variable is unset or empty, or its text gives 0 or no number, they
    raise the no-project-context error and call nothing. *)
Theorem default_project_id_is_parsed
    (env : option string) (op : ProjectOp) (fields : list (string * JS.value)) :
  explicit_project_id op (JS.VObject fields) <> None ->
  JS.get "project_id" fields = JS.VUndefined ->
  let run := runtime_handler show engine inherited_text api op (JS.VObject fields)
               (initial env) in
  (forall s : string,
      env = Some s -> s <> "" -> JS.truthy (JS.parseInt s) = true ->
      currentProjectId (initial env) = Some (JS.parseInt s) /\
      works_on show api op fields (JS.parseInt s) run) /\
  (env = None \/ env = Some "" \/
   (exists s : string, env = Some s /\ JS.truthy (JS.parseInt s) = false) ->
   run = (Throw no_project_context, initial env)).
Proof.
  intros Hvalid Habsent run. subst run. split.
  - intros s -> Hs Htruthy.
    assert (Hctx : currentProjectId (initial (Some s)) = Some (JS.parseInt s)).
    { unfold initial. cbn [currentProjectId]. destruct s; [contradiction|].
      reflexivity. }
    split; [exact Hctx|].
    change (initial (Some s)) with (session (currentProjectId (initial (Some s)))).
    rewrite Hctx.
    apply (runtime_handler_resolved show engine inherited_text api op fields _ _
             Hvalid).
    right. auto.
  - intros Henv.
    assert (Hctx : currentProjectId (initial env) = None \/
                   exists c, currentProjectId (initial env) = Some c /\
                             JS.truthy c = false).
    { destruct Henv as [-> | [-> | (s & -> & Hs)]]; try (left; reflexivity).
      unfold initial. cbn [currentProjectId].
      destruct (JS.truthy_string s); [right; eauto | left; reflexivity]. }
    change (initial env) with (session (currentProjectId (initial env))).
    now apply runtime_handler_unresolved.
Qed.

End RuntimeGuard.

(** Twelve stories in progress, listed with the filter "3" under context
    42: ten lines and two more announced. *)
Lemma list_stories_filtered_and_capped_witness :
  let run :=
    Runtime.listStories decimal sample_type_error sample_inherited
      (Runtime.typed busy_backend) in_progress_filter
      (session (Some (JS.Finite 42))) in
  ListStoriesSchema in_progress_filter
    = Zod.Valid (mkListStoriesArgs (Some "3") None) /\
  resolves [("status", JS.VString "3")] (Some (JS.Finite 42)) (JS.Finite 42) /\
  Runtime.Client.getProjectStories (Runtime.typed busy_backend) (JS.Finite 42)
    = Return (map Runtime.story_json twelve_stories) /\
  calls (snd run) = [GetProjectStories (JS.Finite 42)] /\
  exists (kept : list Story.t) (text : string),
    kept = List.filter (at_status 3) twelve_stories /\
    length kept = 12%nat /\
    fst run = Return (text_response text) /\
    contains text
      (JS.join nl (map (listing_line decimal) (firstn 10 kept))) /\
    ends_with text "... and 2 more".
Proof.
  cbv zeta.
  assert (Hpid : resolves [("status", JS.VString "3")] (Some (JS.Finite 42))
                   (JS.Finite 42)).
  { right. split; [left; reflexivity|]. split; reflexivity. }
  split; [reflexivity|]. split; [exact Hpid|]. split; [reflexivity|].
  destruct (list_stories_filtered_and_capped decimal sample_type_error
              sample_inherited (Runtime.typed busy_backend)
              [("status", JS.VString "3")]
              (mkListStoriesArgs (Some "3") None) (Some (JS.Finite 42))
              (JS.Finite 42) twelve_stories eq_refl Hpid eq_refl)
    as (kept & label & Hfilter & Hcalls & _ & Hlisted).
  split; [exact Hcalls|].
  destruct Hfilter as [([H|H] & _)|[(H & _)|[(_ & Hkept & Hlabel)|(H & _)]]];
    try discriminate H.
  assert (Hlen : length kept = 12%nat) by (rewrite Hkept; reflexivity).
  assert (Hne : kept <> []) by (intros E; rewrite E in Hlen; discriminate Hlen).
  destruct (Hlisted Hne) as [Htext _].
  exists kept. eexists. split; [exact Hkept|]. split; [exact Hlen|].
  split; [exact Htext|].
  rewrite Hlen. cbn [Nat.ltb Nat.leb]. split.
  - do 5 apply contains_append. eexists EmptyString, _. reflexivity.
  - do 8 apply ends_with_append. apply ends_withb_sound. reflexivity.
Defined.

(** [set_project_context] on project 42, whose name cannot be printed: the
    fetch succeeds, the context becomes 42, and the call fails with the
    TypeError of the template. *)
Lemma context_changes_only_by_set_context_witness :
  let api := gateway_answering unprintable_project in
  let args := JS.VObject [("project_id", JS.VNumber 42)] in
  let run := Runtime.callTool decimal sample_type_error sample_inherited
               sample_locale_date sample_zod_message api "set_project_context"
               args (session None) in
  run = (Throw (McpError InvalidRequest
                  "Failed to set project context: Cannot convert object to primitive value"),
         mkState (Some (JS.Finite 42)) [GetProject (JS.Finite 42)]) /\
  currentProjectId (snd run) <> currentProjectId (session None) /\
  exists (pid : Q) (project : JS.value),
    SetProjectContextSchema args = Zod.Valid pid /\
    0 < pid /\
    Runtime.Client.getProject api (JS.Finite pid) = Return project /\
    currentProjectId (snd run) = Some (JS.Finite pid) /\
    forall exn : Exn,
      fst run = Throw exn ->
      exists f : Runtime.TypeError,
        exn = McpError InvalidRequest
                ("Failed to set project context: " ++ sample_type_error f).
Proof.
  cbv zeta.
  assert (H : currentProjectId
                (snd (Runtime.callTool decimal sample_type_error sample_inherited
                        sample_locale_date sample_zod_message
                        (gateway_answering unprintable_project)
                        "set_project_context"
                        (JS.VObject [("project_id", JS.VNumber 42)])
                        (session None)))
              <> currentProjectId (session None)).
  { vm_compute. discriminate. }
  split; [reflexivity|]. split; [exact H|].
  exact (proj2 (context_changes_only_by_set_context decimal sample_type_error
                  sample_inherited sample_locale_date sample_zod_message
                  (gateway_answering unprintable_project) "set_project_context"
                  (JS.VObject [("project_id", JS.VNumber 42)]) (session None) H)).
Defined.

(** A story in the backlog moved to In Progress: fetch, then write. *)
Lemma status_write_follows_fetch_witness :
  let api := Runtime.typed (sample_backend (StatusNumber 1)) in
  let journal :=
    calls (snd (Runtime.updateStoryStatus decimal sample_type_error
                  sample_inherited api (update_args (JS.VString "3"))
                  (session None))) in
  In (UpdateStoryStatus 7 (JS.Finite 3)) journal /\
  exists (story status : JS.value) (row : list JS.number) (k : Q),
    Runtime.Client.getStory api 7 = Return story /\
    Runtime.read story "status" = Return status /\
    Runtime.validTransitions decimal (Runtime.status_of status)
      = Return (Runtime.Own row) /\
    JS.includes row (JS.Finite 3) = true /\
    listed_transition (JS.Finite k) (JS.Finite 3) /\
    (forall s : JS.number,
        fetched_status story s -> listed_transition s (JS.Finite 3)) /\
    journal = [GetStory 7; UpdateStoryStatus 7 (JS.Finite 3)].
Proof.
  cbv zeta.
  assert (H : In (UpdateStoryStatus 7 (JS.Finite 3))
                (calls (snd (Runtime.updateStoryStatus decimal sample_type_error
                               sample_inherited
                               (Runtime.typed (sample_backend (StatusNumber 1)))
                               (update_args (JS.VString "3")) (session None))))).
  { vm_compute. right. left. reflexivity. }
  split; [exact H|].
  exact (status_write_follows_fetch decimal sample_type_error sample_inherited
           (Runtime.typed (sample_backend (StatusNumber 1)))
           (update_args (JS.VString "3")) None 7 (JS.Finite 3) H).
Defined.

(** [DEFAULT_PROJECT_ID=-5]: the project looked up is -5.  The digits
    9007199254740993 give the double 9007199254740992. *)
Lemma default_project_id_is_parsed_witness :
  let api := Runtime.typed (sample_backend (StatusNumber 1)) in
  explicit_project_id InfoLookup (JS.VObject []) = Some None /\
  JS.parseInt "-5" = JS.Finite (-5) /\
  JS.parseInt "9007199254740993" = JS.Finite 9007199254740992 /\
  currentProjectId (initial (Some "-5")) = Some (JS.Finite (-5)) /\
  calls (snd (runtime_handler decimal sample_type_error sample_inherited api
                InfoLookup (JS.VObject []) (initial (Some "-5"))))
    = [GetProject (JS.Finite (-5)); GetProjectStories (JS.Finite (-5))].
Proof.
  cbv zeta.
  split; [reflexivity|]. split; [reflexivity|]. split; [vm_compute; reflexivity|].
  split; [reflexivity|].
  refine (proj2 (proj1 (default_project_id_is_parsed decimal sample_type_error
                          sample_inherited
                          (Runtime.typed (sample_backend (StatusNumber 1)))
                          (Some "-5") InfoLookup [] _ eq_refl)
                   "-5" eq_refl _ eq_refl)).
  - discriminate.
  - discriminate.
Defined.

(** [get_story] on a backend whose body is [{ success: true }]: the
    gateway returns [undefined] without raising, and the handler fails on
    reading its status. *)
Lemma backend_failures_are_reported_witness :
  let api := gateway_answering (JS.VObject [("success", JS.VBool true)]) in
  let args := JS.VObject [("story_id", JS.VNumber 7)] in
  let run := Runtime.callTool decimal sample_type_error sample_inherited
               sample_locale_date sample_zod_message api "get_story" args
               (session None) in
  let exn :=
    McpError InternalError
      "Failed to get story: Cannot read properties of undefined (reading 'status')" in
  Runtime.Client.getStory api 7 = Return JS.VUndefined /\
  run = (Throw exn, mkState None [GetStory 7]) /\
  exists (msg : string) (earlier : list Call) (c : Call),
    exn = failure_report "get_story" (mkError msg) /\
    calls (snd run) = (earlier ++ [c])%list /\
    ((exists e : Error, raised api c = Some e /\ msg = message e) \/
     (raised api c = None /\
      exists f : Runtime.TypeError, msg = sample_type_error f)) /\
    (currentProjectId (snd run) = currentProjectId (session None) \/
     "get_story" = "set_project_context" /\ raised api c = None).
Proof.
  cbv zeta. split; [reflexivity|]. split; [reflexivity|].
  apply (backend_failures_are_reported decimal sample_type_error sample_inherited
           sample_locale_date sample_zod_message
           (gateway_answering (JS.VObject [("success", JS.VBool true)]))
           "get_story" (JS.VObject [("story_id", JS.VNumber 7)]) (session None)).
  - vm_compute. discriminate.
  - reflexivity.
Defined.

(** *** Structure responses of the wrong shape *)

Section GatewayShapes.

Variable show : Q -> string.
Variable engine : Gateway.Fault -> string.
Variable backend : Gateway.HttpCall -> Gateway.AxiosResult.

(** X16.  What [getProjectStories] makes of a structure response
    that lacks the expected shape.  With a falsy [success] or a falsy
    [data] the method fails with "Unable to get project stories from
    structure endpoint".  With a truthy [data], it fails with the TypeError
    of the engine when [data] has no [project] or a [null] one, when
    [epics] is truthy and no array, when an epic is [null], and when the
    [stories] of the project are truthy and neither an array nor a string;
    the message always starts with the description of the method.  Other
    wrong shapes are let through: a project that is not an object, or has
    neither epics nor stories, yields the empty list, and [stories] that is
    a string yields its code points as stories. *)
Theorem malformed_structure_outcomes
    (projectId : JS.number) (sent : list Gateway.HttpCall) (r : Gateway.Response)
    (fields : list (string * JS.value)) :
  let call := Gateway.HttpGet ("/claude-code/projects/"
                               ++ Gateway.show_number show projectId
                               ++ "/structure") in
  let failure (m : string) :=
    (Throw (A:=list JS.value)
       (mkError ("Failed to get stories for project "
                 ++ Gateway.show_number show projectId ++ ": " ++ m)),
     (sent ++ [call])%list) in
  let run := Gateway.getProjectStories show engine backend projectId sent in
  backend call = Gateway.Resolved r ->
  Gateway.data r = JS.VObject fields ->
  (Gateway.truthy (JS.get "success" fields) = false \/
   Gateway.truthy (JS.get "data" fields) = false ->
   run = failure "Unable to get project stories from structure endpoint") /\
  (forall payload project : JS.value,
      Gateway.truthy (JS.get "success" fields) = true ->
      JS.get "data" fields = payload ->
      Gateway.truthy payload = true ->
      Gateway.read_opt payload "project" = project ->
      (project = JS.VUndefined \/ project = JS.VNull ->
       run = failure (engine (Gateway.ReadOf project "epics"))) /\
      (forall epics : JS.value,
          Gateway.read_opt project "epics" = epics ->
          project <> JS.VUndefined -> project <> JS.VNull ->
          Gateway.truthy epics = true ->
          (forall xs : list JS.value, epics <> JS.VArray xs) ->
          run = failure (engine (Gateway.NotAFunction epics "forEach"))) /\
      (forall (before after : list JS.value) (ess : list (list JS.value)),
          Gateway.read_opt project "epics"
          = JS.VArray (before ++ JS.VNull :: after) ->
          Forall2 epic_holds before ess ->
          run = failure (engine (Gateway.ReadOf JS.VNull "stories"))) /\
      (forall stories : JS.value,
          project <> JS.VUndefined -> project <> JS.VNull ->
          Gateway.truthy (Gateway.read_opt project "epics") = false ->
          Gateway.read_opt project "stories" = stories ->
          (Gateway.truthy stories = false ->
           run = (Return [], (sent ++ [call])%list)) /\
          (forall s : string,
              stories = JS.VString s -> s <> "" ->
              run = (Return (map JS.VString (Gateway.code_points s)),
                     (sent ++ [call])%list)) /\
          (Gateway.truthy stories = true ->
           (forall xs : list JS.value, stories <> JS.VArray xs) ->
           (forall s : string, stories <> JS.VString s) ->
           run = failure (engine (Gateway.NotIterable stories))))).
Proof.
  intros call failure run Hback Hdata. subst run failure.
  unfold Gateway.getProjectStories, try_catch, bind, Gateway.send,
    Gateway.pure_step, ret, throw. fold call. rewrite Hback.
  unfold Gateway.body_of. rewrite Hdata. cbn [Gateway.read].
  split.
  - intros [Hs|Hd].
    + rewrite Hs. cbn -[append]. rewrite Hs. reflexivity.
    + destruct (Gateway.truthy (JS.get "success" fields)) eqn:Hs;
        cbn -[append]; [rewrite Hd | rewrite Hs]; reflexivity.
  - intros payload project Hs Hpayload Htruthy Hproject.
    rewrite Hs, Hpayload. cbn -[append]. rewrite Htruthy.
    assert (Hread : Gateway.read payload "project" = Return project).
    { subst project. destruct payload; try reflexivity; discriminate Htruthy. }
    rewrite Hread. cbn -[append].
    assert (Hfield : forall key,
               project <> JS.VUndefined -> project <> JS.VNull ->
               Gateway.read project key
               = Return (Gateway.read_opt project key)).
    { intros key H1 H2. destruct project; try reflexivity; contradiction. }
    split; [|split; [|split]].
    + intros [-> | ->]; reflexivity.
    + intros epics Hepics H1 H2 Hte Hnot.
      unfold Gateway.collect_stories. rewrite (Hfield _ H1 H2), Hepics, Hte.
      destruct epics; try reflexivity. exfalso. eapply Hnot. reflexivity.
    + intros before after ess Hepics Hess.
      assert (H1 : project <> JS.VUndefined) by (intros ->; discriminate Hepics).
      assert (H2 : project <> JS.VNull) by (intros ->; discriminate Hepics).
      unfold Gateway.collect_stories. rewrite (Hfield _ H1 H2), Hepics.
      cbn [Gateway.truthy].
      assert (Hloop : forall acc,
                 Gateway.forEach_epic (before ++ JS.VNull :: after) acc
                 = Throw (Gateway.ReadOf JS.VNull "stories")).
      { clear -Hess. induction Hess as [|epic es epics ess Hepic _ IH]; intros acc.
        - reflexivity.
        - destruct Hepic as (ef & -> & Hes). cbn [app Gateway.forEach_epic].
          now rewrite (push_stories_stands_for acc ef es Hes), IH. }
      rewrite Hloop. reflexivity.
    + intros stories H1 H2 Hepics Hstories.
      unfold Gateway.collect_stories, Gateway.push_stories.
      rewrite !(Hfield _ H1 H2), Hepics, Hstories.
      split; [|split].
      * intros Hfalsy. rewrite Hfalsy. reflexivity.
      * intros s -> Hne. cbn -[append].
        destruct s; [contradiction|]. reflexivity.
      * intros Hts Harr Hstr. rewrite Hts.
        destruct stories; try reflexivity.
        -- exfalso. eapply Hstr. reflexivity.
        -- exfalso. eapply Harr. reflexivity.
Qed.

End GatewayShapes.

(** A structure response that reports no success fails; one whose project
    is the number 5 yields no stories; one whose stories are the string
    [ab] yields two stories, [a] and [b]. *)
Lemma malformed_structure_outcomes_witness :
  let answer (body : JS.value) :=
    Gateway.getProjectStories decimal sample_engine
      (answering (Gateway.mkResponse 200 "OK" body)) (JS.Finite 42) [] in
  let sent := [Gateway.HttpGet "/claude-code/projects/42/structure"] in
  answer (JS.VObject [("success", JS.VBool false)])
    = (Throw (mkError ("Failed to get stories for project 42: "
                       ++ "Unable to get project stories from structure endpoint")),
       sent) /\
  answer (JS.VObject [("success", JS.VBool true);
                      ("data", JS.VObject [("project", JS.VNumber 5)])])
    = (Return [], sent) /\
  answer (JS.VObject
            [("success", JS.VBool true);
             ("data",
              JS.VObject [("project",
                           JS.VObject [("stories", JS.VString "ab")])])])
    = (Return [JS.VString "a"; JS.VString "b"], sent).
Proof.
  cbv zeta. split; [|split].
  - refine (proj1 (malformed_structure_outcomes decimal sample_engine
              (answering (Gateway.mkResponse 200 "OK"
                            (JS.VObject [("success", JS.VBool false)])))
              (JS.Finite 42) []
              (Gateway.mkResponse 200 "OK"
                 (JS.VObject [("success", JS.VBool false)]))
              [("success", JS.VBool false)] eq_refl eq_refl) _).
    left. reflexivity.
  - refine (proj1 (proj2 (proj2 (proj2 (proj2
              (malformed_structure_outcomes decimal sample_engine
                 (answering (Gateway.mkResponse 200 "OK"
                    (JS.VObject [("success", JS.VBool true);
                                 ("data", JS.VObject [("project", JS.VNumber 5)])])))
                 (JS.Finite 42) []
                 (Gateway.mkResponse 200 "OK"
                    (JS.VObject [("success", JS.VBool true);
                                 ("data", JS.VObject [("project", JS.VNumber 5)])]))
                 [("success", JS.VBool true);
                  ("data", JS.VObject [("project", JS.VNumber 5)])]
                 eq_refl eq_refl)
              (JS.VObject [("project", JS.VNumber 5)]) (JS.VNumber 5)
              eq_refl eq_refl eq_refl eq_refl)))
              JS.VUndefined _ _ eq_refl eq_refl) eq_refl);
      discriminate.
  - refine (proj1 (proj2 (proj2 (proj2 (proj2 (proj2
              (malformed_structure_outcomes decimal sample_engine
                 (answering (Gateway.mkResponse 200 "OK"
                    (JS.VObject
                       [("success", JS.VBool true);
                        ("data",
                         JS.VObject [("project",
                                      JS.VObject [("stories", JS.VString "ab")])])])))
                 (JS.Finite 42) []
                 (Gateway.mkResponse 200 "OK"
                    (JS.VObject
                       [("success", JS.VBool true);
                        ("data",
                         JS.VObject [("project",
                                      JS.VObject [("stories", JS.VString "ab")])])]))
                 [("success", JS.VBool true);
                  ("data",
                   JS.VObject [("project",
                                JS.VObject [("stories", JS.VString "ab")])])]
                 eq_refl eq_refl)
              (JS.VObject [("project", JS.VObject [("stories", JS.VString "ab")])])
              (JS.VObject [("stories", JS.VString "ab")])
              eq_refl eq_refl eq_refl eq_refl)))
              (JS.VString "ab") _ _ eq_refl eq_refl)) "ab" eq_refl _);
      discriminate.
Defined.
